(** * Containers-Management: provisioning and telemetry engine

    A shallow embedding of [scripts/create_container.py] and
    [scripts/monitor.py].

    - [PyStr]: the string methods of the Python runtime the scripts call
      ([strip], [lower], [split], [rsplit], slicing, decimal rendering).
    - [CreateContainer]: the provisioning script.  External effects
      ([subprocess.run], [os.makedirs], [input], [random.randint],
      [print]) are threaded through a state-and-error monad that also
      records the ordered trace of the effects performed.
    - [PyFloat]: Python's [float] (IEEE-754 binary64) on top of the
      integer-only specification [SpecFloat] of the Standard Library.
    - [Monitor]: the stats collector over the JSON documents of the
      container runtime.

    A Python [str] is modelled as a [string] whose characters are the code
    points below 256. *)

From Stdlib Require Import ZArith List String Ascii Bool Lia.
From Stdlib Require Import DecimalString SpecFloat.
Import ListNotations.

Local Open Scope string_scope.
Local Open Scope Z_scope.

(** ** Python string methods *)

Module PyStr.

(** A single character as a string, given by its code point. *)
Definition chr (n : nat) : string := String (ascii_of_nat n) EmptyString.

Definition nl : string := chr 10.
Definition dquote : string := chr 34.
Definition squote : string := chr 39.

(** [str.isspace] on one code point below 256: TAB..CR, FS..US, SPACE,
    NEL and NBSP. *)
Definition isspace (c : ascii) : bool :=
  let n := nat_of_ascii c in
  ((9 <=? n) && (n <=? 13) || (28 <=? n) && (n <=? 32)
   || (n =? 133) || (n =? 160))%nat.

Definition is_empty (s : string) : bool :=
  match s with EmptyString => true | String _ _ => false end.

Fixpoint lstrip (s : string) : string :=
  match s with
  | EmptyString => EmptyString
  | String c r => if isspace c then lstrip r else s
  end.

Fixpoint rstrip (s : string) : string :=
  match s with
  | EmptyString => EmptyString
  | String c r =>
      let r' := rstrip r in
      if isspace c && is_empty r' then EmptyString else String c r'
  end.

(** [s.strip()] *)
Definition strip (s : string) : string := lstrip (rstrip s).

(** [str.lower] on one code point below 256: A..Z and the Latin-1
    capitals (all of 192..222 except the multiplication sign 215). *)
Definition lower_char (c : ascii) : ascii :=
  let n := nat_of_ascii c in
  if ((65 <=? n) && (n <=? 90)
      || (192 <=? n) && (n <=? 222) && negb (n =? 215))%nat
  then ascii_of_nat (n + 32) else c.

(** [s.lower()] *)
Fixpoint lower (s : string) : string :=
  match s with
  | EmptyString => EmptyString
  | String c r => String (lower_char c) (lower r)
  end.

(** [s.split(sep)] for a one-character separator. *)
Fixpoint split (sep : ascii) (s : string) : list string :=
  match s with
  | EmptyString => [EmptyString]
  | String c r =>
      if Ascii.eqb c sep then EmptyString :: split sep r
      else match split sep r with
           | h :: t => String c h :: t
           | [] => [String c EmptyString]
           end
  end.

(** [s.rsplit(sep, 1)] for a one-character separator: the text before
    the last separator and the text after it, or [s] alone. *)
Fixpoint rsplit1 (sep : ascii) (s : string) : list string :=
  match s with
  | EmptyString => [EmptyString]
  | String c r =>
      match rsplit1 sep r with
      | [a; b] => [String c a; b]
      | _ => if Ascii.eqb c sep then [EmptyString; r] else [String c r]
      end
  end.

(** [l[0]] on a list of strings that [split] produced (never empty). *)
Definition item0 (l : list string) : string :=
  match l with h :: _ => h | [] => EmptyString end.

(** [s[:n]] *)
Definition take (n : nat) (s : string) : string := substring 0 n s.

(** [sep.join(l)] *)
Fixpoint join (sep : string) (l : list string) : string :=
  match l with
  | [] => EmptyString
  | [x] => x
  | x :: r => x ++ sep ++ join sep r
  end.

(** [str(n)] for an [int]. *)
Definition of_int (z : Z) : string := NilZero.string_of_int (Z.to_int z).

(** [os.path.join(a, b)] on POSIX paths. *)
Definition ends_with_slash (s : string) : bool :=
  match get (length s - 1) s with
  | Some c => Ascii.eqb c "/"%char
  | None => false
  end.

Definition path_join (a b : string) : string :=
  match b with
  | String "/"%char _ => b
  | _ => if is_empty a || ends_with_slash a then a ++ b else a ++ "/" ++ b
  end.

(** [k in d] and [d[k]] / [d.get(k)] on a dictionary with string keys,
    kept as an association list in insertion order. *)
Fixpoint dict_get {V : Type} (d : list (string * V)) (k : string) : option V :=
  match d with
  | [] => None
  | (k', v) :: r => if String.eqb k k' then Some v else dict_get r k
  end.

Definition dict_mem {V : Type} (d : list (string * V)) (k : string) : bool :=
  match dict_get d k with Some _ => true | None => false end.

End PyStr.

(** ** [scripts/create_container.py] *)

Module CreateContainer.
Import PyStr.

(** *** Exceptions *)

(** The exceptions the script can meet.  [OSError] carries the text of
    [str(e)] as the platform reports it.  All of them derive from
    [Exception]: an interrupt of the run ([KeyboardInterrupt],
    [SystemExit]), which [except Exception] lets through, is outside the
    model, and so is a failure of [print] itself. *)
Inductive exn : Type :=
| CalledProcessError (cmd : string) (returncode : Z) (output stderr : string)
| AttributeError (msg : string)
| KeyError (key : string)
| OSError (msg : string)
| EOFError.

Inductive result (A : Type) : Type :=
| Ok (a : A)
| Raise (e : exn).
Arguments Ok {A} a.
Arguments Raise {A} e.

(** [str(e)], as the f-strings of the handlers render it.  For [KeyError]
    this is [repr] of a key without quote characters; for a command killed
    by a signal (negative status) the interpreter would name the signal
    where this text gives its number. *)
Definition str_exn (e : exn) : string :=
  match e with
  | CalledProcessError cmd rc _ _ =>
      if rc <? 0
      then "Command '" ++ cmd ++ "' died with unknown signal " ++ of_int (- rc) ++ "."
      else "Command '" ++ cmd ++ "' returned non-zero exit status " ++ of_int rc ++ "."
  | AttributeError msg => msg
  | KeyError key => squote ++ key ++ squote
  | OSError msg => msg
  | EOFError => "EOF when reading a line"
  end.

(** The exception classes module [subprocess] exports.  Every other
    attribute name is either absent from the module or bound to something
    that is not an exception class. *)
Inductive exn_class : Type :=
| ClsSubprocessError
| ClsCalledProcessError
| ClsTimeoutExpired.

Definition subprocess_exceptions : list (string * exn_class) :=
  [ ("SubprocessError", ClsSubprocessError);
    ("CalledProcessError", ClsCalledProcessError);
    ("TimeoutExpired", ClsTimeoutExpired) ].

(** [subprocess.<name>], evaluated as the class of an [except] clause. *)
Definition subprocess_getattr (name : string) : result exn_class :=
  match dict_get subprocess_exceptions name with
  | Some c => Ok c
  | None => Raise (AttributeError
                     ("module 'subprocess' has no attribute '" ++ name ++ "'"))
  end.

Definition isinstance (e : exn) (c : exn_class) : bool :=
  match e, c with
  | CalledProcessError _ _ _ _, (ClsCalledProcessError | ClsSubprocessError) => true
  | _, _ => false
  end.

(** *** The platform *)

(** What [subprocess.run] hands back. *)
Record CompletedProcess : Type :=
  { returncode : Z; stdout : string; stderr : string }.

(** The externally visible effects, in the order they happen; a command
    is recorded with the exit status it returned. *)
Inductive event : Type :=
| EvPrint (text : string)
| EvInput (prompt : string)
| EvExec (command : string) (exit_status : Z)
| EvMakedirs (path : string)
| EvRandint (lo hi : Z).

(** The host the script runs on: a state and its reaction to each call
    into the outside world.
    - [shell cmd]: [subprocess.run(cmd, shell=True, ...)] without [check];
    - [os_makedirs p]: [os.makedirs(p, exist_ok=True)], [Some msg] when it
      raises [OSError];
    - [stdin_line]: the next line typed by the operator, [None] at end of
      input;
    - [random_randint a b]: [random.randint(a, b)];
    - [script_dir]: [os.path.dirname(os.path.realpath(__file__))]. *)
Class Platform (host : Type) : Type :=
  { shell : string -> host -> CompletedProcess * host;
    os_makedirs : string -> host -> option string * host;
    stdin_line : host -> option string * host;
    random_randint : Z -> Z -> host -> Z * host;
    script_dir : string }.

(** *** The effect monad: host state, trace of events, exceptions *)

Definition M (host A : Type) : Type := host -> list event * host * result A.

Definition ret {host A} (a : A) : M host A := fun h => ([], h, Ok a).

Definition raise {host A} (e : exn) : M host A := fun h => ([], h, Raise e).

Definition bind {host A B} (m : M host A) (f : A -> M host B) : M host B :=
  fun h =>
    match m h with
    | (ev1, h1, Ok a) =>
        match f a h1 with
        | (ev2, h2, r) => ((ev1 ++ ev2)%list, h2, r)
        end
    | (ev1, h1, Raise e) => (ev1, h1, Raise e)
    end.

(** [try: body / except <cls> as e: handler].  The class expression is
    evaluated only once [body] has raised; if that evaluation raises, its
    exception replaces the one being handled. *)
Definition try_except {host A} (body : M host A) (cls : result exn_class)
    (handler : exn -> M host A) : M host A :=
  fun h =>
    match body h with
    | (ev1, h1, Ok a) => (ev1, h1, Ok a)
    | (ev1, h1, Raise e) =>
        match cls with
        | Raise e' => (ev1, h1, Raise e')
        | Ok c =>
            if isinstance e c then
              match handler e h1 with
              | (ev2, h2, r) => ((ev1 ++ ev2)%list, h2, r)
              end
            else (ev1, h1, Raise e)
        end
    end.

(** [try: body / except Exception as e: handler]. *)
Definition try_except_Exception {host A} (body : M host A)
    (handler : exn -> M host A) : M host A :=
  fun h =>
    match body h with
    | (ev1, h1, Ok a) => (ev1, h1, Ok a)
    | (ev1, h1, Raise e) =>
        match handler e h1 with
        | (ev2, h2, r) => ((ev1 ++ ev2)%list, h2, r)
        end
    end.

Declare Scope py_scope.
Delimit Scope py_scope with py.
Notation "x <- c1 ;; c2" := (bind c1 (fun x => c2))
  (at level 100, c1 at next level, right associativity) : py_scope.
Notation "c1 ;;; c2" := (bind c1 (fun _ => c2))
  (at level 100, right associativity) : py_scope.

(** Projections of a run. *)
Definition events_of {host A} (r : list event * host * result A) : list event :=
  fst (fst r).
Definition host_of {host A} (r : list event * host * result A) : host :=
  snd (fst r).
Definition result_of {host A} (r : list event * host * result A) : result A :=
  snd r.

(** The commands a trace executed, in order. *)
Fixpoint execs (evs : list event) : list string :=
  match evs with
  | [] => []
  | EvExec c _ :: r => c :: execs r
  | _ :: r => execs r
  end.

(** The commands of a trace that exited with status 0, in order. *)
Fixpoint succeeded (evs : list event) : list string :=
  match evs with
  | [] => []
  | EvExec c rc :: r => if rc =? 0 then c :: succeeded r else succeeded r
  | _ :: r => succeeded r
  end.

(** *** The plan catalog *)

Record plan : Type := { cpu : string; mem : string; dockerfile : string }.

Definition PLANS : list (string * plan) :=
  [ ("vStart", {| cpu := "1"; mem := "4g"; dockerfile := "Dockerfile.vStart" |});
    ("vProfessional",
      {| cpu := "2"; mem := "8g"; dockerfile := "Dockerfile.vProfessional" |});
    ("vPopular", {| cpu := "4"; mem := "16g"; dockerfile := "Dockerfile.vPopular" |});
    ("vStable", {| cpu := "8"; mem := "32g"; dockerfile := "Dockerfile.vStable" |}) ].

(** [PLANS[plan]] *)
Definition PLANS_getitem (p : string) : result plan :=
  match dict_get PLANS p with
  | Some v => Ok v
  | None => Raise (KeyError p)
  end.

(** The gateway address [create_host_interface] derives from its subnet. *)
Definition base_ip (subnet_cidr : string) : string :=
  item0 (rsplit1 "."%char (item0 (split "/"%char subnet_cidr))).

Definition gateway_ip (subnet_cidr : string) : string :=
  base_ip subnet_cidr ++ ".1/28".

(** [c] does not occur in [s]. *)
Fixpoint no_char (c : ascii) (s : string) : bool :=
  match s with
  | EmptyString => true
  | String a r => negb (Ascii.eqb a c) && no_char c r
  end.

(** Decimal rendering of a natural number, and the CIDR text
    [a.b.c.d/p] of four octets and a prefix length. *)
Definition dec (n : N) : string := of_int (Z.of_N n).

Definition cidr (a b c d p : N) : string :=
  dec a ++ "." ++ dec b ++ "." ++ dec c ++ "." ++ dec d ++ "/" ++ dec p.

Section Script.
Context {host : Type} {P : Platform host}.
Local Open Scope py_scope.

Local Abbreviation Mh := (M host).

(** *** Primitive effects *)

Definition print (s : string) : Mh unit := fun h => ([EvPrint s], h, Ok tt).

(** [subprocess.run(command, shell=True, ...)]; the output of the command
    is taken to be text the interpreter can decode. *)
Definition subprocess_run (command : string) : Mh CompletedProcess :=
  fun h =>
    match shell command h with
    | (r, h') => ([EvExec command (returncode r)], h', Ok r)
    end.

(** [subprocess.run(command, shell=True, check=True, ...)] *)
Definition subprocess_run_check (command : string) : Mh CompletedProcess :=
  r <- subprocess_run command ;;
  if returncode r =? 0 then ret r
  else raise (CalledProcessError command (returncode r) (stdout r) (stderr r)).

(** [input(prompt)] *)
Definition input (prompt : string) : Mh string :=
  fun h =>
    match stdin_line h with
    | (Some l, h') => ([EvInput prompt], h', Ok l)
    | (None, h') => ([EvInput prompt], h', Raise EOFError)
    end.

(** [os.makedirs(path, exist_ok=True)] *)
Definition makedirs (path : string) : Mh unit :=
  fun h =>
    match os_makedirs path h with
    | (None, h') => ([EvMakedirs path], h', Ok tt)
    | (Some msg, h') => ([EvMakedirs path], h', Raise (OSError msg))
    end.

Definition randint (lo hi : Z) : Mh Z :=
  fun h => match random_randint lo hi h with (n, h') => ([EvRandint lo hi], h', Ok n) end.

(** *** The script *)

Definition DOCKERFILES_DIR : string := path_join script_dir "../Dockerfiles".

Definition random_port (start end_ : Z) : Mh Z := randint start end_.

Definition run_command (command : string) : Mh string :=
  try_except
    (result <- subprocess_run_check command ;;
     ret (strip (stdout result)))
    (subprocess_getattr "CalledCalledProcessError")
    (fun e =>
       match e with
       | CalledProcessError _ rc _ err =>
           print ("Error occurred while running command: " ++ command) ;;;
           print ("Exit Code: " ++ of_int rc) ;;;
           print ("Error Output: " ++ err) ;;;
           raise e
       | _ => raise e
       end).

(** The pieces of [build_image]: tag, recipe path and command line. *)
Definition image_tag_of (plan : string) : string := "hosting:" ++ lower plan.

Definition dockerfile_path_of (p : plan) : string :=
  path_join DOCKERFILES_DIR (dockerfile p).

Definition build_cmd (plan : string) (p : CreateContainer.plan) : string :=
  "docker build -t " ++ image_tag_of plan ++ " -f " ++ dockerfile_path_of p
  ++ " " ++ DOCKERFILES_DIR.

Definition building_message (plan : string) (p : CreateContainer.plan) : string :=
  "Building Docker image " ++ image_tag_of plan ++ " from "
  ++ dockerfile_path_of p ++ " ...".

Definition build_image (plan : string) : Mh string :=
  let image_tag := image_tag_of plan in
  match PLANS_getitem plan with
  | Raise e => raise e
  | Ok p =>
      print (building_message plan p) ;;;
      run_command (build_cmd plan p) ;;;
      ret image_tag
  end.

(** The commands of [create_host_interface]. *)
Definition ip_show_cmd (interface_name : string) : string :=
  "ip addr show " ++ interface_name.

Definition link_add_cmd (interface_name : string) : string :=
  "sudo ip link add " ++ interface_name ++ " type dummy".

Definition addr_add_cmd (gateway_ip interface_name : string) : string :=
  "sudo ip addr add " ++ gateway_ip ++ " dev " ++ interface_name.

Definition link_up_cmd (interface_name : string) : string :=
  "sudo ip link set " ++ interface_name ++ " up".

Definition create_host_interface (subnet_cidr interface_name : string) : Mh unit :=
  try_except_Exception
    (let gateway_ip := gateway_ip subnet_cidr in
     result <- subprocess_run (ip_show_cmd interface_name) ;;
     if negb (returncode result =? 0) then
       print ("Creating host interface " ++ interface_name ++ " with IP "
              ++ gateway_ip ++ " ...") ;;;
       run_command (link_add_cmd interface_name) ;;;
       run_command (addr_add_cmd gateway_ip interface_name) ;;;
       run_command (link_up_cmd interface_name) ;;;
       ret tt
     else
       print ("Interface " ++ interface_name ++ " already exists."))
    (fun e => print ("Error in creating host interface: " ++ str_exn e) ;;; raise e).

(** The commands of [create_docker_network]. *)
Definition network_ls_cmd (network_name : string) : string :=
  "docker network ls --filter name=^" ++ network_name ++ "$ -q".

Definition network_create_cmd (network_name : string) (subnet_cidr : option string)
  : string :=
  match subnet_cidr with
  | Some s =>
      if negb (is_empty s)
      then "docker network create --driver=bridge --subnet=" ++ s ++ " " ++ network_name
      else "docker network create --driver=bridge " ++ network_name
  | None => "docker network create --driver=bridge " ++ network_name
  end.

Definition create_docker_network (network_name : string)
    (subnet_cidr : option string) : Mh unit :=
  try_except_Exception
    (r <- subprocess_run (network_ls_cmd network_name) ;;
     let existing := strip (stdout r) in
     if is_empty existing then
       print ("Creating Docker network '" ++ network_name ++ "' ...") ;;;
       let cmd := network_create_cmd network_name subnet_cidr in
       match subnet_cidr with
       | Some s =>
           if negb (is_empty s)
           then create_host_interface s "docknet0"
           else ret tt
       | None => ret tt
       end ;;;
       run_command cmd ;;;
       ret tt
     else
       print ("Docker network " ++ network_name ++ " already exists."))
    (fun e => print ("Error in creating Docker network: " ++ str_exn e) ;;; raise e).

Definition remove_existing_container (name : string) : Mh unit :=
  try_except_Exception
    (r <- subprocess_run ("docker ps -a --filter name=^" ++ name ++ "$ -q") ;;
     let existing := strip (stdout r) in
     if negb (is_empty existing) then
       print ("Removing existing container '" ++ name ++ "' ...") ;;;
       run_command ("docker rm -f " ++ name) ;;;
       ret tt
     else
       print ("No existing container named " ++ name ++ " found."))
    (fun e => print ("Error in removing existing container: " ++ str_exn e) ;;; raise e).


(** The operator's answers, in the order [create_container] asks. *)
Record answers : Type :=
  { a_plan : string; a_domain : string; a_cname : string;
    a_username : string; a_password : string;
    a_db_admin_user : string; a_db_admin_pass : string;
    a_db_user : string; a_db_pass : string;
    a_subnet : string; a_network_name : string }.

Definition read_answers : Mh answers :=
  plan <- input "Plan (vStart/vProfessional/vPopular/vStable): " ;;
  domain <- input "Client Domain Name: " ;;
  cname <- input "Container Name (no spaces): " ;;
  username <- input "Container Username: " ;;
  password <- input "Container Password: " ;;
  db_admin_user <- input "Database Admin Username: " ;;
  db_admin_pass <- input "Database Admin Password: " ;;
  db_user <- input "Database Username: " ;;
  db_pass <- input "Database Password: " ;;
  subnet <- input "Optional: Docker subnet for containers (e.g., 45.59.132.208/28), leave empty for default bridge: " ;;
  network_name <- input "Docker network name (e.g., hosting_net): " ;;
  ret {| a_plan := strip plan; a_domain := strip domain; a_cname := strip cname;
         a_username := strip username; a_password := strip password;
         a_db_admin_user := strip db_admin_user;
         a_db_admin_pass := strip db_admin_pass;
         a_db_user := strip db_user; a_db_pass := strip db_pass;
         a_subnet := strip subnet; a_network_name := strip network_name |}.

Definition web_dir_of (cname : string) : string := "/srv/" ++ cname ++ "/www".

Definition docker_run_cmd (a : answers) (p : plan) (image_tag : string)
    (http_port https_port ssh_port mysql_port : Z) : string :=
  "docker run -d "
  ++ "--name " ++ a_cname a ++ " "
  ++ "--hostname " ++ a_domain a ++ " "
  ++ "--cpus=" ++ dquote ++ cpu p ++ dquote ++ " "
  ++ "--memory=" ++ dquote ++ mem p ++ dquote ++ " "
  ++ "--net " ++ a_network_name a ++ " "
  ++ "-v " ++ web_dir_of (a_cname a) ++ ":/home/" ++ a_username a ++ "/www "
  ++ "-e USERNAME=" ++ a_username a ++ " "
  ++ "-e PASSWORD=" ++ a_password a ++ " "
  ++ "-e DB_ADMIN_USER=" ++ a_db_admin_user a ++ " "
  ++ "-e DB_ADMIN_PASS=" ++ a_db_admin_pass a ++ " "
  ++ "-e DB_USER=" ++ a_db_user a ++ " "
  ++ "-e DB_PASS=" ++ a_db_pass a ++ " "
  ++ "-p " ++ of_int http_port ++ ":80 "
  ++ "-p " ++ of_int https_port ++ ":443 "
  ++ "-p " ++ of_int ssh_port ++ ":22 "
  ++ "-p " ++ of_int mysql_port ++ ":3306 "
  ++ image_tag.

Definition success_report (a : answers) (container_id : string)
    (http_port https_port ssh_port mysql_port : Z) : string :=
  nl
  ++ "        Container Created Successfully!" ++ nl
  ++ nl
  ++ "        Container ID: " ++ container_id ++ nl
  ++ "        Domain: " ++ a_domain a ++ nl
  ++ "        Plan: " ++ a_plan a ++ nl
  ++ "        Container Name: " ++ a_cname a ++ nl
  ++ "        Docker Network: " ++ a_network_name a ++ nl
  ++ "        # Removed Container IP from the success message" ++ nl
  ++ nl
  ++ nl
  ++ "        Username: " ++ a_username a ++ nl
  ++ "        Password: " ++ a_password a ++ nl
  ++ nl
  ++ "        Database Admin Username: " ++ a_db_admin_user a ++ nl
  ++ "        Database Admin Password: " ++ a_db_admin_pass a ++ nl
  ++ "        Database Username: " ++ a_db_user a ++ nl
  ++ "        Database Password: " ++ a_db_pass a ++ nl
  ++ nl
  ++ "        Website Directory: " ++ web_dir_of (a_cname a) ++ nl
  ++ nl
  ++ "        Ports (Accessible on Server IP):" ++ nl
  ++ "          HTTP: " ++ of_int http_port ++ nl
  ++ "          HTTPS: " ++ of_int https_port ++ nl
  ++ "          SSH: " ++ of_int ssh_port ++ nl
  ++ "          MySQL: " ++ of_int mysql_port ++ nl
  ++ "        ".

(** Everything [create_container] does once the answers are read and the
    plan was found in the catalog. *)
Definition provision (a : answers) : Mh unit :=
  image_tag <- build_image (a_plan a) ;;
  let web_dir := web_dir_of (a_cname a) in
  makedirs web_dir ;;;
  create_docker_network (a_network_name a)
    (if negb (is_empty (a_subnet a)) then Some (a_subnet a) else None) ;;;
  remove_existing_container (a_cname a) ;;;
  http_port <- random_port 20000 30000 ;;
  https_port <- random_port 30001 40000 ;;
  ssh_port <- random_port 40001 50000 ;;
  mysql_port <- random_port 50001 60000 ;;
  print (nl ++ "Running container " ++ a_cname a ++ " for domain " ++ a_domain a ++ " ...") ;;;
  p <- (match PLANS_getitem (a_plan a) with Ok p => ret p | Raise e => raise e end) ;;
  let docker_cmd :=
    docker_run_cmd a p image_tag http_port https_port ssh_port mysql_port in
  container_id <- run_command docker_cmd ;;
  print (success_report a container_id http_port https_port ssh_port mysql_port).

Definition invalid_plan_message : string :=
  "Invalid plan. Please choose from vStart, vProfessional, vPopular, or vStable.".

Definition create_container : Mh unit :=
  try_except_Exception
    (print "=== Hosting Container Creation ===" ;;;
     a <- read_answers ;;
     if negb (dict_mem PLANS (a_plan a)) then
       print invalid_plan_message
     else
       provision a)
    (fun e =>
       print ("Error: " ++ str_exn e) ;;;
       print "Please review the error message above to understand the issue and try again.").

End Script.

(** *** Vocabulary of the properties *)

(** What [run_command] raises when its command fails: the [except] clause
    names a class that module [subprocess] does not have. *)
Definition handler_lookup_error : exn :=
  AttributeError "module 'subprocess' has no attribute 'CalledCalledProcessError'".

Definition banner : string := "=== Hosting Container Creation ===".

(** Events that touch nothing outside the terminal. *)
Definition quiet (e : event) : Prop :=
  match e with
  | EvPrint _ | EvInput _ => True
  | _ => False
  end.

Definition is_print (e : event) : Prop :=
  match e with
  | EvPrint _ => True
  | _ => False
  end.

(** "The directory step comes first": every command of the trace has the
    creation of [web_dir] before it. *)
Definition directory_first (web_dir : string) (evs : list event) : Prop :=
  forall pre cmd rc post,
    evs = (pre ++ EvExec cmd rc :: post)%list -> In (EvMakedirs web_dir) pre.

(** "Image, then directory, then the rest": the first command of the trace
    is [build], nothing but terminal traffic happens before it, and every
    other command has the creation of [web_dir] before it. *)
Definition image_then_directory (build web_dir : string) (evs : list event) : Prop :=
  (exists pre rc post,
      evs = (pre ++ EvExec build rc :: post)%list /\ Forall quiet pre)
  /\ (forall pre cmd rc post,
        evs = (pre ++ EvExec cmd rc :: post)%list -> cmd <> build ->
        In (EvMakedirs web_dir) pre).

(** The commands that create something in [create_docker_network]: the
    three host-interface commands (run only under a subnet) and the network
    creation. *)
Definition creation_commands (network_name : string) (subnet_cidr : option string)
  : list string :=
  match subnet_cidr with
  | Some s =>
      [ link_add_cmd "docknet0"; addr_add_cmd (gateway_ip s) "docknet0";
        link_up_cmd "docknet0"; network_create_cmd network_name subnet_cidr ]
  | None => [ network_create_cmd network_name subnet_cidr ]
  end.

(** The runtime lists the network: the listing command prints something
    else than blanks. *)
Definition listed {host} {P : Platform host} (network_name : string) (h : host) : Prop :=
  is_empty (strip (stdout (fst (shell (network_ls_cmd network_name) h)))) = false.

(** *** A scripted host

    A concrete platform for examples: the operator's lines are queued, every
    command succeeds with a fixed one-line output except those listed in
    [failing], which exit with status 1 and a fixed error text; directories
    can always be created and [randint] returns its lower bound. *)
Record scripted : Type :=
  { lines : list string; failing : list string }.

Definition scripted_shell (cmd : string) (h : scripted) : CompletedProcess * scripted :=
  if existsb (String.eqb cmd) (failing h)
  then ({| returncode := 1; stdout := EmptyString; stderr := "boom" |}, h)
  else ({| returncode := 0; stdout := "3f2a9c" ++ nl; stderr := EmptyString |}, h).

Definition scripted_stdin (h : scripted) : option string * scripted :=
  match lines h with
  | [] => (None, h)
  | l :: r => (Some l, {| lines := r; failing := failing h |})
  end.

#[export] Instance scripted_platform : Platform scripted :=
  {| shell := scripted_shell;
     os_makedirs := fun _ h => (None, h);
     stdin_line := scripted_stdin;
     random_randint := fun lo _ h => (lo, h);
     script_dir := "/opt/scripts" |}.

(** A request for plan [vStart] on a host where everything succeeds. *)
Definition sample_request : scripted :=
  {| lines := ["vStart"; "example.com"; "web1"; "alice"; "pw1"; "dba"; "pw2";
               "dbu"; "pw3"; "45.59.132.208/28"; "hosting_net"];
     failing := [] |}.

(** The same request for a plan that is not in the catalog. *)
Definition unknown_plan_request : scripted :=
  {| lines := ["vGold"; "example.com"; "web1"; "alice"; "pw1"; "dba"; "pw2";
               "dbu"; "pw3"; "45.59.132.208/28"; "hosting_net"];
     failing := [] |}.

(** The same request on a host where the image build fails. *)
Definition failing_build_request : scripted :=
  {| lines := lines sample_request;
     failing :=
       ["docker build -t hosting:vstart -f /opt/scripts/../Dockerfiles/Dockerfile.vStart /opt/scripts/../Dockerfiles"] |}.

(** A host with a table of networks and a table of interfaces: the
    listing command of the network prints an identifier exactly when the
    network is in the table and the creation command adds it; showing the
    interface fails until the interface was added; every other command
    succeeds silently. *)
Record nethost : Type := { nets : list string; ifaces : list string }.

Definition exit_ok (out : string) : CompletedProcess :=
  {| returncode := 0; stdout := out; stderr := EmptyString |}.

Definition nethost_shell (name : string) (subnet : option string)
    (cmd : string) (h : nethost) : CompletedProcess * nethost :=
  if String.eqb cmd (network_ls_cmd name) then
    (exit_ok (if existsb (String.eqb name) (nets h) then "8d1c0e5a7b42" ++ nl
           else EmptyString), h)
  else if String.eqb cmd (network_create_cmd name subnet) then
    (exit_ok ("8d1c0e5a7b42" ++ nl), {| nets := name :: nets h; ifaces := ifaces h |})
  else if String.eqb cmd (ip_show_cmd "docknet0") then
    (if existsb (String.eqb "docknet0") (ifaces h) then exit_ok "4: docknet0"
     else {| returncode := 1; stdout := EmptyString;
             stderr := "Device does not exist." |}, h)
  else if String.eqb cmd (link_add_cmd "docknet0") then
    (exit_ok EmptyString, {| nets := nets h; ifaces := "docknet0" :: ifaces h |})
  else (exit_ok EmptyString, h).

Definition nethost_platform (name : string) (subnet : option string)
  : Platform nethost :=
  {| shell := nethost_shell name subnet;
     os_makedirs := fun _ h => (None, h);
     stdin_line := fun h => (None, h);
     random_randint := fun lo _ h => (lo, h);
     script_dir := "/opt/scripts" |}.

(** Provisioning [hosting_net] with a subnet on such a host, starting with
    no network and no interface. *)
Definition sample_net_platform : Platform nethost :=
  nethost_platform "hosting_net" (Some "45.59.132.208/28").

Definition sample_first_call : list event * nethost * result unit :=
  @create_docker_network _ sample_net_platform
    "hosting_net" (Some "45.59.132.208/28") {| nets := []; ifaces := [] |}.

(** "Called twice, at most once": over a call on [h] and a second call on
    the host the first one left behind, no creation command is run
    twice. *)
Definition at_most_once_over_two_calls {host} {P : Platform host}
    (network_name : string) (subnet_cidr : option string) (h : host) : Prop :=
  forall c,
    In c (creation_commands network_name subnet_cidr) ->
    (count_occ string_dec
       (execs (events_of (create_docker_network network_name subnet_cidr h)
               ++ events_of
                    (create_docker_network network_name subnet_cidr
                       (host_of (create_docker_network network_name subnet_cidr h)))))
       c <= 1)%nat.

(** The same host when the runtime refuses to create the network: the
    creation command exits with status 1 and nothing is added. *)
Definition refusing_shell (name : string) (subnet : option string)
    (cmd : string) (h : nethost) : CompletedProcess * nethost :=
  if String.eqb cmd (network_create_cmd name subnet) then
    ({| returncode := 1; stdout := EmptyString;
        stderr := "Error response from daemon: Pool overlaps with other one on this address space" |},
     h)
  else nethost_shell name subnet cmd h.

Definition refusing_platform (name : string) (subnet : option string)
  : Platform nethost :=
  {| shell := refusing_shell name subnet;
     os_makedirs := fun _ h => (None, h);
     stdin_line := fun h => (None, h);
     random_randint := fun lo _ h => (lo, h);
     script_dir := "/opt/scripts" |}.

Definition sample_refusing_platform : Platform nethost :=
  refusing_platform "hosting_net" (Some "45.59.132.208/28").

End CreateContainer.

(** ** Python's [float]

    IEEE-754 binary64, round to nearest even, computed on integers by the
    Standard Library's [SpecFloat]. *)

Module PyFloat.

Definition prec : Z := 53.
Definition emax : Z := 1024.

Definition float : Type := spec_float.

(** [0.0] *)
Definition zero : float := S754_zero false.

Definition is_finite (f : float) : bool :=
  match f with
  | S754_zero _ | S754_finite _ _ _ => true
  | S754_infinity _ | S754_nan => false
  end.

(** The binary64 number nearest to an integer (an infinity when the
    integer is out of range). *)
Definition of_Z (z : Z) : float := binary_normalize prec emax z 0 false.

(** [float(n)], as the arithmetic converts an [int] operand: [None] stands
    for [OverflowError]. *)
Definition of_int (z : Z) : option float :=
  let f := of_Z z in if is_finite f then Some f else None.

(** [a / b] on two [int]s with [b] not zero: the correctly rounded
    quotient; [None] stands for [OverflowError]. *)
Definition int_truediv (a b : Z) : option float :=
  match a with
  | Z0 => Some (S754_zero (b <? 0))
  | _ =>
      let q := SFdiv prec emax
                 (S754_finite (a <? 0) (Z.to_pos (Z.abs a)) 0)
                 (S754_finite (b <? 0) (Z.to_pos (Z.abs b)) 0) in
      if is_finite q then Some q else None
  end.

(** [x * y] on two [float]s. *)
Definition mul (x y : float) : float := SFmul prec emax x y.

(** The integer nearest to [n / d], ties to even, for [0 <= n], [0 < d]. *)
Definition div_half_even (n d : Z) : Z :=
  let q := n / d in
  let r := n mod d in
  match 2 * r ?= d with
  | Lt => q
  | Gt => q + 1
  | Eq => if Z.even q then q else q + 1
  end.

(** [round(x, ndigits)] on a [float], [0 <= ndigits]: the exact value of
    [x] is rounded to [ndigits] decimals (ties to even) and the decimal
    obtained is converted back to the nearest binary64 number. *)
Definition round (x : float) (ndigits : nat) : float :=
  match x with
  | S754_finite s m e =>
      let p := 10 ^ Z.of_nat ndigits in
      let n := if 0 <=? e then Zpos m * 2 ^ e * p
               else div_half_even (Zpos m * p) (2 ^ (- e)) in
      match n with
      | Zpos n' => SFdiv prec emax (S754_finite s n' 0) (S754_finite false (Z.to_pos p) 0)
      | _ => S754_zero s
      end
  | _ => x
  end.

(** The normal form of a positive integer below 2^53 as a binary64
    number: its bits shifted up to a 53-bit mantissa. *)
Definition canon (n : Z) : float :=
  S754_finite false (Z.to_pos (n * 2 ^ (52 - Z.log2 n))) (Z.log2 n - 52).

End PyFloat.

(** ** [scripts/monitor.py] *)

Module Monitor.
Import PyStr.

(** *** Values *)

Set Warnings "-register-all".

(** A decoded JSON document of the container runtime.  Its numbers are
    integers (the runtime's counters); a dictionary keeps its items in
    order. *)
Inductive json : Type :=
| JNull
| JBool (b : bool)
| JInt (n : Z)
| JStr (s : string)
| JList (l : list json)
| JDict (d : list (string * json)).

(** A number the collector computes: [int] or [float]. *)
Inductive num : Type :=
| NInt (n : Z)
| NFloat (f : PyFloat.float).

(** The exceptions the collector can meet, by class (the text the
    interpreter attaches to them is not modelled); [APIError] stands for
    the errors of the runtime client. *)
Inductive exn : Type :=
| AttributeError
| KeyError (key : string)
| IndexError
| TypeError
| ValueError
| ZeroDivisionError
| OverflowError
| APIError (msg : string).

Inductive result (A : Type) : Type :=
| Ok (a : A)
| Raise (e : exn).
Arguments Ok {A} a.
Arguments Raise {A} e.

Definition bind {A B} (m : result A) (f : A -> result B) : result B :=
  match m with
  | Ok a => f a
  | Raise e => Raise e
  end.

Declare Scope mon_scope.
Delimit Scope mon_scope with mon.
Notation "x <- c1 ;; c2" := (bind c1 (fun x => c2))
  (at level 100, c1 at next level, right associativity) : mon_scope.
Local Open Scope mon_scope.

Definition of_option {A} (e : exn) (o : option A) : result A :=
  match o with
  | Some a => Ok a
  | None => Raise e
  end.

(** Truth value of an object in a condition. *)
Definition truthy (j : json) : bool :=
  match j with
  | JNull => false
  | JBool b => b
  | JInt n => negb (n =? 0)
  | JStr s => negb (is_empty s)
  | JList l => match l with [] => false | _ => true end
  | JDict d => match d with [] => false | _ => true end
  end.

(** [j.get(k, default)] *)
Definition get (j : json) (k : string) (default : json) : result json :=
  match j with
  | JDict d => Ok (match dict_get d k with Some v => v | None => default end)
  | _ => Raise AttributeError
  end.

(** [j[k]] for a string [k] *)
Definition getitem (j : json) (k : string) : result json :=
  match j with
  | JDict d => of_option (KeyError k) (dict_get d k)
  | _ => Raise TypeError
  end.

(** [j[i]] for an index [0 <= i] *)
Definition getitem_int (j : json) (i : nat) : result json :=
  match j with
  | JList l => of_option IndexError (nth_error l i)
  | JStr s => of_option IndexError
                (option_map (fun c => JStr (String c EmptyString)) (String.get i s))
  | JDict _ => Raise (KeyError (of_int (Z.of_nat i)))
  | _ => Raise TypeError
  end.

(** [j.items()] *)
Definition items (j : json) : result (list (string * json)) :=
  match j with
  | JDict d => Ok d
  | _ => Raise AttributeError
  end.

(** [len(j)] *)
Definition len (j : json) : result Z :=
  match j with
  | JStr s => Ok (Z.of_nat (String.length s))
  | JList l => Ok (Z.of_nat (List.length l))
  | JDict d => Ok (Z.of_nat (List.length d))
  | _ => Raise TypeError
  end.

(** An operand of integer arithmetic: an [int], or a [bool] counting as
    0 or 1. *)
Definition as_int (j : json) : result Z :=
  match j with
  | JInt n => Ok n
  | JBool b => Ok (if b then 1 else 0)
  | _ => Raise TypeError
  end.

(** [a - b] *)
Definition sub (a b : json) : result Z :=
  x <- as_int a ;; y <- as_int b ;; Ok (x - y).

(** [j > n] for an [int] [n] *)
Definition gt (j : json) (n : Z) : result bool :=
  x <- as_int j ;; Ok (n <? x).

(** [a / b] on integers *)
Definition truediv (a b : Z) : result PyFloat.float :=
  if b =? 0 then Raise ZeroDivisionError
  else of_option OverflowError (PyFloat.int_truediv a b).

(** [x * n] for a [float] [x] and an integer [n] *)
Definition mul_int (x : PyFloat.float) (n : Z) : result PyFloat.float :=
  y <- of_option OverflowError (PyFloat.of_int n) ;; Ok (PyFloat.mul x y).

(** [round(v, 2)] *)
Definition round2 (v : num) : num :=
  match v with
  | NInt n => NInt n
  | NFloat f => NFloat (PyFloat.round f 2)
  end.

(** [int(s)] on a string: optional blanks, an optional sign, decimal
    digits that single underscores may separate.  (The length limit some
    interpreter versions put on the digit string is left out.)

    The blanks [int] skips are not those of [strip]: among the code
    points below 256 they are TAB..CR, SPACE, NEL and NBSP; the separators
    FS..US are white space for [strip] and an invalid literal for [int]. *)
Definition int_isspace (c : ascii) : bool :=
  let n := nat_of_ascii c in
  ((9 <=? n) && (n <=? 13) || (n =? 32) || (n =? 133) || (n =? 160))%nat.

Fixpoint int_lstrip (s : string) : string :=
  match s with
  | EmptyString => EmptyString
  | String c r => if int_isspace c then int_lstrip r else s
  end.

Fixpoint int_rstrip (s : string) : string :=
  match s with
  | EmptyString => EmptyString
  | String c r =>
      let r' := int_rstrip r in
      if int_isspace c && is_empty r' then EmptyString else String c r'
  end.

Definition digit_of (c : ascii) : option Z :=
  let n := nat_of_ascii c in
  if ((48 <=? n) && (n <=? 57))%nat then Some (Z.of_nat (n - 48)) else None.

Fixpoint parse_digits (s : string) (acc : Z) (after_digit : bool) : option Z :=
  match s with
  | EmptyString => if after_digit then Some acc else None
  | String c r =>
      match digit_of c with
      | Some d => parse_digits r (10 * acc + d) true
      | None =>
          if Ascii.eqb c "_"%char && after_digit then parse_digits r acc false
          else None
      end
  end.

Definition int_of_str (s : string) : option Z :=
  match int_lstrip (int_rstrip s) with
  | String "+"%char r => parse_digits r 0 false
  | String "-"%char r => option_map Z.opp (parse_digits r 0 false)
  | t => parse_digits t 0 false
  end.

(** [int(j)] *)
Definition int_of (j : json) : result Z :=
  match j with
  | JInt n => Ok n
  | JBool b => Ok (if b then 1 else 0)
  | JStr s => of_option ValueError (int_of_str s)
  | _ => Raise TypeError
  end.

(** *** The runtime client *)

(** A container object of the runtime client: its identifier, name and
    status, its inspection document [attrs], and what [stats(stream=False)]
    answers when it is called. *)
Record container : Type :=
  { c_id : string; c_name : string; c_status : string;
    c_attrs : json; c_stats : result json }.

(** The client: [containers.list(all=...)]. *)
Record client : Type :=
  { containers_list : bool -> result (list container) }.

(** What the collector does besides computing: the calls to the runtime
    and the log records. *)
Inductive event : Type :=
| EvList (all : bool)
| EvStats (id : string)
| LogInfo (msg : string)
| LogWarning (msg : string) (e : exn)
| LogError (msg : string) (e : exn).

(** One entry of the report. *)
Record row : Type :=
  { container_id : string;
    container_name : string;
    status : string;
    container_cpu_pct : num;
    container_mem_pct : num;
    container_mem_usage_bytes : json;
    container_mem_limit_bytes : json;
    ports : string }.

(** *** Module initialisation: [docker_client] *)

Definition init_docker_client (from_env : result client)
  : list event * option client :=
  match from_env with
  | Ok c => ([], Some c)
  | Raise e => ([LogWarning "Could not initialize Docker client" e], None)
  end.

(** *** [collect_container_stats] *)

(** [online_cpus] *)
Definition online_cpus_of (cpu_stats : json) : result json :=
  reported <- get cpu_stats "online_cpus" JNull ;;
  if truthy reported then Ok reported
  else
    cpu_usage <- getitem cpu_stats "cpu_usage" ;;
    percpu <- get cpu_usage "percpu_usage" (JList []) ;;
    n <- len percpu ;;
    if negb (n =? 0) then Ok (JInt n) else Ok (JInt 1).

(** [cpu_percent] of a running container *)
Definition cpu_percent_of (stats : json) : result PyFloat.float :=
  cpu_stats <- get stats "cpu_stats" (JDict []) ;;
  precpu_stats <- get stats "precpu_stats" (JDict []) ;;
  if truthy cpu_stats && truthy precpu_stats then
    cu <- getitem cpu_stats "cpu_usage" ;;
    t1 <- getitem cu "total_usage" ;;
    pu <- getitem precpu_stats "cpu_usage" ;;
    t0 <- getitem pu "total_usage" ;;
    cpu_delta <- sub t1 t0 ;;
    s1 <- get cpu_stats "system_cpu_usage" (JInt 0) ;;
    s0 <- get precpu_stats "system_cpu_usage" (JInt 0) ;;
    system_cpu_delta <- sub s1 s0 ;;
    online_cpus <- online_cpus_of cpu_stats ;;
    if 0 <? system_cpu_delta then
      positive_cpus <- gt online_cpus 0 ;;
      if positive_cpus then
        q <- truediv cpu_delta system_cpu_delta ;;
        n <- as_int online_cpus ;;
        x <- mul_int q n ;;
        mul_int x 100
      else Ok PyFloat.zero
    else Ok PyFloat.zero
  else Ok PyFloat.zero.

(** [mem_usage], [mem_limit] and [mem_percent] of a running container *)
Definition mem_of (stats : json) : result (json * json * num) :=
  ms <- get stats "memory_stats" (JDict []) ;;
  mem_usage <- get ms "usage" (JInt 0) ;;
  ms' <- get stats "memory_stats" (JDict []) ;;
  mem_limit <- get ms' "limit" (JInt 1) ;;
  if truthy mem_limit then
    u <- as_int mem_usage ;;
    l <- as_int mem_limit ;;
    q <- truediv u l ;;
    x <- mul_int q 100 ;;
    Ok (mem_usage, mem_limit, NFloat x)
  else Ok (mem_usage, mem_limit, NInt 0).

(** The four measures of one container, with the calls made to obtain
    them. *)
Definition usage_of (c : container)
  : list event * result (num * num * json * json) :=
  if String.eqb (c_status c) "running" then
    ([EvStats (c_id c)],
     stats <- c_stats c ;;
     cpu_percent <- cpu_percent_of stats ;;
     m <- mem_of stats ;;
     let '(mem_usage, mem_limit, mem_percent) := m in
     Ok (NFloat cpu_percent, mem_percent, mem_usage, mem_limit))
  else
    ([], Ok (NFloat PyFloat.zero, NFloat PyFloat.zero, JInt 0, JInt 0)).

(** One published port: a malformed binding is skipped. *)
Definition port_entry (item : string * json) : list string :=
  let '(port_name, port_binding) := item in
  if truthy port_binding then
    match (b0 <- getitem_int port_binding 0 ;;
           hp <- getitem b0 "HostPort" ;;
           int_of hp) with
    | Ok host_port => [port_name ++ "->" ++ of_int host_port]
    | Raise _ => []
    end
  else [].

Definition ports_of (attrs : json) : result (list string) :=
  ns <- get attrs "NetworkSettings" (JDict []) ;;
  p <- get ns "Ports" JNull ;;
  if truthy p then
    ns' <- getitem attrs "NetworkSettings" ;;
    p' <- getitem ns' "Ports" ;;
    its <- items p' ;;
    Ok (flat_map port_entry its)
  else Ok ["N/A"].

(** The body of the loop: the row of one container, or the logged error. *)
Definition collect_one (c : container) : list event * option row :=
  let '(evs, usage) := usage_of c in
  match (u <- usage ;; ps <- ports_of (c_attrs c) ;; Ok (u, ps)) with
  | Ok (cpu_percent, mem_percent, mem_usage, mem_limit, ps) =>
      (evs,
       Some {| container_id := take 12 (c_id c);
               container_name := c_name c;
               status := c_status c;
               container_cpu_pct := round2 cpu_percent;
               container_mem_pct := round2 mem_percent;
               container_mem_usage_bytes := mem_usage;
               container_mem_limit_bytes := mem_limit;
               ports := join ", " ps |})
  | Raise e =>
      ((evs ++ [LogError ("Error collecting stats for container " ++ take 12 (c_id c)) e])%list,
       None)
  end.

Fixpoint collect_all (cs : list container) : list event * list row :=
  match cs with
  | [] => ([], [])
  | c :: rest =>
      let '(ev1, r) := collect_one c in
      let '(ev2, rows) := collect_all rest in
      ((ev1 ++ ev2)%list,
       match r with Some x => x :: rows | None => rows end)
  end.

Definition collect_container_stats (docker_client : option client)
    (all_containers : bool) : list event * result (list row) :=
  match docker_client with
  | None =>
      ([LogInfo "Docker client not initialized. Skipping container stats collection."],
       Ok [])
  | Some cl =>
      match containers_list cl all_containers with
      | Raise e => ([EvList all_containers], Raise e)
      | Ok containers =>
          let '(evs, rows) := collect_all containers in
          (EvList all_containers :: evs, Ok rows)
      end
  end.

(** *** The formulas as the specification words them *)

(** [online_cpu_count]: the reported count, else the length of the
    per-core usage list, else 1. *)
Definition spec_online_cpu_count (reported : option Z) (percpu_len : Z) : Z :=
  match reported with
  | Some n => n
  | None => if percpu_len =? 0 then 1 else percpu_len
  end.

(** [(cpu_usage_delta / system_cpu_delta) * online_cpu_count * 100], and
    [0.0] when [system_cpu_delta <= 0]. *)
Definition spec_cpu_percent (cpu_usage_delta system_cpu_delta online_cpu_count : Z)
  : result PyFloat.float :=
  if system_cpu_delta <=? 0 then Ok PyFloat.zero
  else
    q <- truediv cpu_usage_delta system_cpu_delta ;;
    x <- mul_int q online_cpu_count ;;
    mul_int x 100.

(** [(memory_usage_bytes / memory_limit_bytes) * 100], and [0.0] when the
    limit is 0. *)
Definition spec_mem_percent (memory_usage_bytes memory_limit_bytes : Z)
  : result PyFloat.float :=
  if memory_limit_bytes =? 0 then Ok PyFloat.zero
  else
    q <- truediv memory_usage_bytes memory_limit_bytes ;;
    mul_int q 100.

(** *** Reading a stats document *)

(** [cpu_stats] is a CPU counter snapshot with cumulative CPU time [total]
    and cumulative host CPU time [system] (0 when the document does not
    carry it). *)
Definition cpu_snapshot (cpu_stats : json) (total system : Z) : Prop :=
  (exists cu, getitem cpu_stats "cpu_usage" = Ok cu
              /\ getitem cu "total_usage" = Ok (JInt total))
  /\ get cpu_stats "system_cpu_usage" (JInt 0) = Ok (JInt system).

(** The count of online CPUs [cpu_stats] reports directly, if any: a
    missing, null or zero [online_cpus] reports none. *)
Definition online_reported (cpu_stats : json) (reported : option Z) : Prop :=
  match reported with
  | Some n => 0 < n /\ get cpu_stats "online_cpus" JNull = Ok (JInt n)
  | None => get cpu_stats "online_cpus" JNull = Ok JNull
            \/ get cpu_stats "online_cpus" JNull = Ok (JInt 0)
  end.

(** The per-core usage list of [cpu_stats] (empty when the document does
    not carry it). *)
Definition percpu_usage (cpu_stats : json) (percpu : list json) : Prop :=
  exists cu, getitem cpu_stats "cpu_usage" = Ok cu
             /\ get cu "percpu_usage" (JList []) = Ok (JList percpu).

(** *** Sample containers *)

(** A stats document with CPU time 1000 then 1200, host CPU time 4000 then
    5000, the given [online_cpus] entry and the given memory entries. *)
Definition sample_stats (online : list (string * json)) (memory : list (string * json))
  : json :=
  JDict
    [ ("cpu_stats",
        JDict ([ ("cpu_usage", JDict [("total_usage", JInt 1200)]);
                 ("system_cpu_usage", JInt 5000) ] ++ online));
      ("precpu_stats",
        JDict [ ("cpu_usage", JDict [("total_usage", JInt 1000)]);
                ("system_cpu_usage", JInt 4000) ]);
      ("memory_stats", JDict memory) ].

Definition sample_attrs : json :=
  JDict
    [ ("NetworkSettings",
        JDict [ ("Ports",
                  JDict [ ("80/tcp", JList [JDict [ ("HostIp", JStr "0.0.0.0");
                                                    ("HostPort", JStr "20001") ]]);
                          ("22/tcp", JNull) ]) ]) ].

Definition sample_running : container :=
  {| c_id := "0123456789abcdef0123"; c_name := "web1"; c_status := "running";
     c_attrs := sample_attrs;
     c_stats := Ok (sample_stats [("online_cpus", JInt 4)]
                      [("usage", JInt 512000000); ("limit", JInt 1024000000)]) |}.

(** The same container when the runtime reports no memory limit. *)
Definition sample_no_limit : container :=
  {| c_id := "0123456789abcdef0123"; c_name := "web1"; c_status := "running";
     c_attrs := sample_attrs;
     c_stats := Ok (sample_stats [("online_cpus", JInt 4)]
                      [("usage", JInt 512000000)]) |}.

(** A stopped container; asking for its live counters would fail. *)
Definition sample_exited : container :=
  {| c_id := "fedcba9876543210fedc"; c_name := "web0"; c_status := "exited";
     c_attrs := JDict [("NetworkSettings", JDict [("Ports", JDict [])])];
     c_stats := Raise (APIError "container is not running") |}.

(** Python's [==] between two numbers the collector reports. *)
Definition num_eqb (a b : num) : bool :=
  match a, b with
  | NInt x, NInt y => x =? y
  | NFloat f, NFloat g => SFeqb f g
  | NInt x, NFloat f | NFloat f, NInt x =>
      match f with
      | S754_zero _ => x =? 0
      | S754_finite s m e =>
          if 0 <=? e then x =? (if s then - (Zpos m * 2 ^ e) else Zpos m * 2 ^ e)
          else (if s then - Zpos m else Zpos m) =? x * 2 ^ (- e)
      | _ => false
      end
  end.

End Monitor.

(** * Further vocabulary

    Names for the pieces of the two scripts that the properties below
    speak about; every one unfolds to the text of the script's model. *)

From Stdlib Require DecimalPos.

Module Provisioning.
Import PyStr CreateContainer.

Definition review_message : string :=
  "Please review the error message above to understand the issue and try again.".

(** The commands of [remove_existing_container]. *)
Definition ps_cmd (name : string) : string :=
  "docker ps -a --filter name=^" ++ name ++ "$ -q".

Definition rm_cmd (name : string) : string := "docker rm -f " ++ name.

(** The line printed before the container is started. *)
Definition running_message (a : answers) : string :=
  nl ++ "Running container " ++ a_cname a ++ " for domain " ++ a_domain a ++ " ...".

(** The three questions the script asks the host without checking their
    exit status: the network listing, the container listing and the
    interface lookup. *)
Definition is_probe (c : string) : bool :=
  prefix "docker network ls " c || prefix "docker ps " c || prefix "ip addr show " c.

(** An event that is no failure of a checked command. *)
Definition calm (e : event) : Prop :=
  match e with
  | EvExec c rc => rc = 0 \/ is_probe c = true
  | _ => True
  end.

(** After a checked command that failed, a trace holds messages only. *)
Fixpoint stops_at_failure (evs : list event) : Prop :=
  match evs with
  | [] => True
  | EvExec c rc :: r =>
      (rc <> 0 -> is_probe c = false -> Forall is_print r) /\ stops_at_failure r
  | _ :: r => stops_at_failure r
  end.

(** An event that passes no command line to the shell but an [allowed]
    one. *)
Definition issues_only (allowed : string -> Prop) (e : event) : Prop :=
  match e with
  | EvExec c _ => allowed c
  | _ => True
  end.

(** The exceptions that can reach the handler of [create_container]:
    neither [KeyError] nor [CalledProcessError]. *)
Definition surfaces (e : exn) : Prop :=
  match e with
  | KeyError _ | CalledProcessError _ _ _ _ => False
  | _ => True
  end.

(** A capital letter among the code points below 256. *)
Definition is_upper (c : ascii) : bool :=
  let n := nat_of_ascii c in
  ((65 <=? n) && (n <=? 90)
   || (192 <=? n) && (n <=? 222) && negb (n =? 215))%nat.

Fixpoint has_upper (s : string) : bool :=
  match s with
  | EmptyString => false
  | String c r => is_upper c || has_upper r
  end.

Section Body.
Context {host : Type} {P : Platform host}.
Local Open Scope py_scope.

(** The [try] block of [create_container] and its handler. *)
Definition create_container_body : M host unit :=
  print "=== Hosting Container Creation ===" ;;;
  a <- read_answers ;;
  if negb (dict_mem PLANS (a_plan a)) then
    print invalid_plan_message
  else
    provision a.

Definition create_container_handler (e : exn) : M host unit :=
  print ("Error: " ++ str_exn e) ;;;
  print review_message.

(** The steps of [create_container] between the plan check and the port
    draws: image, directory, network, stale container. *)
Definition prepare (a : answers) : M host string :=
  image_tag <- build_image (a_plan a) ;;
  makedirs (web_dir_of (a_cname a)) ;;;
  create_docker_network (a_network_name a)
    (if negb (is_empty (a_subnet a)) then Some (a_subnet a) else None) ;;;
  remove_existing_container (a_cname a) ;;;
  ret image_tag.

(** What the four calls of [random_port] return, one after the other, on
    a host [g], and the host each of them leaves. *)
Definition http_drawn (g : host) : Z := fst (random_randint 20000 30000 g).
Definition after_http (g : host) : host := snd (random_randint 20000 30000 g).
Definition https_drawn (g : host) : Z :=
  fst (random_randint 30001 40000 (after_http g)).
Definition after_https (g : host) : host :=
  snd (random_randint 30001 40000 (after_http g)).
Definition ssh_drawn (g : host) : Z :=
  fst (random_randint 40001 50000 (after_https g)).
Definition after_ssh (g : host) : host :=
  snd (random_randint 40001 50000 (after_https g)).
Definition mysql_drawn (g : host) : Z :=
  fst (random_randint 50001 60000 (after_ssh g)).
Definition after_mysql (g : host) : host :=
  snd (random_randint 50001 60000 (after_ssh g)).

(** The [docker run] command line of a request, for the ports drawn on
    [g]. *)
Definition launch_cmd (a : answers) (p : plan) (g : host) : string :=
  docker_run_cmd a p (image_tag_of (a_plan a))
    (http_drawn g) (https_drawn g) (ssh_drawn g) (mysql_drawn g).

(** The next [n] lines the operator types on [h], if there are that many,
    and the host once they are read. *)
Fixpoint read_lines (n : nat) (h : host) : option (list string) * host :=
  match n with
  | O => (Some [], h)
  | S n' =>
      match stdin_line h with
      | (Some l, h') =>
          let (r, h2) := read_lines n' h' in (option_map (cons l) r, h2)
      | (None, h') => (None, h')
      end
  end.

(** The command lines of a request that names no subnet, built from its
    answers: the image build, the network listing, the network creation
    without [--subnet], the container listing, the container removal and
    the container start. *)
Definition plain_command (a : answers) (c : string) : Prop :=
  (exists p, dict_get PLANS (a_plan a) = Some p /\ c = build_cmd (a_plan a) p)
  \/ c = network_ls_cmd (a_network_name a)
  \/ c = network_create_cmd (a_network_name a) None
  \/ c = ps_cmd (a_cname a)
  \/ c = rm_cmd (a_cname a)
  \/ (exists p p1 p2 p3 p4,
        dict_get PLANS (a_plan a) = Some p
        /\ c = docker_run_cmd a p (image_tag_of (a_plan a)) p1 p2 p3 p4).

(** A computation whose runs are calm when they return and stop at the
    first failure when they raise. *)
Definition orderly {A} (m : M host A) : Prop :=
  forall h,
    match result_of (m h) with
    | Ok _ => Forall calm (events_of (m h))
    | Raise _ => stops_at_failure (events_of (m h))
    end.

End Body.

(** The answers of a request for plan [vStart]. *)
Definition sample_answers : answers :=
  {| a_plan := "vStart"; a_domain := "example.com"; a_cname := "web1";
     a_username := "alice"; a_password := "pw1";
     a_db_admin_user := "dba"; a_db_admin_pass := "pw2";
     a_db_user := "dbu"; a_db_pass := "pw3";
     a_subnet := "45.59.132.208/28"; a_network_name := "hosting_net" |}.

(** The operator hangs up after two answers. *)
Definition short_input_request : scripted :=
  {| lines := ["vStart"; "example.com"]; failing := [] |}.

(** A request for the default bridge: the subnet answer is blank. *)
Definition default_bridge_request : scripted :=
  {| lines := ["vPopular"; "example.org"; "web2"; "bob"; "pw1"; "dba"; "pw2";
               "dbu"; "pw3"; "   "; "plain_net"];
     failing := [] |}.

(** The questions of [create_container], in the order they are asked, and
    the answers kept, in the same order. *)
Definition prompts : list string :=
  [ "Plan (vStart/vProfessional/vPopular/vStable): ";
    "Client Domain Name: ";
    "Container Name (no spaces): ";
    "Container Username: ";
    "Container Password: ";
    "Database Admin Username: ";
    "Database Admin Password: ";
    "Database Username: ";
    "Database Password: ";
    "Optional: Docker subnet for containers (e.g., 45.59.132.208/28), leave empty for default bridge: ";
    "Docker network name (e.g., hosting_net): " ].

Definition fields (a : answers) : list string :=
  [ a_plan a; a_domain a; a_cname a; a_username a; a_password a;
    a_db_admin_user a; a_db_admin_pass a; a_db_user a; a_db_pass a;
    a_subnet a; a_network_name a ].

(** A text [strip] leaves as it is. *)
Definition trimmed (s : string) : Prop := strip s = s.

(** A request typed with blanks around the answers. *)
Definition padded_request : scripted :=
  {| lines := ["  vStart"; "example.com  "; " web1 "; "alice"; "pw1"; "dba"; "pw2";
               "dbu"; "pw3"; " 45.59.132.208/28"; "hosting_net "];
     failing := [] |}.

(** A host where removing the stale container fails. *)
Definition failing_rm_host : scripted :=
  {| lines := []; failing := ["docker rm -f web1"] |}.

End Provisioning.

Module Reporting.
Import PyStr Monitor.

(** The containers whose live counters were requested, in order. *)
Fixpoint stats_calls (evs : list event) : list string :=
  match evs with
  | [] => []
  | EvStats id :: r => id :: stats_calls r
  | _ :: r => stats_calls r
  end.

(** The number of error records in a log. *)
Fixpoint errors_logged (evs : list event) : nat :=
  match evs with
  | [] => 0%nat
  | LogError _ _ :: r => S (errors_logged r)
  | _ :: r => errors_logged r
  end.

(** [c.status == 'running'] *)
Definition is_running (c : container) : bool :=
  String.eqb (c_status c) "running".

(** A port of the inspection document that is exposed but not published:
    its binding is null (or empty). *)
Definition unpublished (item : string * json) : bool := negb (truthy (snd item)).

(** A text made of decimal digits only. *)
Fixpoint all_digits (s : string) : bool :=
  match s with
  | EmptyString => true
  | String c r =>
      match digit_of c with Some _ => all_digits r | None => false end
  end.

(** The error record of the loop's handler. *)
Definition collect_error (c : container) (e : exn) : event :=
  LogError ("Error collecting stats for container " ++ take 12 (c_id c)) e.

(** *** More sample containers *)

(** The first reading of a container: no previous CPU snapshot and no
    memory section yet. *)
Definition sample_first_reading : container :=
  {| c_id := "00aa11bb22cc33dd44ee"; c_name := "fresh"; c_status := "running";
     c_attrs := sample_attrs;
     c_stats := Ok (JDict [ ("cpu_stats",
                              JDict [ ("cpu_usage", JDict [("total_usage", JInt 1200)]);
                                      ("system_cpu_usage", JInt 5000) ]) ]) |}.

(** A running container whose current CPU snapshot carries no
    [cpu_usage] section. *)
Definition sample_half_snapshot : container :=
  {| c_id := "99ff88ee77dd66cc55bb"; c_name := "odd"; c_status := "running";
     c_attrs := sample_attrs;
     c_stats := Ok (JDict [ ("cpu_stats", JDict [("system_cpu_usage", JInt 5000)]);
                            ("precpu_stats",
                              JDict [ ("cpu_usage", JDict [("total_usage", JInt 1000)]);
                                      ("system_cpu_usage", JInt 4000) ]) ]) |}.

(** A running container the runtime loses between the listing and the
    reading of its counters. *)
Definition sample_vanished : container :=
  {| c_id := "abcdefabcdefabcdefab"; c_name := "gone"; c_status := "running";
     c_attrs := sample_attrs;
     c_stats := Raise (APIError "No such container") |}.

(** An inspection document whose ports are exposed but not published. *)
Definition unpublished_attrs : json :=
  JDict [ ("NetworkSettings",
            JDict [ ("Ports", JDict [ ("80/tcp", JNull); ("443/tcp", JNull) ]) ]) ].

(** Two snapshots of a container that used no CPU time in between. *)
Definition idle_stats : json :=
  JDict
    [ ("cpu_stats",
        JDict [ ("cpu_usage", JDict [("total_usage", JInt 1000)]);
                ("system_cpu_usage", JInt 5000);
                ("online_cpus", JInt 4) ]);
      ("precpu_stats",
        JDict [ ("cpu_usage", JDict [("total_usage", JInt 1000)]);
                ("system_cpu_usage", JInt 4000) ]) ].

(** A runtime with one running and one stopped container; the stopped one
    is listed only on request. *)
Definition sample_listing : client :=
  {| containers_list := fun all =>
       Ok (if all then [sample_running; sample_exited] else [sample_running]) |}.

End Reporting.

(** * Properties of [create_container.py] *)

Module CreateContainerProofs.
Import PyStr CreateContainer.

(** ** String facts behind the gateway derivation *)

Lemma append_assoc (s t u : string) : (s ++ t) ++ u = s ++ (t ++ u).
Proof. induction s as [| a s IH]; simpl; [reflexivity | rewrite IH; reflexivity]. Qed.

Lemma no_char_app c s t :
  no_char c (s ++ t) = no_char c s && no_char c t.
Proof.
  induction s as [| a s IH]; simpl; [reflexivity |].
  rewrite IH. destruct (Ascii.eqb a c); reflexivity.
Qed.

Lemma split_head sep s t :
  no_char sep s = true ->
  item0 (split sep (s ++ String sep t)) = s.
Proof.
  induction s as [| a s IH]; simpl; intros Hs.
  - rewrite Ascii.eqb_refl. reflexivity.
  - destruct (Ascii.eqb a sep); [discriminate |].
    specialize (IH Hs).
    destruct (split sep (s ++ String sep t)) as [| h l]; simpl in *;
      congruence.
Qed.

Lemma rsplit1_no_sep sep s :
  no_char sep s = true -> rsplit1 sep s = [s].
Proof.
  induction s as [| a s IH]; simpl; intros Hs; [reflexivity |].
  destruct (Ascii.eqb a sep); [discriminate |].
  rewrite (IH Hs). reflexivity.
Qed.

Lemma rsplit1_last sep s t :
  no_char sep t = true ->
  rsplit1 sep (s ++ String sep t) = [s; t].
Proof.
  intros Ht. induction s as [| a s IH]; simpl.
  - rewrite (rsplit1_no_sep _ _ Ht), Ascii.eqb_refl. reflexivity.
  - rewrite IH. reflexivity.
Qed.

(** The gateway of [pre.last/mask]: everything before the last dot of the
    address part, then [.1/28]. *)
Lemma gateway_ip_shape pre last mask :
  no_char "/" pre = true -> no_char "/" last = true -> no_char "." last = true ->
  gateway_ip (pre ++ "." ++ last ++ "/" ++ mask) = pre ++ ".1/28".
Proof.
  intros H1 H2 H3. unfold gateway_ip, base_ip.
  replace (pre ++ "." ++ last ++ "/" ++ mask)
    with ((pre ++ "." ++ last) ++ String "/" mask).
  2:{ rewrite !append_assoc. reflexivity. }
  rewrite split_head.
  2:{ rewrite no_char_app. simpl. rewrite H1, H2. reflexivity. }
  change (pre ++ "." ++ last) with (pre ++ String "." last).
  rewrite rsplit1_last by assumption. reflexivity.
Qed.

Lemma no_char_cons c a r :
  no_char c (String a r) = negb (Ascii.eqb a c) && no_char c r.
Proof. reflexivity. Qed.

Lemma digit_neq (c d : ascii) :
  (nat_of_ascii c < 48 \/ 57 < nat_of_ascii c)%nat ->
  (48 <= nat_of_ascii d <= 57)%nat -> Ascii.eqb d c = false.
Proof. intros Hc Hd. apply Ascii.eqb_neq. intros ->. lia. Qed.

Lemma no_char_uint c u :
  (nat_of_ascii c < 48 \/ 57 < nat_of_ascii c)%nat ->
  no_char c (NilEmpty.string_of_uint u) = true.
Proof.
  intros Hc.
  induction u; cbn [NilEmpty.string_of_uint]; try reflexivity;
    rewrite no_char_cons, (digit_neq c _ Hc), IHu by (vm_compute; lia);
    reflexivity.
Qed.

Lemma no_char_dec c n :
  (nat_of_ascii c < 48 \/ 57 < nat_of_ascii c)%nat ->
  no_char c (dec n) = true.
Proof.
  intros Hc. unfold dec, of_int.
  assert (Z0' : no_char c "0" = true).
  { rewrite no_char_cons, (digit_neq c _ Hc) by (vm_compute; lia). reflexivity. }
  destruct n as [| p]; [exact Z0' |].
  cbn [Z.of_N Z.to_int NilZero.string_of_int].
  unfold NilZero.string_of_uint.
  destruct (Pos.to_uint p); try apply (no_char_uint c _ Hc).
  exact Z0'.
Qed.

(** C5. For every subnet in CIDR form [a.b.c.d/p], the gateway derived by
    [create_host_interface] is the first three octets followed by [.1],
    under the fixed mask [/28]; subnet 45.59.132.208/28 gives
    45.59.132.1/28. *)
Theorem gateway_ip_of_cidr :
  (forall a b c d p : N,
      gateway_ip (cidr a b c d p) = dec a ++ "." ++ dec b ++ "." ++ dec c ++ ".1/28")
  /\ gateway_ip "45.59.132.208/28" = "45.59.132.1/28".
Proof.
  split; [| reflexivity].
  intros a b c d p. unfold cidr.
  replace (dec a ++ "." ++ dec b ++ "." ++ dec c ++ "." ++ dec d ++ "/" ++ dec p)
    with ((dec a ++ "." ++ dec b ++ "." ++ dec c) ++ "." ++ dec d ++ "/" ++ dec p).
  2:{ rewrite !append_assoc. reflexivity. }
  rewrite gateway_ip_shape.
  - rewrite !append_assoc. reflexivity.
  - rewrite !no_char_app. simpl.
    rewrite !no_char_dec by (vm_compute; lia). reflexivity.
  - apply no_char_dec. vm_compute. lia.
  - apply no_char_dec. vm_compute. lia.
Qed.

(** ** Runs of the script *)

Section Runs.
Context {host : Type} {P : Platform host}.

(** What one [run_command] does, whatever the command answers. *)
Lemma run_command_eq (cmd : string) (h : host) :
  run_command cmd h =
  ([EvExec cmd (returncode (fst (shell cmd h)))], snd (shell cmd h),
   if returncode (fst (shell cmd h)) =? 0
   then Ok (strip (stdout (fst (shell cmd h))))
   else Raise handler_lookup_error).
Proof.
  unfold run_command, try_except, bind, subprocess_run_check, bind,
    subprocess_run, ret, raise.
  destruct (shell cmd h) as [r h']; simpl.
  destruct (returncode r =? 0); reflexivity.
Qed.

(** A failing command: no report is printed and the exception that leaves
    [run_command] is the failed lookup of the handler's class. *)
Lemma run_command_nonzero (cmd : string) (h : host) :
  returncode (fst (shell cmd h)) <> 0 ->
  run_command cmd h
  = ([EvExec cmd (returncode (fst (shell cmd h)))], snd (shell cmd h),
     Raise handler_lookup_error).
Proof.
  intros H. rewrite run_command_eq.
  destruct (Z.eqb_spec (returncode (fst (shell cmd h))) 0); [contradiction | reflexivity].
Qed.

Lemma events_bind {A B} (m : M host A) (f : A -> M host B) (h : host) :
  exists tl, events_of (bind m f h) = (events_of (m h) ++ tl)%list.
Proof.
  unfold bind. destruct (m h) as [[ev1 h1] [a | e]].
  - destruct (f a h1) as [[ev2 h2] r]. exists ev2. reflexivity.
  - exists []. simpl. rewrite app_nil_r. reflexivity.
Qed.

Lemma quiet_bind {A B} (m : M host A) (f : A -> M host B) (h : host) :
  Forall quiet (events_of (m h)) ->
  (forall a h', Forall quiet (events_of (f a h'))) ->
  Forall quiet (events_of (bind m f h)).
Proof.
  intros Hm Hf. unfold bind.
  destruct (m h) as [[ev1 h1] [a | e]]; [| exact Hm].
  specialize (Hf a h1). destruct (f a h1) as [[ev2 h2] r].
  apply Forall_app. split; assumption.
Qed.

Lemma quiet_input (prompt : string) (h : host) :
  Forall quiet (events_of (input prompt h)).
Proof.
  unfold input. destruct (stdin_line h) as [[l |] h']; repeat constructor.
Qed.

Lemma read_answers_quiet (h : host) :
  Forall quiet (events_of (read_answers h)).
Proof.
  unfold read_answers.
  repeat (apply quiet_bind; [apply quiet_input | intros ? ?]).
  constructor.
Qed.

Lemma build_image_eq (plan : string) (p : CreateContainer.plan) (h : host) :
  dict_get PLANS plan = Some p ->
  build_image plan h =
  ([EvPrint (building_message plan p);
    EvExec (build_cmd plan p) (returncode (fst (shell (build_cmd plan p) h)))],
   snd (shell (build_cmd plan p) h),
   if returncode (fst (shell (build_cmd plan p) h)) =? 0
   then Ok (image_tag_of plan) else Raise handler_lookup_error).
Proof.
  intros Hp. unfold build_image, PLANS_getitem. rewrite Hp.
  unfold bind at 1. unfold print. unfold bind. rewrite run_command_eq.
  destruct (returncode (fst (shell (build_cmd plan p) h)) =? 0); reflexivity.
Qed.

Lemma events_makedirs (path : string) (h : host) :
  events_of (makedirs path h) = [EvMakedirs path].
Proof. unfold makedirs. destruct (os_makedirs path h) as [[msg |] h']; reflexivity. Qed.

(** The run of [provision] under a plan of the catalog: the build comes
    first; the directory step follows exactly when the build succeeded. *)
Lemma provision_events (a : answers) (p : plan) (h : host) :
  dict_get PLANS (a_plan a) = Some p ->
  let build := build_cmd (a_plan a) p in
  exists rest,
    events_of (provision a h)
    = EvPrint (building_message (a_plan a) p)
      :: EvExec build (returncode (fst (shell build h))) :: rest
    /\ (returncode (fst (shell build h)) = 0 ->
        exists rest', rest = EvMakedirs (web_dir_of (a_cname a)) :: rest')
    /\ (returncode (fst (shell build h)) <> 0 ->
        rest = [] /\ result_of (provision a h) = Raise handler_lookup_error).
Proof.
  intros Hp build.
  pose proof (build_image_eq _ _ h Hp) as Hb. fold build in Hb.
  destruct (Z.eqb_spec (returncode (fst (shell build h))) 0) as [E | E].
  - unfold provision. unfold bind at 1. rewrite Hb.
    match goal with
    | |- context [bind (makedirs ?w) ?k ?x] =>
        destruct (events_bind (makedirs w) k x) as [tl Htl];
        destruct (bind (makedirs w) k x) as [[ev2 h2] r2] eqn:Eb
    end.
    rewrite events_makedirs in Htl. cbn in Htl. subst ev2.
    eexists. split; [reflexivity |]. split; [| contradiction].
    intros _. eexists. reflexivity.
  - assert (Hpr : provision a h
                  = ([EvPrint (building_message (a_plan a) p);
                      EvExec build (returncode (fst (shell build h)))],
                     snd (shell build h), Raise handler_lookup_error)).
    { unfold provision. unfold bind at 1. rewrite Hb. reflexivity. }
    rewrite Hpr. exists []. split; [reflexivity |]. split; [contradiction |].
    intros _. split; reflexivity.
Qed.

Lemma unknown_plan_not_member (s : string) :
  ~ In s ["vStart"; "vProfessional"; "vPopular"; "vStable"] ->
  dict_mem PLANS s = false.
Proof.
  intros H. unfold dict_mem, PLANS. cbn [dict_get].
  repeat match goal with
         | |- context [String.eqb s ?k] =>
             destruct (String.eqb_spec s k) as [-> | _];
             [exfalso; apply H; simpl; tauto |]
         end.
  reflexivity.
Qed.

Lemma known_plan_member (s : string) (p : plan) :
  dict_get PLANS s = Some p -> dict_mem PLANS s = true.
Proof. intros H. unfold dict_mem. rewrite H. reflexivity. Qed.

(** The run of [create_container] once the answers were read. *)
Lemma create_container_unknown (h h1 : host) evs (a : answers) :
  read_answers h = (evs, h1, Ok a) ->
  dict_mem PLANS (a_plan a) = false ->
  create_container h
  = (((EvPrint banner :: evs) ++ [EvPrint invalid_plan_message])%list, h1, Ok tt).
Proof.
  intros Hr Hm. unfold create_container, try_except_Exception.
  unfold bind at 1. unfold print at 1. unfold bind at 1.
  rewrite Hr, Hm. reflexivity.
Qed.

Lemma create_container_known (h h1 : host) evs (a : answers) :
  read_answers h = (evs, h1, Ok a) ->
  dict_mem PLANS (a_plan a) = true ->
  exists tl,
    events_of (create_container h)
    = ((EvPrint banner :: evs) ++ events_of (provision a h1) ++ tl)%list
    /\ (forall e, result_of (provision a h1) = Raise e -> Forall is_print tl)
    /\ (forall u, result_of (provision a h1) = Ok u -> tl = []).
Proof.
  intros Hr Hm. unfold create_container, try_except_Exception.
  unfold bind at 1. unfold print at 1. unfold bind at 1.
  rewrite Hr, Hm. cbn [negb].
  destruct (provision a h1) as [[ev2 h2] [u | e]].
  - exists []. cbn. rewrite !app_nil_r. split; [reflexivity |].
    split; [discriminate | reflexivity].
  - eexists. split.
    + unfold bind, print. cbn. rewrite <- app_assoc. reflexivity.
    + split; [intros _ _; repeat constructor | discriminate].
Qed.

End Runs.

(** ** Trace ordering *)

Lemma first_exec_split (Q R pre post : list event) (b c : string) (rb rc : Z) :
  Forall quiet Q ->
  (Q ++ EvExec b rb :: R = pre ++ EvExec c rc :: post)%list ->
  (pre = Q /\ c = b /\ post = R)
  \/ (exists pre', pre = (Q ++ EvExec b rb :: pre')%list
                   /\ R = (pre' ++ EvExec c rc :: post)%list).
Proof.
  intros HQ. revert pre. induction Q as [| q Q IH]; intros pre E.
  - destruct pre as [| x pre]; simpl in E.
    + injection E as -> _ ->. left. auto.
    + injection E as <- ->. right. exists pre. auto.
  - inversion HQ as [| ? ? Hq HQ']; subst.
    destruct pre as [| x pre]; simpl in E.
    + injection E as -> _. contradiction.
    + injection E as <- E. destruct (IH HQ' _ E) as [(-> & -> & ->) | (pre' & -> & ->)].
      * left. auto.
      * right. exists pre'. auto.
Qed.

Lemma prints_have_no_exec (tl pre post : list event) (c : string) (rc : Z) :
  Forall is_print tl -> tl <> (pre ++ EvExec c rc :: post)%list.
Proof.
  intros H ->. apply Forall_app in H as [_ H].
  inversion H as [| ? ? Hc _]. exact Hc.
Qed.

(** ** The command executor *)

(** C1. A command that exits with status 1 and the error text [boom]:
    [run_command] prints nothing about it (neither the command, the exit
    code nor the captured error text) and what it raises is the
    [AttributeError] of the handler's class lookup, not the failure of the
    command.  The failure still aborts [create_container], whose top-level
    handler reports that [AttributeError]. *)
Theorem run_command_failure_not_reported :
  shell "docker rm -f web1" {| lines := []; failing := ["docker rm -f web1"] |}
  = ({| returncode := 1; stdout := EmptyString; stderr := "boom" |},
     {| lines := []; failing := ["docker rm -f web1"] |})
  /\ run_command "docker rm -f web1" {| lines := []; failing := ["docker rm -f web1"] |}
     = ([EvExec "docker rm -f web1" 1],
        {| lines := []; failing := ["docker rm -f web1"] |},
        Raise (AttributeError
                 "module 'subprocess' has no attribute 'CalledCalledProcessError'"))
  /\ skipn 12 (events_of (create_container failing_build_request))
     = [ EvPrint "Building Docker image hosting:vstart from /opt/scripts/../Dockerfiles/Dockerfile.vStart ...";
         EvExec "docker build -t hosting:vstart -f /opt/scripts/../Dockerfiles/Dockerfile.vStart /opt/scripts/../Dockerfiles" 1;
         EvPrint "Error: module 'subprocess' has no attribute 'CalledCalledProcessError'";
         EvPrint "Please review the error message above to understand the issue and try again." ].
Proof. repeat split; reflexivity. Qed.

(** ** The plan catalog *)

(** C7. The four plans of the catalog carry their CPU and memory limits;
    any other identifier is not in the catalog, and a request that names
    one is answered by the invalid-plan message alone: besides the prompts
    and that message nothing happens, no command is run and no directory is
    created. *)
Theorem plan_catalog_and_unknown_plan :
  (PLANS_getitem "vStart"
     = Ok {| cpu := "1"; mem := "4g"; dockerfile := "Dockerfile.vStart" |}
   /\ PLANS_getitem "vProfessional"
     = Ok {| cpu := "2"; mem := "8g"; dockerfile := "Dockerfile.vProfessional" |}
   /\ PLANS_getitem "vPopular"
     = Ok {| cpu := "4"; mem := "16g"; dockerfile := "Dockerfile.vPopular" |}
   /\ PLANS_getitem "vStable"
     = Ok {| cpu := "8"; mem := "32g"; dockerfile := "Dockerfile.vStable" |})
  /\ (forall s : string,
        ~ In s ["vStart"; "vProfessional"; "vPopular"; "vStable"] ->
        PLANS_getitem s = Raise (KeyError s))
  /\ (forall (host : Type) (P : Platform host) (h h1 : host) evs (a : answers),
        read_answers h = (evs, h1, Ok a) ->
        ~ In (a_plan a) ["vStart"; "vProfessional"; "vPopular"; "vStable"] ->
        create_container h
        = ((EvPrint banner :: evs) ++ [EvPrint invalid_plan_message], h1, Ok tt)%list
        /\ Forall quiet (events_of (create_container h))
        /\ execs (events_of (create_container h)) = []).
Proof.
  split; [repeat split; reflexivity |]. split.
  - intros s Hs. apply unknown_plan_not_member in Hs.
    unfold PLANS_getitem, dict_mem in *.
    destruct (dict_get PLANS s); [discriminate | reflexivity].
  - intros host P h h1 evs a Hr Hs.
    apply unknown_plan_not_member in Hs.
    pose proof (create_container_unknown h h1 evs a Hr Hs) as Hc.
    assert (Hq : Forall quiet (events_of (create_container h))).
    { rewrite Hc. cbn [events_of fst].
      pose proof (read_answers_quiet h) as Hq. rewrite Hr in Hq. cbn in Hq.
      constructor; [exact I |]. apply Forall_app. split; [exact Hq |].
      repeat constructor. }
    split; [exact Hc |]. split; [exact Hq |].
    induction Hq as [| e l He _ IH]; [reflexivity |].
    destruct e; try contradiction; exact IH.
Qed.

Lemma plan_catalog_and_unknown_plan_witness :
  read_answers unknown_plan_request
  = (events_of (read_answers unknown_plan_request),
     {| lines := []; failing := [] |},
     Ok {| a_plan := "vGold"; a_domain := "example.com"; a_cname := "web1";
           a_username := "alice"; a_password := "pw1";
           a_db_admin_user := "dba"; a_db_admin_pass := "pw2";
           a_db_user := "dbu"; a_db_pass := "pw3";
           a_subnet := "45.59.132.208/28"; a_network_name := "hosting_net" |})
  /\ execs (events_of (create_container unknown_plan_request)) = [].
Proof.
  split; [reflexivity |].
  refine (proj2 (proj2 (proj2 (proj2 plan_catalog_and_unknown_plan)
                          scripted scripted_platform unknown_plan_request
                          _ _ _ eq_refl _))).
  simpl. intros H. repeat destruct H as [H | H]; try discriminate H; exact H.
Defined.

(** ** The order of the provisioning steps *)

(** The claim that the directory step precedes every command fails on a
    plain request for plan [vStart]: the image is built before
    [/srv/web1/www] is created. *)
Lemma directory_first_fails :
  ~ directory_first "/srv/web1/www" (events_of (create_container sample_request)).
Proof.
  intros H.
  specialize (H (firstn 13 (events_of (create_container sample_request)))
                "docker build -t hosting:vstart -f /opt/scripts/../Dockerfiles/Dockerfile.vStart /opt/scripts/../Dockerfiles"
                0
                (skipn 14 (events_of (create_container sample_request)))
                eq_refl).
  vm_compute in H.
  repeat destruct H as [H | H]; try discriminate H; exact H.
Qed.

(** C2, as the script orders the steps.  For every request whose plan is
    in the catalog: the image build is the first command, with nothing but
    prompts and messages before it; the directory [/srv/{name}/www] is
    created once the build has succeeded; and every other command (the
    network commands among them) runs after the directory was created. *)
Theorem image_build_then_directory_then_network :
  forall (host : Type) (P : Platform host) (h h1 : host) evs (a : answers) (p : plan),
    read_answers h = (evs, h1, Ok a) ->
    dict_get PLANS (a_plan a) = Some p ->
    image_then_directory (build_cmd (a_plan a) p) (web_dir_of (a_cname a))
      (events_of (create_container h))
    /\ (returncode (fst (shell (build_cmd (a_plan a) p) h1)) = 0 ->
        In (EvMakedirs (web_dir_of (a_cname a))) (events_of (create_container h))).
Proof.
  intros host P h h1 evs a p Hr Hp.
  destruct (create_container_known h h1 evs a Hr (known_plan_member _ _ Hp))
    as (tl & Hev & Hraise & Hok).
  destruct (provision_events a p h1 Hp) as (rest & Hpe & Hgood & Hbad).
  set (build := build_cmd (a_plan a) p) in *.
  set (web := web_dir_of (a_cname a)) in *.
  set (Q := ((EvPrint banner :: evs) ++ [EvPrint (building_message (a_plan a) p)])%list).
  assert (HQ : Forall quiet Q).
  { pose proof (read_answers_quiet h) as Hq. rewrite Hr in Hq. cbn in Hq.
    unfold Q. apply Forall_app. split; [constructor; [exact I | exact Hq] |].
    repeat constructor. }
  assert (Hshape : events_of (create_container h)
                   = (Q ++ EvExec build (returncode (fst (shell build h1)))
                        :: (rest ++ tl))%list).
  { rewrite Hev, Hpe. unfold Q. rewrite <- !app_assoc. reflexivity. }
  assert (Hafter : returncode (fst (shell build h1)) = 0 ->
                   exists rest', (rest ++ tl)%list = EvMakedirs web :: rest').
  { intros E. destruct (Hgood E) as (rest' & ->). eexists. reflexivity. }
  split; [split |].
  - exists Q, (returncode (fst (shell build h1))), (rest ++ tl)%list.
    split; assumption.
  - intros pre cmd rc post E Hneq. rewrite Hshape in E.
    destruct (first_exec_split _ _ _ _ _ _ _ _ HQ E)
      as [(_ & -> & _) | (pre' & -> & Hrest)]; [contradiction |].
    destruct (Z.eq_dec (returncode (fst (shell build h1))) 0) as [E0 | E0].
    + destruct (Hafter E0) as (rest' & Hr').
      rewrite Hr' in Hrest. destruct pre' as [| x pre']; [discriminate |].
      injection Hrest as <- _.
      apply in_or_app. right. right. left. reflexivity.
    + destruct (Hbad E0) as (-> & Hres). exfalso.
      exact (prints_have_no_exec _ _ _ _ _ (Hraise _ Hres) Hrest).
  - intros E0. rewrite Hshape. destruct (Hafter E0) as (rest' & ->).
    apply in_or_app. right. right. left. reflexivity.
Qed.

Lemma image_build_then_directory_then_network_witness :
  In (EvMakedirs "/srv/web1/www") (events_of (create_container sample_request)).
Proof.
  refine (proj2 (image_build_then_directory_then_network
                   scripted scripted_platform sample_request _ _ _
                   {| cpu := "1"; mem := "4g"; dockerfile := "Dockerfile.vStart" |}
                   eq_refl eq_refl) eq_refl).
Defined.

(** ** The network provisioner *)

Lemma execs_app (l1 l2 : list event) :
  execs (l1 ++ l2) = (execs l1 ++ execs l2)%list.
Proof.
  induction l1 as [| e l1 IH]; [reflexivity |].
  destruct e; simpl; rewrite IH; reflexivity.
Qed.

Lemma succeeded_app (l1 l2 : list event) :
  succeeded (l1 ++ l2) = (succeeded l1 ++ succeeded l2)%list.
Proof.
  induction l1 as [| e l1 IH]; [reflexivity |].
  destruct e as [| | cmd rc | |]; cbn [succeeded app]; rewrite IH; try reflexivity.
  destruct (rc =? 0); reflexivity.
Qed.

(** One step of a run: name what the next command answers and whether it
    succeeded. *)
Ltac run_step :=
  match goal with
  | |- context [run_command ?c ?h] => rewrite (run_command_eq c h)
  | |- context [shell ?c ?h] =>
      let r := fresh "r" in
      let h' := fresh "h" in
      let E := fresh "Esh" in
      destruct (shell c h) as [r h'] eqn:E; cbn [fst snd]
  | |- context [returncode ?r =? 0] =>
      let E := fresh "Erc" in destruct (returncode r =? 0) eqn:E
  | |- context [is_empty ?s] =>
      let E := fresh "Eem" in destruct (is_empty s) eqn:E
  end.

Ltac run_all :=
  unfold create_docker_network, create_host_interface, try_except_Exception,
    bind, subprocess_run, print, ret, raise;
  repeat (run_step; cbn [negb events_of result_of host_of fst snd app execs]).

(** Two command lines that differ in their fixed text. *)
Ltac cmd_neq :=
  unfold network_ls_cmd, network_create_cmd, ip_show_cmd, link_add_cmd,
    addr_add_cmd, link_up_cmd;
  repeat match goal with
         | |- context [if ?b then _ else _] => destruct b
         | |- context [match ?o with Some _ => _ | None => _ end] => destruct o
         end;
  cbn; discriminate.

Ltac nodup_cmds :=
  repeat (constructor;
          [ let H := fresh "Hin" in
            cbn [In]; intros H;
            repeat (destruct H as [H | H]; [revert H; cmd_neq |]);
            exact H
          |]);
  constructor.

Section Network.
Context {host : Type} {P : Platform host}.
Variables (name : string) (subnet : option string).

(** No command line is executed twice within one call. *)
Lemma create_docker_network_execs_NoDup (h : host) :
  NoDup (execs (events_of (create_docker_network name subnet h))).
Proof.
  destruct subnet as [s |]; run_all; nodup_cmds.
Qed.

(** A listed network: one listing command, one message, nothing else. *)
Lemma create_docker_network_listed (h : host) :
  listed name h ->
  create_docker_network name subnet h
  = ([EvExec (network_ls_cmd name)
        (returncode (fst (shell (network_ls_cmd name) h)));
      EvPrint ("Docker network " ++ name ++ " already exists.")],
     snd (shell (network_ls_cmd name) h), Ok tt).
Proof.
  unfold listed. intros Hl.
  unfold create_docker_network, try_except_Exception, bind, subprocess_run.
  destruct (shell (network_ls_cmd name) h) as [r h0]. cbn [fst snd] in *.
  rewrite Hl. reflexivity.
Qed.

Lemma ls_not_creation :
  ~ In (network_ls_cmd name) (creation_commands name subnet).
Proof.
  unfold creation_commands. destruct subnet as [s |]; cbn [In]; intros H;
    repeat (destruct H as [H | H]; [revert H; cmd_neq |]); exact H.
Qed.

Lemma count_succeeded_le (evs : list event) (c : string) :
  (count_occ string_dec (succeeded evs) c <= count_occ string_dec (execs evs) c)%nat.
Proof.
  induction evs as [| e evs IH]; [reflexivity |].
  destruct e as [| | cmd rc | |]; cbn [succeeded execs]; try exact IH.
  destruct (rc =? 0); cbn [count_occ]; destruct (string_dec cmd c); lia.
Qed.

(** A call that raises has not created the network. *)
Lemma create_docker_network_raise_not_created (h : host) (e : exn) :
  result_of (create_docker_network name subnet h) = Raise e ->
  ~ In (network_create_cmd name subnet)
       (succeeded (events_of (create_docker_network name subnet h))).
Proof.
  destruct subnet as [s |]; run_all; intros Hres; try discriminate Hres;
    cbn [succeeded app];
    repeat match goal with
           | E : (returncode ?r =? 0) = _ |- _ => rewrite E; clear E
           end;
    repeat match goal with
           | |- context [returncode ?r =? 0] => destruct (returncode r =? 0)
           end;
    cbn [In]; intros Hin;
    repeat (destruct Hin as [Hin | Hin]; [revert Hin; cmd_neq |]);
    exact Hin.
Qed.

Hypothesis created_is_listed :
  forall h : host,
    returncode (fst (shell (network_create_cmd name subnet) h)) = 0 ->
    listed name (snd (shell (network_create_cmd name subnet) h)).

Hypothesis listing_is_stable :
  forall h : host,
    listed name h -> listed name (snd (shell (network_ls_cmd name) h)).

(** After a call that returned normally the network is listed. *)
Lemma create_docker_network_ok_listed (h h1 : host) evs1 :
  create_docker_network name subnet h = (evs1, h1, Ok tt) ->
  listed name h1.
Proof.
  pose proof created_is_listed as Hq. pose proof listing_is_stable as Hs.
  destruct subnet as [s |]; run_all; intros Hres;
    try discriminate Hres; injection Hres as <- <-;
    try (match goal with
         | E : shell (network_create_cmd _ _) ?hk = (_, ?h') |- listed _ ?h' =>
             specialize (Hq hk); rewrite E in Hq; cbn [fst snd] in Hq;
             apply Hq; apply Z.eqb_eq; assumption
         end);
    match goal with
    | E : shell (network_ls_cmd _) ?hk = (_, ?h') |- listed _ ?h' =>
        specialize (Hs hk); unfold listed in Hs at 1; rewrite E in Hs;
        cbn [fst snd] in Hs; apply Hs; assumption
    end.
Qed.

End Network.




End CreateContainerProofs.

(** * Exact integer arithmetic in binary64

    Integers below 2^53 are binary64 numbers; quotients and products of
    integers that stay below 2^53 are computed without rounding. *)

Module PyFloatProofs.
Import PyFloat.

Lemma Zdigits2_log2 p : Zdigits2 (Zpos p) = Z.log2 (Zpos p) + 1.
Proof.
  assert (H : forall q, digits2_pos q = Pos.size q).
  { induction q; simpl; congruence. }
  destruct p; simpl; rewrite ?H; lia.
Qed.

Lemma iter_pos_nat {A} (f : A -> A) (p : positive) (x : A) :
  iter_pos f p x = Nat.iter (Pos.to_nat p) f x.
Proof.
  revert x. induction p as [p IH | p IH |]; intros x; cbn [iter_pos].
  - rewrite !IH, Pos2Nat.inj_xI. cbn [Nat.iter].
    rewrite <- Nat.iter_add. replace (Pos.to_nat p + Pos.to_nat p)%nat with (2 * Pos.to_nat p)%nat by lia.
    rewrite <- Nat.iter_succ_r. reflexivity.
  - rewrite !IH, Pos2Nat.inj_xO, <- Nat.iter_add.
    replace (Pos.to_nat p + Pos.to_nat p)%nat with (2 * Pos.to_nat p)%nat by lia. reflexivity.
  - reflexivity.
Qed.

Lemma shr_1_even (z : Z) :
  0 < z -> shr_1 {| shr_m := 2 * z; shr_r := false; shr_s := false |}
           = {| shr_m := z; shr_r := false; shr_s := false |}.
Proof. destruct z; try lia. intros _. reflexivity. Qed.

Lemma iter_shr_1_exact (n : nat) (z : Z) :
  0 < z ->
  Nat.iter n shr_1 {| shr_m := z * 2 ^ Z.of_nat n; shr_r := false; shr_s := false |}
  = {| shr_m := z; shr_r := false; shr_s := false |}.
Proof.
  intros Hz. induction n as [| n IH].
  - cbn [Nat.iter]. rewrite Z.mul_1_r. reflexivity.
  - rewrite Nat.iter_succ_r, Nat2Z.inj_succ, Z.pow_succ_r by lia.
    replace (z * (2 * 2 ^ Z.of_nat n)) with (2 * (z * 2 ^ Z.of_nat n)) by ring.
    rewrite shr_1_even by (apply Z.mul_pos_pos; [lia | apply Z.pow_pos_nonneg; lia]).
    exact IH.
Qed.

(** Rounding a 53-bit mantissa followed by [t] zero bits is exact. *)
Lemma binary_round_aux_exact (s : bool) (c : positive) (t e : Z) :
  Z.log2 (Zpos c) = 52 -> 0 <= t -> -1074 <= e + t <= 971 ->
  binary_round_aux prec emax s (Zpos c * 2 ^ t) e loc_Exact
  = S754_finite s c (e + t).
Proof.
  intros Hc Ht He.
  assert (Hpos : 0 < Zpos c * 2 ^ t) by (apply Z.mul_pos_pos; [lia | apply Z.pow_pos_nonneg; lia]).
  assert (Hd : Zdigits2 (Zpos c * 2 ^ t) = 53 + t).
  { destruct (Zpos c * 2 ^ t) eqn:E; try lia.
    rewrite Zdigits2_log2, <- E, Z.log2_mul_pow2 by lia. lia. }
  assert (Hd' : Zdigits2 (Zpos c) = 53) by (rewrite Zdigits2_log2; lia).
  assert (Hsh : shr_fexp prec emax (Zpos c * 2 ^ t) e loc_Exact
                = ({| shr_m := Zpos c; shr_r := false; shr_s := false |}, e + t)).
  { unfold shr_fexp. rewrite Hd. unfold fexp, emin, prec, emax.
    replace (Z.max (53 + t + e - 53) (3 - 1024 - 53) - e) with t by lia.
    cbn [shr_record_of_loc]. unfold shr.
    destruct t as [| tp | tp]; try lia.
    - rewrite Z.mul_1_r, Z.add_0_r. reflexivity.
    - rewrite iter_pos_nat.
      rewrite <- (positive_nat_Z tp) at 1.
      rewrite iter_shr_1_exact by lia. reflexivity. }
  assert (Hsh' : shr_fexp prec emax (Zpos c) (e + t) loc_Exact
                = ({| shr_m := Zpos c; shr_r := false; shr_s := false |}, e + t)).
  { unfold shr_fexp. rewrite Hd'. unfold fexp, emin, prec, emax.
    replace (Z.max (53 + (e + t) - 53) (3 - 1024 - 53) - (e + t)) with 0 by lia.
    reflexivity. }
  unfold binary_round_aux. rewrite Hsh. cbn [shr_m loc_of_shr_record round_nearest_even].
  rewrite Hsh'. cbn [shr_m]. unfold emax, prec.
  destruct (Z.leb_spec (e + t) (1024 - 53)); [reflexivity | lia].
Qed.

Lemma log2_small (n : Z) : 0 < n < 2 ^ 53 -> 0 <= Z.log2 n <= 52.
Proof.
  intros [H0 H1]. split; [apply Z.log2_nonneg |].
  apply Z.log2_lt_pow2 in H1; lia.
Qed.

Lemma canon_mantissa (n : Z) :
  0 < n < 2 ^ 53 ->
  Zpos (Z.to_pos (n * 2 ^ (52 - Z.log2 n))) = n * 2 ^ (52 - Z.log2 n)
  /\ Z.log2 (n * 2 ^ (52 - Z.log2 n)) = 52.
Proof.
  intros Hn. pose proof (log2_small n Hn) as Hl.
  assert (0 < n * 2 ^ (52 - Z.log2 n))
    by (apply Z.mul_pos_pos; [lia | apply Z.pow_pos_nonneg; lia]).
  split; [apply Z2Pos.id; assumption |].
  rewrite Z.log2_mul_pow2 by lia. lia.
Qed.

(** An exact integer mantissa with enough zero bits rounds to [canon]. *)
Lemma binary_round_aux_canon (n t e : Z) :
  0 < n < 2 ^ 53 -> 52 - Z.log2 n <= t -> e + t = 0 ->
  binary_round_aux prec emax false (n * 2 ^ t) e loc_Exact = canon n.
Proof.
  intros Hn Ht He. pose proof (log2_small n Hn) as Hl.
  destruct (canon_mantissa n Hn) as [Hm Hlog].
  replace (n * 2 ^ t)
    with (Zpos (Z.to_pos (n * 2 ^ (52 - Z.log2 n))) * 2 ^ (t - (52 - Z.log2 n))).
  2:{ rewrite Hm, <- Z.mul_assoc, <- Z.pow_add_r by lia. f_equal. f_equal. lia. }
  rewrite binary_round_aux_exact; [| rewrite Hm; exact Hlog | lia | lia].
  unfold canon. f_equal. lia.
Qed.

Lemma pos_iter_xO (p d : positive) :
  Zpos (Pos.iter xO p d) = Zpos p * 2 ^ Zpos d.
Proof.
  induction d as [| d IH] using Pos.peano_ind.
  - cbn [Pos.iter]. lia.
  - rewrite Pos.iter_succ, Pos2Z.inj_xO, IH, Pos2Z.inj_succ, Z.pow_succ_r by lia. ring.
Qed.

Lemma of_Z_canon (n : Z) : 0 < n < 2 ^ 53 -> of_Z n = canon n.
Proof.
  intros Hn. pose proof (log2_small n Hn) as Hl.
  destruct n as [| p | p]; try lia.
  unfold of_Z, binary_normalize, binary_round.
  change (Zpos (digits2_pos p)) with (Zdigits2 (Zpos p)).
  rewrite Zdigits2_log2. unfold fexp, emin, prec, emax.
  replace (Z.max (Z.log2 (Zpos p) + 1 + 0 - 53) (3 - 1024 - 53))
    with (Z.log2 (Zpos p) - 52) by lia.
  unfold shl_align.
  destruct (Z.log2 (Zpos p) - 52 - 0) as [| d | d] eqn:E; try lia.
  - replace (Zpos p) with (Zpos p * 2 ^ 0) at 1 by lia.
    apply binary_round_aux_canon; lia.
  - rewrite pos_iter_xO.
    apply binary_round_aux_canon; lia.
Qed.

Lemma div_eucl_eq (a b : Z) : Z.div_eucl a b = (a / b, a mod b).
Proof. unfold Z.div, Z.modulo. destruct (Z.div_eucl a b). reflexivity. Qed.

Lemma new_location_zero (k : Z) : new_location k 0 = loc_Exact.
Proof. unfold new_location. destruct (Z.even k); reflexivity. Qed.

(** [(k * n) / k] on integers is the float of [n]. *)
Lemma SFdiv_exact (k n : positive) :
  Zpos n < 2 ^ 53 ->
  SFdiv prec emax (S754_finite false (k * n) 0) (S754_finite false k 0)
  = canon (Zpos n).
Proof.
  intros Hn. assert (Hn' : 0 < Zpos n < 2 ^ 53) by lia.
  pose proof (log2_small _ Hn') as Hl.
  pose proof (Z.log2_mul_below (Zpos k) (Zpos n) ltac:(lia) ltac:(lia)) as Hlo.
  pose proof (Z.log2_mul_above (Zpos k) (Zpos n) ltac:(lia) ltac:(lia)) as Hhi.
  cbn [SFdiv xorb]. unfold SFdiv_core_binary.
  rewrite !Zdigits2_log2. rewrite Pos2Z.inj_mul.
  set (dl := Z.log2 (Zpos k * Zpos n) - Z.log2 (Zpos k)) in *.
  unfold fexp, emin, prec, emax.
  replace (Z.min
             (Z.max (Z.log2 (Zpos k * Zpos n) + 1 + 0 - (Z.log2 (Zpos k) + 1 + 0) - 53)
                (3 - 1024 - 53)) (0 - 0))
    with (dl - 53) by lia.
  replace (0 - 0 - (dl - 53)) with (53 - dl) by lia.
  assert (Hm' : match 53 - dl with
                | Z0 => Zpos k * Zpos n
                | Zpos _ => Z.shiftl (Zpos k * Zpos n) (53 - dl)
                | Zneg _ => 0
                end = Zpos k * (Zpos n * 2 ^ (53 - dl))).
  { destruct (53 - dl) eqn:E; try lia.
    rewrite Z.shiftl_mul_pow2 by lia. ring. }
  rewrite Hm', div_eucl_eq.
  rewrite (Z.mul_comm (Zpos k)), Z.div_mul, Z.mod_mul by lia.
  rewrite new_location_zero.
  apply binary_round_aux_canon; lia.
Qed.

Lemma SFmul_exact (a b : Z) :
  0 < a -> 0 < b -> a * b < 2 ^ 53 ->
  SFmul prec emax (canon a) (canon b) = canon (a * b).
Proof.
  intros Ha Hb Hab.
  assert (Ha' : 0 < a < 2 ^ 53) by nia.
  assert (Hb' : 0 < b < 2 ^ 53) by nia.
  assert (Hab' : 0 < a * b < 2 ^ 53) by nia.
  pose proof (log2_small _ Ha') as Hla. pose proof (log2_small _ Hb') as Hlb.
  pose proof (log2_small _ Hab') as Hlab.
  pose proof (Z.log2_mul_below a b Ha Hb) as Hlo.
  destruct (canon_mantissa a Ha') as [Hma _].
  destruct (canon_mantissa b Hb') as [Hmb _].
  unfold canon at 1 2. cbn [SFmul xorb].
  rewrite Pos2Z.inj_mul, Hma, Hmb.
  replace (a * 2 ^ (52 - Z.log2 a) * (b * 2 ^ (52 - Z.log2 b)))
    with (a * b * 2 ^ ((52 - Z.log2 a) + (52 - Z.log2 b))).
  2:{ rewrite Z.pow_add_r by lia. ring. }
  apply binary_round_aux_canon; lia.
Qed.

Lemma div_half_even_exact (n d : Z) : 0 < d -> div_half_even (n * d) d = n.
Proof.
  intros Hd. unfold div_half_even.
  rewrite Z.div_mul, Z.mod_mul by lia.
  destruct (2 * 0 ?= d) eqn:E; cbn in E; try reflexivity; destruct d; try lia; discriminate.
Qed.

Lemma round_exact (n : Z) (ndigits : nat) :
  0 < n < 2 ^ 53 -> PyFloat.round (canon n) ndigits = canon n.
Proof.
  intros Hn. pose proof (log2_small n Hn) as Hl.
  destruct (canon_mantissa n Hn) as [Hm _].
  unfold round, canon at 1. rewrite Hm.
  set (p := 10 ^ Z.of_nat ndigits).
  assert (Hp : 0 < p) by (apply Z.pow_pos_nonneg; lia).
  assert (HN : (if 0 <=? Z.log2 n - 52
                then n * 2 ^ (52 - Z.log2 n) * 2 ^ (Z.log2 n - 52) * p
                else div_half_even (n * 2 ^ (52 - Z.log2 n) * p)
                       (2 ^ (- (Z.log2 n - 52))))
               = Zpos (Z.to_pos p * Z.to_pos n)).
  { rewrite Pos2Z.inj_mul, !Z2Pos.id by lia.
    destruct (Z.leb_spec 0 (Z.log2 n - 52)).
    - replace (Z.log2 n) with 52 by lia. cbn. ring.
    - replace (- (Z.log2 n - 52)) with (52 - Z.log2 n) by lia.
      replace (n * 2 ^ (52 - Z.log2 n) * p) with (p * n * 2 ^ (52 - Z.log2 n)) by ring.
      apply div_half_even_exact. apply Z.pow_pos_nonneg; lia. }
  rewrite HN. rewrite SFdiv_exact by (rewrite Z2Pos.id; lia).
  rewrite Z2Pos.id by lia. reflexivity.
Qed.

End PyFloatProofs.

(** * Properties of [monitor.py] *)

Module MonitorProofs.
Import PyStr Monitor.
Local Open Scope mon_scope.

Lemma getitem_truthy (j v : json) (k : string) :
  getitem j k = Ok v -> truthy j = true.
Proof.
  destruct j as [| | | | | d]; try discriminate.
  destruct d; [discriminate | reflexivity].
Qed.

(** The row of a running container whose measures and ports were
    obtained. *)
Lemma collect_one_running (c : container) (stats : json)
    (x : PyFloat.float) (mu ml : json) (m : num) (ps : list string) :
  c_status c = "running" ->
  c_stats c = Ok stats ->
  cpu_percent_of stats = Ok x ->
  mem_of stats = Ok (mu, ml, m) ->
  ports_of (c_attrs c) = Ok ps ->
  collect_one c
  = ([EvStats (c_id c)],
     Some {| container_id := take 12 (c_id c);
             container_name := c_name c;
             status := c_status c;
             container_cpu_pct := NFloat (PyFloat.round x 2);
             container_mem_pct := round2 m;
             container_mem_usage_bytes := mu;
             container_mem_limit_bytes := ml;
             ports := join ", " ps |}).
Proof.
  intros Hs Hst Hc Hm Hp. unfold collect_one, usage_of.
  rewrite Hs. cbn [String.eqb Ascii.eqb Bool.eqb].
  rewrite Hst. cbn [bind]. rewrite Hc. cbn [bind]. rewrite Hm. cbn [bind].
  rewrite Hp. reflexivity.
Qed.

(** ** CPU percentage *)

Lemma online_cpus_of_spec (cs : json) (reported : option Z) (percpu : list json) :
  online_reported cs reported ->
  percpu_usage cs percpu ->
  online_cpus_of cs
  = Ok (JInt (spec_online_cpu_count reported (Z.of_nat (List.length percpu)))).
Proof.
  intros Hr (cu & Hcu & Hpc). unfold online_cpus_of.
  destruct reported as [n |]; cbn [online_reported spec_online_cpu_count] in *.
  - destruct Hr as [Hn ->]. cbn [bind truthy].
    destruct (Z.eqb_spec n 0); [lia | reflexivity].
  - assert (E : (reported <- get cs "online_cpus" JNull ;;
                 if truthy reported then Ok reported
                 else
                   cpu_usage <- getitem cs "cpu_usage" ;;
                   percpu <- get cpu_usage "percpu_usage" (JList []) ;;
                   n <- len percpu ;;
                   if negb (n =? 0) then Ok (JInt n) else Ok (JInt 1))
                = (cpu_usage <- getitem cs "cpu_usage" ;;
                   percpu <- get cpu_usage "percpu_usage" (JList []) ;;
                   n <- len percpu ;;
                   if negb (n =? 0) then Ok (JInt n) else Ok (JInt 1))).
    { destruct Hr as [-> | ->]; reflexivity. }
    rewrite E, Hcu. cbn [bind]. rewrite Hpc. cbn [bind len].
    destruct (Z.of_nat (List.length percpu) =? 0); reflexivity.
Qed.

Lemma spec_online_cpu_count_pos (reported : option Z) (n : nat) :
  match reported with Some r => 0 < r | None => True end ->
  0 < spec_online_cpu_count reported (Z.of_nat n).
Proof.
  destruct reported as [r |]; cbn; [trivial |].
  intros _. destruct (Z.eqb_spec (Z.of_nat n) 0); lia.
Qed.

(** C3. For every pair of CPU counter snapshots, the collector computes
    [(cpu_usage_delta / system_cpu_delta) * online_cpu_count * 100] in
    binary64 arithmetic, where the deltas are the differences of the
    cumulative counters and [online_cpu_count] is the reported count, else
    the length of the per-core usage list, else 1; the result is [0.0]
    whenever [system_cpu_delta <= 0]; and deltas 200 and 1000 with 4 online
    CPUs give [80.0], also in the row of the report. *)
Theorem cpu_percent_formula :
  (forall (stats cs ps : json) (t1 t0 s1 s0 : Z) (reported : option Z)
          (percpu : list json),
      get stats "cpu_stats" (JDict []) = Ok cs ->
      get stats "precpu_stats" (JDict []) = Ok ps ->
      cpu_snapshot cs t1 s1 ->
      cpu_snapshot ps t0 s0 ->
      online_reported cs reported ->
      percpu_usage cs percpu ->
      cpu_percent_of stats
      = spec_cpu_percent (t1 - t0) (s1 - s0)
          (spec_online_cpu_count reported (Z.of_nat (List.length percpu)))
      /\ (s1 - s0 <= 0 -> cpu_percent_of stats = Ok PyFloat.zero))
  /\ spec_cpu_percent 200 1000 4 = Ok (PyFloat.of_Z 80)
  /\ spec_cpu_percent 200 0 4 = Ok PyFloat.zero
  /\ option_map container_cpu_pct (snd (collect_one sample_running))
     = Some (NFloat (PyFloat.of_Z 80)).
Proof.
  split; [| repeat split; vm_compute; reflexivity].
  intros stats cs ps t1 t0 s1 s0 reported percpu Hcs Hps
    [(cu & Hcu & Ht1) Hs1] [(pu & Hpu & Ht0) Hs0] Hr Hpc.
  assert (Hmain : cpu_percent_of stats
                  = spec_cpu_percent (t1 - t0) (s1 - s0)
                      (spec_online_cpu_count reported (Z.of_nat (List.length percpu)))).
  { unfold cpu_percent_of. rewrite Hcs, Hps. cbn [bind].
    rewrite (getitem_truthy _ _ _ Hcu), (getitem_truthy _ _ _ Hpu). cbn [andb].
    rewrite Hcu. cbn [bind]. rewrite Ht1. cbn [bind].
    rewrite Hpu. cbn [bind]. rewrite Ht0. cbn [bind sub as_int].
    rewrite Hs1. cbn [bind]. rewrite Hs0. cbn [bind sub as_int].
    rewrite (online_cpus_of_spec _ _ _ Hr Hpc). cbn [bind gt as_int].
    unfold spec_cpu_percent.
    assert (Hpos : 0 < spec_online_cpu_count reported (Z.of_nat (List.length percpu))).
    { apply spec_online_cpu_count_pos. destruct reported; [apply Hr | exact I]. }
    destruct (Z.ltb_spec 0 (s1 - s0)), (Z.leb_spec (s1 - s0) 0); try lia;
      [| reflexivity].
    destruct (Z.ltb_spec 0 (spec_online_cpu_count reported
                              (Z.of_nat (List.length percpu)))); [| lia].
    reflexivity. }
  split; [exact Hmain |].
  intros Hle. rewrite Hmain. unfold spec_cpu_percent.
  destruct (Z.leb_spec (s1 - s0) 0); [reflexivity | lia].
Qed.

Lemma cpu_percent_formula_witness :
  cpu_percent_of (sample_stats [("online_cpus", JInt 4)] [])
  = spec_cpu_percent 200 1000 4
  /\ cpu_percent_of (sample_stats [] []) = spec_cpu_percent 200 1000 1.
Proof.
  split.
  - refine (proj1 (proj1 cpu_percent_formula
                     (sample_stats [("online_cpus", JInt 4)] []) _ _
                     1200 1000 5000 4000 (Some 4) []
                     eq_refl eq_refl _ _ _ _)).
    + split; [eexists; split; reflexivity | reflexivity].
    + split; [eexists; split; reflexivity | reflexivity].
    + split; [lia | reflexivity].
    + eexists; split; reflexivity.
  - refine (proj1 (proj1 cpu_percent_formula
                     (sample_stats [] []) _ _
                     1200 1000 5000 4000 None []
                     eq_refl eq_refl _ _ _ _)).
    + split; [eexists; split; reflexivity | reflexivity].
    + split; [eexists; split; reflexivity | reflexivity].
    + left; reflexivity.
    + eexists; split; reflexivity.
Defined.

(** ** Memory percentage *)

Lemma mem_of_eq (stats ms mu ml : json) :
  get stats "memory_stats" (JDict []) = Ok ms ->
  get ms "usage" (JInt 0) = Ok mu ->
  get ms "limit" (JInt 1) = Ok ml ->
  mem_of stats
  = if truthy ml then
      u <- as_int mu ;; l <- as_int ml ;; q <- truediv u l ;;
      x <- mul_int q 100 ;; Ok (mu, ml, NFloat x)
    else Ok (mu, ml, NInt 0).
Proof.
  intros Hms Hu Hl. unfold mem_of.
  rewrite Hms. cbn [bind]. rewrite Hu. cbn [bind]. rewrite Hl. reflexivity.
Qed.

(** With a limit other than 0 the percentage is the quotient formula. *)
Lemma mem_of_nonzero (stats ms : json) (u l : Z) :
  get stats "memory_stats" (JDict []) = Ok ms ->
  get ms "usage" (JInt 0) = Ok (JInt u) ->
  get ms "limit" (JInt 1) = Ok (JInt l) ->
  l <> 0 ->
  mem_of stats = (x <- spec_mem_percent u l ;; Ok (JInt u, JInt l, NFloat x)).
Proof.
  intros Hms Hu Hl E.
  rewrite (mem_of_eq _ _ _ _ Hms Hu Hl). unfold spec_mem_percent.
  cbn [truthy as_int bind].
  destruct (Z.eqb_spec l 0); [contradiction |]. cbn [negb].
  destruct (truediv u l) as [q |]; [| reflexivity]. cbn [bind].
  destruct (mul_int q 100); reflexivity.
Qed.

(** C4. For every memory counter snapshot of a running container, the
    collector computes [(memory_usage_bytes / memory_limit_bytes) * 100] in
    binary64 arithmetic; with a limit of 0 it reports the integer 0, which
    is equal to [0.0]; usage 512000000 under limit 1024000000 gives [50.0],
    also in the row of the report. *)
Theorem mem_percent_formula :
  (forall (stats ms : json) (u l : Z),
      get stats "memory_stats" (JDict []) = Ok ms ->
      get ms "usage" (JInt 0) = Ok (JInt u) ->
      get ms "limit" (JInt 1) = Ok (JInt l) ->
      (l <> 0 ->
       mem_of stats = (x <- spec_mem_percent u l ;; Ok (JInt u, JInt l, NFloat x)))
      /\ (l = 0 ->
          mem_of stats = Ok (JInt u, JInt l, NInt 0)
          /\ spec_mem_percent u l = Ok PyFloat.zero
          /\ num_eqb (round2 (NInt 0)) (NFloat PyFloat.zero) = true))
  /\ spec_mem_percent 512000000 1024000000 = Ok (PyFloat.of_Z 50)
  /\ option_map container_mem_pct (snd (collect_one sample_running))
     = Some (NFloat (PyFloat.of_Z 50)).
Proof.
  split; [| split; vm_compute; reflexivity].
  intros stats ms u l Hms Hu Hl.
  split; intros E.
  - exact (mem_of_nonzero _ _ _ _ Hms Hu Hl E).
  - subst l. rewrite (mem_of_eq _ _ _ _ Hms Hu Hl).
    repeat split; reflexivity.
Qed.

Lemma mem_percent_formula_witness :
  mem_of (sample_stats [] [("usage", JInt 512000000); ("limit", JInt 1024000000)])
  = (x <- spec_mem_percent 512000000 1024000000 ;;
     Ok (JInt 512000000, JInt 1024000000, NFloat x))
  /\ mem_of (sample_stats [] [("usage", JInt 512000000); ("limit", JInt 0)])
     = Ok (JInt 512000000, JInt 0, NInt 0).
Proof.
  split.
  - refine (proj1 (proj1 mem_percent_formula
                     (sample_stats [] [("usage", JInt 512000000);
                                       ("limit", JInt 1024000000)])
                     _ 512000000 1024000000 eq_refl eq_refl eq_refl) _).
    discriminate.
  - exact (proj1 (proj2 (proj1 mem_percent_formula
                           (sample_stats [] [("usage", JInt 512000000);
                                             ("limit", JInt 0)])
                           _ 512000000 0 eq_refl eq_refl eq_refl) eq_refl)).
Defined.

(** Usage over a limit of 1: the percentage is the integer
    [usage * 100], exactly, as long as that integer is below 2^53. *)
Lemma spec_mem_percent_limit_1 (u : Z) :
  0 <= u -> u * 100 < 2 ^ 53 ->
  spec_mem_percent u 1 = Ok (PyFloat.of_Z (u * 100))
  /\ PyFloat.round (PyFloat.of_Z (u * 100)) 2 = PyFloat.of_Z (u * 100)
  /\ num_eqb (NFloat (PyFloat.of_Z (u * 100))) (NInt (u * 100)) = true
  /\ (0 < u -> num_eqb (NFloat (PyFloat.of_Z (u * 100))) (NFloat PyFloat.zero) = false).
Proof.
  intros H0 Hb. destruct u as [| p | p]; try lia.
  - repeat split; try reflexivity. lia.
  - assert (Hu : 0 < Zpos p < 2 ^ 53) by lia.
    assert (Hq : 0 < Zpos p * 100 < 2 ^ 53) by lia.
    pose proof (PyFloatProofs.log2_small _ Hq) as Hl.
    destruct (PyFloatProofs.canon_mantissa _ Hq) as [Hm _].
    rewrite (PyFloatProofs.of_Z_canon _ Hq).
    split; [| split; [apply PyFloatProofs.round_exact; exact Hq | split]].
    + unfold spec_mem_percent, truediv, PyFloat.int_truediv.
      cbn [Z.eqb Z.ltb Z.compare Z.abs Z.to_pos].
      pose proof (PyFloatProofs.SFdiv_exact 1 p ltac:(lia)) as Hd.
      rewrite Pos.mul_1_l in Hd. rewrite Hd.
      cbn [PyFloat.canon PyFloat.is_finite of_option bind].
      unfold mul_int.
      change (PyFloat.of_int 100) with (Some (PyFloat.of_Z 100)).
      cbn [of_option bind]. unfold PyFloat.mul.
      rewrite (PyFloatProofs.of_Z_canon 100) by lia.
      fold (PyFloat.canon (Zpos p)).
      rewrite PyFloatProofs.SFmul_exact by lia. reflexivity.
    + unfold PyFloat.canon, num_eqb.
      destruct (Z.leb_spec 0 (Z.log2 (Zpos p * 100) - 52)).
      * replace (Z.log2 (Zpos p * 100)) with 52 in * by lia.
        rewrite Hm. apply Z.eqb_eq. change (52 - 52) with 0.
        rewrite Z.pow_0_r. lia.
      * rewrite Hm. apply Z.eqb_eq. f_equal. f_equal. lia.
    + intros _. reflexivity.
Qed.

(** C9. When the memory-stats document has no [limit] entry, the collector
    takes the limit to be 1: the row reports limit 1 and the percentage is
    [(memory_usage_bytes / 1) * 100], which for every usage below 2^53 / 100
    bytes is the number [memory_usage_bytes * 100] exactly, unchanged by
    [round(., 2)], and not 0.0 unless the usage is 0.  A usage of 512000000
    bytes is reported as 51200000000.0 percent. *)
Theorem missing_limit_defaults_to_one :
  (forall (stats : json) (d : list (string * json)) (u : Z),
      get stats "memory_stats" (JDict []) = Ok (JDict d) ->
      dict_get d "limit" = None ->
      get (JDict d) "usage" (JInt 0) = Ok (JInt u) ->
      mem_of stats = (x <- spec_mem_percent u 1 ;; Ok (JInt u, JInt 1, NFloat x))
      /\ (0 <= u -> u * 100 < 2 ^ 53 ->
          mem_of stats = Ok (JInt u, JInt 1, NFloat (PyFloat.of_Z (u * 100)))
          /\ round2 (NFloat (PyFloat.of_Z (u * 100))) = NFloat (PyFloat.of_Z (u * 100))
          /\ num_eqb (NFloat (PyFloat.of_Z (u * 100))) (NInt (u * 100)) = true
          /\ (0 < u ->
              num_eqb (NFloat (PyFloat.of_Z (u * 100))) (NFloat PyFloat.zero) = false)))
  /\ option_map (fun r => (container_mem_pct r, container_mem_limit_bytes r))
       (snd (collect_one sample_no_limit))
     = Some (NFloat (PyFloat.of_Z (512000000 * 100)), JInt 1).
Proof.
  split; [| vm_compute; reflexivity].
  intros stats d u Hms Hlim Hu.
  assert (Hl : get (JDict d) "limit" (JInt 1) = Ok (JInt 1)).
  { cbn [get]. rewrite Hlim. reflexivity. }
  pose proof (mem_of_nonzero stats (JDict d) u 1 Hms Hu Hl ltac:(discriminate)) as H.
  split; [exact H |].
  intros H0 Hb.
  destruct (spec_mem_percent_limit_1 u H0 Hb) as (Hs & Hr & He & Hz).
  rewrite H, Hs. cbn [bind round2]. rewrite Hr.
  repeat split; assumption.
Qed.

Lemma missing_limit_defaults_to_one_witness :
  mem_of (sample_stats [] [("usage", JInt 512000000)])
  = Ok (JInt 512000000, JInt 1, NFloat (PyFloat.of_Z (512000000 * 100))).
Proof.
  refine (proj1 (proj2 (proj1 missing_limit_defaults_to_one
                          (sample_stats [] [("usage", JInt 512000000)])
                          [("usage", JInt 512000000)] 512000000
                          eq_refl eq_refl eq_refl) _ _)).
  - lia.
  - reflexivity.
Defined.

(** ** Containers that are not running *)

Lemma collect_all_rows (cs : list container) (c : container) (r : row) :
  In c cs -> snd (collect_one c) = Some r -> In r (snd (collect_all cs)).
Proof.
  intros Hin Hr. induction cs as [| c' cs IH]; [contradiction |].
  cbn [collect_all].
  destruct (collect_one c') as [ev1 r'] eqn:E1.
  destruct (collect_all cs) as [ev2 rows]. cbn [snd] in *.
  destruct Hin as [-> | Hin].
  - rewrite E1 in Hr. cbn in Hr. subst r'. left. reflexivity.
  - specialize (IH Hin). destruct r'; [right |]; exact IH.
Qed.

Lemma not_running_eqb (c : container) :
  c_status c <> "running" -> String.eqb (c_status c) "running" = false.
Proof. intros H. apply String.eqb_neq. exact H. Qed.

(** C8. For a container whose status is not [running] the collector does
    not ask for live counters and measures 0.0, 0.0, 0 and 0; these are
    the values of its row, which is reported as soon as the port metadata
    of the container can be read; and collecting over a list that holds
    such a container returns normally with that row. *)
Theorem not_running_reports_zero :
  forall c : container,
    c_status c <> "running" ->
    usage_of c = ([], Ok (NFloat PyFloat.zero, NFloat PyFloat.zero, JInt 0, JInt 0))
    /\ (forall id, ~ In (EvStats id) (fst (collect_one c)))
    /\ (forall r, snd (collect_one c) = Some r ->
          container_cpu_pct r = NFloat PyFloat.zero
          /\ container_mem_pct r = NFloat PyFloat.zero
          /\ container_mem_usage_bytes r = JInt 0
          /\ container_mem_limit_bytes r = JInt 0)
    /\ (forall ps, ports_of (c_attrs c) = Ok ps ->
          exists r, collect_one c = ([], Some r)
            /\ container_cpu_pct r = NFloat PyFloat.zero
            /\ container_mem_pct r = NFloat PyFloat.zero
            /\ container_mem_usage_bytes r = JInt 0
            /\ container_mem_limit_bytes r = JInt 0
            /\ forall (cl : client) (all : bool) (cs : list container),
                 containers_list cl all = Ok cs -> In c cs ->
                 exists evs rows,
                   collect_container_stats (Some cl) all = (evs, Ok rows)
                   /\ In r rows).
Proof.
  intros c Hs. apply not_running_eqb in Hs.
  assert (Hu : usage_of c
               = ([], Ok (NFloat PyFloat.zero, NFloat PyFloat.zero, JInt 0, JInt 0))).
  { unfold usage_of. rewrite Hs. reflexivity. }
  split; [exact Hu |].
  unfold collect_one. rewrite Hu. cbn [bind].
  destruct (ports_of (c_attrs c)) as [ps |e] eqn:Ep; cbn [bind fst snd app].
  - split; [intros id []|]. split.
    + intros r Hr. injection Hr as <-. repeat split; reflexivity.
    + intros ps' Hps. injection Hps as <-. eexists. split; [reflexivity |].
      repeat split; try reflexivity.
      intros cl all cs Hl Hin.
      unfold collect_container_stats. rewrite Hl.
      destruct (collect_all cs) as [evs rows] eqn:Ea.
      exists (EvList all :: evs), rows. split; [reflexivity |].
      change rows with (snd (evs, rows)). rewrite <- Ea.
      apply (collect_all_rows cs c); [exact Hin |].
      unfold collect_one. rewrite Hu. cbn [bind]. rewrite Ep. reflexivity.
  - split; [intros id [H | []]; discriminate H |].
    split; [discriminate | discriminate].
Qed.

Lemma not_running_reports_zero_witness :
  usage_of sample_exited
  = ([], Ok (NFloat PyFloat.zero, NFloat PyFloat.zero, JInt 0, JInt 0)).
Proof.
  refine (proj1 (not_running_reports_zero sample_exited _)).
  discriminate.
Defined.

(** ** No runtime client *)

(** C10. When the runtime client cannot be initialised, [docker_client]
    is [None] and every call of [collect_container_stats], whatever the
    selection flag, logs one informational record and returns the empty
    list without raising and without calling the runtime. *)
Theorem no_client_empty_report :
  forall (e : exn) (all_containers : bool),
    snd (init_docker_client (Raise e)) = None
    /\ collect_container_stats (snd (init_docker_client (Raise e))) all_containers
       = ([LogInfo "Docker client not initialized. Skipping container stats collection."],
          Ok []).
Proof. intros e all_containers. split; reflexivity. Qed.

End MonitorProofs.

(** * Further properties of [create_container.py] *)

Module ProvisioningProofs.
Import PyStr CreateContainer CreateContainerProofs Provisioning.

Section Runs.
Context {host : Type} {P : Platform host}.

Lemma create_container_unfold :
  create_container (host := host)
  = try_except_Exception create_container_body create_container_handler.
Proof. reflexivity. Qed.

Lemma bind_ok_inv {A B} (m : M host A) (f : A -> M host B) (h h' : host) evs (b : B) :
  bind m f h = (evs, h', Ok b) ->
  exists ev1 h1 a ev2,
    m h = (ev1, h1, Ok a) /\ f a h1 = (ev2, h', Ok b) /\ evs = (ev1 ++ ev2)%list.
Proof.
  unfold bind. destruct (m h) as [[ev1 h1] [a | e]]; [| discriminate].
  destruct (f a h1) as [[ev2 h2] r] eqn:Ef. intros H. injection H as <- <- ->.
  exists ev1, h1, a, ev2. auto.
Qed.

(** ** A failed command is the last command *)

Lemma calm_stops (evs : list event) : Forall calm evs -> stops_at_failure evs.
Proof.
  induction 1 as [| e evs He _ IH]; [exact I |].
  destruct e as [| | c rc | |]; cbn [stops_at_failure]; try exact IH.
  split; [| exact IH]. intros Hrc Hp. destruct He as [E | E]; [contradiction |].
  rewrite E in Hp. discriminate.
Qed.

Lemma stops_app_calm (e1 e2 : list event) :
  Forall calm e1 -> stops_at_failure e2 -> stops_at_failure (e1 ++ e2).
Proof.
  intros H1 H2. induction H1 as [| e evs He _ IH]; [exact H2 |].
  destruct e as [| | c rc | |]; cbn [app stops_at_failure]; try exact IH.
  split; [| exact IH]. intros Hrc Hp. destruct He as [E | E]; [contradiction |].
  rewrite E in Hp. discriminate.
Qed.

Lemma stops_app_prints (e1 e2 : list event) :
  stops_at_failure e1 -> Forall is_print e2 -> stops_at_failure (e1 ++ e2).
Proof.
  intros H1 H2. induction e1 as [| e evs IH].
  - apply calm_stops. induction H2 as [| x l Hx _ IHl]; constructor; auto.
    destruct x; try contradiction; exact I.
  - destruct e as [| | c rc | |]; cbn [app stops_at_failure] in *; auto.
    destruct H1 as [Hf Hs]. split; [| auto].
    intros Hrc Hp. apply Forall_app. split; auto.
Qed.

Lemma stops_split (evs pre post : list event) (c : string) (rc : Z) :
  stops_at_failure evs ->
  evs = (pre ++ EvExec c rc :: post)%list ->
  rc <> 0 -> is_probe c = false -> Forall is_print post.
Proof.
  intros Hs ->. induction pre as [| e pre IH]; cbn [app stops_at_failure] in Hs.
  - intros Hrc Hp. exact (proj1 Hs Hrc Hp).
  - destruct e; try (apply IH; exact Hs). apply IH. exact (proj2 Hs).
Qed.

Lemma orderly_ret {A} (a : A) : orderly (ret (host := host) a).
Proof. intros h. constructor. Qed.

Lemma orderly_raise {A} (e : exn) : orderly (raise (host := host) (A := A) e).
Proof. intros h. exact I. Qed.

Lemma orderly_print (s : string) : orderly (print (host := host) s).
Proof. intros h. repeat constructor. Qed.

Lemma orderly_input (prompt : string) : orderly (input prompt).
Proof.
  intros h. unfold input. destruct (stdin_line h) as [[l |] h']; cbn.
  - repeat constructor.
  - exact I.
Qed.

Lemma orderly_makedirs (path : string) : orderly (makedirs path).
Proof.
  intros h. unfold makedirs. destruct (os_makedirs path h) as [[msg |] h']; cbn.
  - exact I.
  - repeat constructor.
Qed.

Lemma orderly_randint (lo hi : Z) : orderly (randint lo hi).
Proof.
  intros h. unfold randint. destruct (random_randint lo hi h) as [n h']; cbn.
  repeat constructor.
Qed.

Lemma orderly_probe (c : string) :
  is_probe c = true -> orderly (subprocess_run c).
Proof.
  intros Hc h. unfold subprocess_run. destruct (shell c h) as [r h']; cbn.
  constructor; [right; exact Hc | constructor].
Qed.

Lemma orderly_run_command (c : string) : orderly (run_command c).
Proof.
  intros h. rewrite run_command_eq. cbn [result_of events_of fst snd].
  destruct (Z.eqb_spec (returncode (fst (shell c h))) 0) as [E | E].
  - constructor; [left; exact E | constructor].
  - cbn. split; [intros _ _; constructor | exact I].
Qed.

Lemma orderly_bind {A B} (m : M host A) (f : A -> M host B) :
  orderly m -> (forall a, orderly (f a)) -> orderly (bind m f).
Proof.
  intros Hm Hf h. specialize (Hm h). unfold bind.
  destruct (m h) as [[ev1 h1] [a | e]]; cbn [result_of events_of fst snd] in *.
  - specialize (Hf a h1). destruct (f a h1) as [[ev2 h2] [b | e]];
      cbn [result_of events_of fst snd] in *.
    + apply Forall_app. split; assumption.
    + apply stops_app_calm; assumption.
  - exact Hm.
Qed.

(** A handler that prints one line and raises again. *)
Lemma orderly_reraise {A} (body : M host A) (line : exn -> string) :
  orderly body ->
  orderly (try_except_Exception body
             (fun e => bind (print (line e)) (fun _ => raise e))).
Proof.
  intros Hb h. specialize (Hb h). unfold try_except_Exception.
  destruct (body h) as [[ev1 h1] [a | e]]; cbn [result_of events_of fst snd] in *.
  - exact Hb.
  - apply stops_app_prints; [exact Hb | repeat constructor].
Qed.

Ltac orderly_step :=
  first
    [ apply orderly_bind; [| intros ?]
    | apply orderly_reraise
    | apply orderly_print | apply orderly_ret | apply orderly_raise
    | apply orderly_run_command | apply orderly_input | apply orderly_makedirs
    | apply orderly_randint
    | apply orderly_probe; reflexivity
    | match goal with
      | |- orderly (if ?b then _ else _) => destruct b
      | |- orderly (match ?x with _ => _ end) => destruct x
      end ].

Lemma orderly_create_docker_network (name : string) (subnet : option string) :
  orderly (create_docker_network name subnet).
Proof.
  unfold create_docker_network, create_host_interface. repeat orderly_step.
Qed.

Lemma orderly_body : orderly create_container_body.
Proof.
  unfold create_container_body, read_answers, provision, build_image,
    remove_existing_container, random_port.
  repeat first [ apply orderly_create_docker_network | orderly_step ].
Qed.

Lemma create_container_stops (h : host) :
  stops_at_failure (events_of (create_container h)).
Proof.
  rewrite create_container_unfold. unfold try_except_Exception.
  pose proof (orderly_body h) as Hb.
  destruct (create_container_body h) as [[ev1 h1] [u | e]];
    cbn [result_of events_of fst snd] in *.
  - apply calm_stops. exact Hb.
  - apply stops_app_prints; [exact Hb | repeat constructor].
Qed.

(** ** The shape of a successful provisioning *)

Lemma randint_inv (lo hi : Z) (h h' : host) evs (n : Z) :
  randint lo hi h = (evs, h', Ok n) ->
  evs = [EvRandint lo hi] /\ n = fst (random_randint lo hi h).
Proof.
  unfold randint. destruct (random_randint lo hi h) as [m h1].
  intros H. injection H as <- _ <-. auto.
Qed.

Lemma run_command_ok_inv (c : string) (h h' : host) evs (out : string) :
  run_command c h = (evs, h', Ok out) ->
  evs = [EvExec c 0] /\ out = strip (stdout (fst (shell c h))).
Proof.
  rewrite run_command_eq.
  destruct (Z.eqb_spec (returncode (fst (shell c h))) 0) as [E | E]; [| discriminate].
  intros H. injection H as <- _ <-. rewrite E. auto.
Qed.

Lemma build_image_ok_inv (plan : string) (h h' : host) evs (tag : string) :
  build_image plan h = (evs, h', Ok tag) ->
  exists p, dict_get PLANS plan = Some p /\ tag = image_tag_of plan.
Proof.
  destruct (dict_get PLANS plan) as [p |] eqn:Hp.
  - rewrite (build_image_eq _ _ _ Hp).
    destruct (returncode (fst (shell (build_cmd plan p) h)) =? 0); [| discriminate].
    intros H. injection H as _ _ <-. exists p. auto.
  - unfold build_image, PLANS_getitem. rewrite Hp. discriminate.
Qed.

Lemma prepare_ok (a : answers) (h g1 g2 g3 g4 : host) e1 e2 e3 e4 (tag : string) :
  build_image (a_plan a) h = (e1, g1, Ok tag) ->
  makedirs (web_dir_of (a_cname a)) g1 = (e2, g2, Ok tt) ->
  create_docker_network (a_network_name a)
    (if negb (is_empty (a_subnet a)) then Some (a_subnet a) else None) g2
  = (e3, g3, Ok tt) ->
  remove_existing_container (a_cname a) g3 = (e4, g4, Ok tt) ->
  prepare a h = ((e1 ++ e2 ++ e3 ++ e4)%list, g4, Ok tag).
Proof.
  intros H1 H2 H3 H4. unfold prepare.
  unfold bind at 1. rewrite H1.
  unfold bind at 1. rewrite H2.
  unfold bind at 1. rewrite H3.
  unfold bind at 1. rewrite H4.
  unfold ret. rewrite !app_nil_r. reflexivity.
Qed.

Lemma provision_ok_shape (a : answers) (h h2 : host) evs :
  provision a h = (evs, h2, Ok tt) ->
  exists p,
    dict_get PLANS (a_plan a) = Some p
    /\ result_of (prepare a h) = Ok (image_tag_of (a_plan a))
    /\ evs = (events_of (prepare a h) ++
              [ EvRandint 20000 30000; EvRandint 30001 40000;
                EvRandint 40001 50000; EvRandint 50001 60000;
                EvPrint (running_message a);
                EvExec (launch_cmd a p (host_of (prepare a h))) 0;
                EvPrint (success_report a
                           (strip (stdout (fst (shell (launch_cmd a p (host_of (prepare a h)))
                                                  (after_mysql (host_of (prepare a h)))))))
                           (http_drawn (host_of (prepare a h)))
                           (https_drawn (host_of (prepare a h)))
                           (ssh_drawn (host_of (prepare a h)))
                           (mysql_drawn (host_of (prepare a h)))) ])%list.
Proof.
  unfold provision. intros H.
  apply bind_ok_inv in H as (e1 & g1 & tag & r1 & Hbuild & H & ->).
  apply bind_ok_inv in H as (e2 & g2 & [] & r2 & Hdir & H & ->).
  apply bind_ok_inv in H as (e3 & g3 & [] & r3 & Hnet & H & ->).
  apply bind_ok_inv in H as (e4 & g4 & [] & r4 & Hrm & H & ->).
  rewrite (prepare_ok a h g1 g2 g3 g4 e1 e2 e3 e4 tag Hbuild Hdir Hnet Hrm).
  cbn [events_of host_of result_of fst snd].
  apply bind_ok_inv in H as (e5 & g5 & hp & r5 & Hhp & H & ->).
  apply bind_ok_inv in H as (e6 & g6 & hs & r6 & Hhs & H & ->).
  apply bind_ok_inv in H as (e7 & g7 & sp & r7 & Hsp & H & ->).
  apply bind_ok_inv in H as (e8 & g8 & mp & r8 & Hmp & H & ->).
  apply bind_ok_inv in H as (e9 & g9 & [] & r9 & Hpr & H & ->).
  apply bind_ok_inv in H as (e10 & g10 & p & r10 & Hplan & H & ->).
  apply bind_ok_inv in H as (e11 & g11 & cid & r11 & Hrun & H & ->).
  apply build_image_ok_inv in Hbuild as (p' & Hp & ->).
  unfold PLANS_getitem in Hplan. rewrite Hp in Hplan.
  unfold ret in Hplan. injection Hplan as <- <- <-.
  unfold random_port in *.
  assert (G5 : g5 = after_http g4).
  { unfold randint, after_http in *. destruct (random_randint 20000 30000 g4).
    injection Hhp as _ <- _. reflexivity. }
  apply randint_inv in Hhp as [-> ->]. subst g5.
  assert (G6 : g6 = after_https g4).
  { unfold randint, after_https in *.
    destruct (random_randint 30001 40000 (after_http g4)).
    injection Hhs as _ <- _. reflexivity. }
  apply randint_inv in Hhs as [-> ->]. subst g6.
  assert (G7 : g7 = after_ssh g4).
  { unfold randint, after_ssh in *.
    destruct (random_randint 40001 50000 (after_https g4)).
    injection Hsp as _ <- _. reflexivity. }
  apply randint_inv in Hsp as [-> ->]. subst g7.
  assert (G8 : g8 = after_mysql g4).
  { unfold randint, after_mysql in *.
    destruct (random_randint 50001 60000 (after_ssh g4)).
    injection Hmp as _ <- _. reflexivity. }
  apply randint_inv in Hmp as [-> ->]. subst g8.
  unfold print in Hpr. injection Hpr as <- <-.
  apply run_command_ok_inv in Hrun as [-> ->].
  unfold print in H. injection H as <- _.
  exists p'. split; [exact Hp |]. split; [reflexivity |].
  rewrite <- !app_assoc. reflexivity.
Qed.

(** ** What a run that returned printed last *)

Lemma body_ok_last (h h1 : host) evs :
  create_container_body h = (evs, h1, Ok tt) ->
  last evs (EvPrint EmptyString) = EvPrint invalid_plan_message
  \/ exists (a : answers) (cid : string) (p1 p2 p3 p4 : Z),
       last evs (EvPrint EmptyString)
       = EvPrint (success_report a cid p1 p2 p3 p4).
Proof.
  unfold create_container_body. intros H.
  apply bind_ok_inv in H as (e1 & g1 & [] & r1 & _ & H & ->).
  apply bind_ok_inv in H as (e2 & g2 & a & r2 & _ & H & ->).
  destruct (negb (dict_mem PLANS (a_plan a))).
  - left. unfold print in H. injection H as <- _.
    rewrite !app_assoc. apply last_last.
  - right. apply provision_ok_shape in H as (p & _ & _ & ->).
    exists a. do 5 eexists.
    match goal with
    | |- last (?x ++ ?y ++ ?z ++ [?a1; ?a2; ?a3; ?a4; ?a5; ?a6; ?a7]) _ = _ =>
        replace (x ++ y ++ z ++ [a1; a2; a3; a4; a5; a6; a7])%list
          with ((x ++ y ++ z ++ [a1; a2; a3; a4; a5; a6]) ++ [a7])%list
          by (rewrite <- !app_assoc; reflexivity)
    end.
    apply last_last.
Qed.

Lemma bind_raises_only {A B} (m : M host A) (f : A -> M host B) (x : exn) :
  (forall h e, result_of (m h) = Raise e -> e = x) ->
  (forall a h e, result_of (f a h) = Raise e -> e = x) ->
  forall h e, result_of (bind m f h) = Raise e -> e = x.
Proof.
  intros Hm Hf h e. specialize (Hm h). unfold bind.
  destruct (m h) as [[ev1 h1] [a | e']]; cbn [result_of snd] in *.
  - specialize (Hf a h1). destruct (f a h1) as [[ev2 h2] r]. exact (Hf e).
  - intros H. injection H as <-. apply Hm. reflexivity.
Qed.

Lemma input_raises_only (prompt : string) (h : host) (e : exn) :
  result_of (input prompt h) = Raise e -> e = EOFError.
Proof.
  unfold input. destruct (stdin_line h) as [[l |] h']; cbn; [discriminate |].
  intros H. injection H as <-. reflexivity.
Qed.

Lemma read_answers_raises_only (h : host) (e : exn) :
  result_of (read_answers h) = Raise e -> e = EOFError.
Proof.
  revert h e. unfold read_answers.
  repeat (apply bind_raises_only; [apply input_raises_only | intros ?]).
  intros h e. discriminate.
Qed.

End Runs.

Section Surfaces.
Context {host : Type} {P : Platform host}.

Lemma surf_bind {A B} (m : M host A) (f : A -> M host B) :
  (forall h e, result_of (m h) = Raise e -> surfaces e) ->
  (forall a h e, result_of (f a h) = Raise e -> surfaces e) ->
  forall h e, result_of (bind m f h) = Raise e -> surfaces e.
Proof.
  intros Hm Hf h e. specialize (Hm h). unfold bind.
  destruct (m h) as [[ev1 h1] [a | e']]; cbn [result_of snd] in *.
  - specialize (Hf a h1). destruct (f a h1) as [[ev2 h2] r]. exact (Hf e).
  - intros H. injection H as <-. apply Hm. reflexivity.
Qed.

Lemma surf_try {A} (body : M host A) (handler : exn -> M host A) :
  (forall h e, result_of (body h) = Raise e -> surfaces e) ->
  (forall e0, surfaces e0 ->
              forall h e, result_of (handler e0 h) = Raise e -> surfaces e) ->
  forall h e, result_of (try_except_Exception body handler h) = Raise e -> surfaces e.
Proof.
  intros Hb Hh h e. specialize (Hb h). unfold try_except_Exception.
  destruct (body h) as [[ev1 h1] [a | e0]]; cbn [result_of snd] in *;
    [discriminate |].
  specialize (Hh e0 (Hb e0 eq_refl) h1).
  destruct (handler e0 h1) as [[ev2 h2] r]. exact (Hh e).
Qed.

Lemma surf_print (s : string) :
  forall (h : host) e, result_of (print s h) = Raise e -> surfaces e.
Proof. discriminate. Qed.

Lemma surf_ret {A} (a : A) :
  forall (h : host) e, result_of (ret a h) = Raise e -> surfaces e.
Proof. discriminate. Qed.

Lemma surf_raise {A} (e0 : exn) :
  surfaces e0 ->
  forall (h : host) e, result_of (raise (A := A) e0 h) = Raise e -> surfaces e.
Proof. intros H0 h e H. injection H as <-. exact H0. Qed.

Lemma surf_input (prompt : string) :
  forall h e, result_of (input prompt h) = Raise e -> surfaces e.
Proof.
  intros h e H. apply input_raises_only in H. subst e. exact I.
Qed.

Lemma surf_makedirs (path : string) :
  forall h e, result_of (makedirs path h) = Raise e -> surfaces e.
Proof.
  intros h e. unfold makedirs.
  destruct (os_makedirs path h) as [[msg |] h']; cbn; [| discriminate].
  intros H. injection H as <-. exact I.
Qed.

Lemma surf_randint (lo hi : Z) :
  forall h e, result_of (randint lo hi h) = Raise e -> surfaces e.
Proof.
  intros h e. unfold randint. destruct (random_randint lo hi h). discriminate.
Qed.

Lemma surf_subprocess_run (c : string) :
  forall h e, result_of (subprocess_run c h) = Raise e -> surfaces e.
Proof.
  intros h e. unfold subprocess_run. destruct (shell c h). discriminate.
Qed.

Lemma surf_run_command (c : string) :
  forall h e, result_of (run_command c h) = Raise e -> surfaces e.
Proof.
  intros h e. rewrite run_command_eq. cbn [result_of snd].
  destruct (returncode (fst (shell c h)) =? 0); [discriminate |].
  intros H. injection H as <-. exact I.
Qed.

Ltac surf_step :=
  first
    [ apply surf_bind; [| intros ?]
    | apply surf_try; [| intros ? ?]
    | apply surf_print | apply surf_ret | apply surf_raise; assumption
    | apply surf_input | apply surf_makedirs | apply surf_randint
    | apply surf_subprocess_run | apply surf_run_command
    | match goal with
      | |- forall h e, result_of ((if ?b then _ else _) h) = _ -> _ => destruct b
      | |- forall h e, result_of ((match ?x with _ => _ end) h) = _ -> _ => destruct x
      end ].

(** Neither [KeyError] nor [CalledProcessError] leaves the [try] block:
    the plan is looked up in the catalog only after it was found there,
    and a failed command ends in the error of the misspelt handler. *)
Lemma body_surfaces :
  forall h e, result_of (create_container_body h) = Raise e -> surfaces e.
Proof.
  unfold create_container_body.
  apply surf_bind; [apply surf_print | intros _].
  apply surf_bind; [unfold read_answers; repeat surf_step | intros a].
  unfold dict_mem.
  destruct (dict_get PLANS (a_plan a)) as [p |] eqn:Hp; cbn [negb];
    [| apply surf_print].
  unfold provision, build_image, create_docker_network, create_host_interface,
    remove_existing_container, random_port, PLANS_getitem.
  rewrite Hp. repeat surf_step.
Qed.

End Surfaces.

(** X1. What the steps of the script raise is caught by the handler of
    [create_container]: the lines [Error: ...] and the review hint are
    printed after everything else and the function returns.  What is
    caught is never a [KeyError], because the catalog is indexed only
    with a plan found in it, and never a [CalledProcessError], because a
    failed command ends in the error of the misspelt handler.  A run in
    which nothing is raised goes through unchanged, and the review hint is
    the last thing printed exactly when something was raised.  (Exceptions
    outside [Exception], such as an interrupt at a prompt, are not in the
    model; the handler would not catch them.) *)
Theorem script_errors_are_caught_and_told :
  forall (host : Type) (P : Platform host) (h : host),
    (forall e, result_of (create_container_body h) = Raise e ->
          (forall key, e <> KeyError key)
          /\ (forall c rc out err, e <> CalledProcessError c rc out err)
          /\ create_container h
             = ((events_of (create_container_body h)
                 ++ [EvPrint ("Error: " ++ str_exn e); EvPrint review_message])%list,
                host_of (create_container_body h), Ok tt))
    /\ (forall u, result_of (create_container_body h) = Ok u ->
          create_container h = create_container_body h)
    /\ (last (events_of (create_container h)) (EvPrint EmptyString)
        = EvPrint review_message
        <-> exists e, result_of (create_container_body h) = Raise e).
Proof.
  intros host P h. pose proof (body_surfaces h) as Hsurf.
  rewrite create_container_unfold. unfold try_except_Exception.
  destruct (create_container_body h) as [[evs h1] [[] | e]] eqn:Eb;
    cbn [result_of events_of host_of fst snd] in *.
  - split; [discriminate |]. split; [reflexivity |]. split.
    + intros Hl. exfalso.
      destruct (body_ok_last h h1 evs Eb)
        as [E | (a & cid & p1 & p2 & p3 & p4 & E)];
        rewrite E in Hl; injection Hl as Hl.
      * discriminate Hl.
      * unfold success_report in Hl. cbn in Hl. discriminate Hl.
    + intros [e He]. discriminate He.
  - unfold create_container_handler, bind, print.
    cbn [result_of events_of host_of fst snd app].
    split; [| split].
    + intros e' He. injection He as <-.
      specialize (Hsurf e eq_refl).
      split; [intros key -> ; exact Hsurf |].
      split; [intros c rc out err -> ; exact Hsurf | reflexivity].
    + discriminate.
    + split; [intros _; exists e; reflexivity |]. intros _.
      replace (evs ++ [EvPrint ("Error: " ++ str_exn e); EvPrint review_message])%list
        with ((evs ++ [EvPrint ("Error: " ++ str_exn e)]) ++ [EvPrint review_message])%list
        by (rewrite <- app_assoc; reflexivity).
      apply last_last.
Qed.

Lemma script_errors_are_caught_and_told_witness :
  skipn 14 (events_of (create_container failing_build_request))
  = [ EvPrint "Error: module 'subprocess' has no attribute 'CalledCalledProcessError'";
      EvPrint review_message ].
Proof.
  rewrite (proj2 (proj2 (proj1 (script_errors_are_caught_and_told
                                  scripted scripted_platform failing_build_request)
                           handler_lookup_error eq_refl))).
  reflexivity.
Defined.

(** X2. When the operator's input ends before the eleven answers are
    given, [input] raises [EOFError]: the run shows the prompts asked so
    far, then [Error: EOF when reading a line] and the review hint, and
    neither runs a command nor creates a directory. *)
Theorem input_ends_early :
  forall (host : Type) (P : Platform host) (h h1 : host) evs (e : exn),
    read_answers h = (evs, h1, Raise e) ->
    e = EOFError
    /\ create_container h
       = ((EvPrint banner :: evs)
          ++ [EvPrint "Error: EOF when reading a line"; EvPrint review_message],
          h1, Ok tt)%list
    /\ Forall quiet (events_of (create_container h)).
Proof.
  intros host P h h1 evs e Hr.
  assert (He : e = EOFError).
  { apply (read_answers_raises_only h). rewrite Hr. reflexivity. }
  subst e.
  assert (Hc : create_container h
               = ((EvPrint banner :: evs)
                  ++ [EvPrint "Error: EOF when reading a line"; EvPrint review_message],
                  h1, Ok tt)%list).
  { unfold create_container, try_except_Exception.
    unfold bind at 1. unfold print at 1. unfold bind at 1. rewrite Hr. reflexivity. }
  split; [reflexivity |]. split; [exact Hc |].
  rewrite Hc. cbn [events_of fst].
  pose proof (read_answers_quiet h) as Hq. rewrite Hr in Hq. cbn in Hq.
  constructor; [exact I |]. apply Forall_app. split; [exact Hq |].
  repeat constructor.
Qed.

Lemma input_ends_early_witness :
  create_container short_input_request
  = ([ EvPrint banner;
       EvInput "Plan (vStart/vProfessional/vPopular/vStable): ";
       EvInput "Client Domain Name: ";
       EvInput "Container Name (no spaces): ";
       EvPrint "Error: EOF when reading a line";
       EvPrint review_message ],
     {| lines := []; failing := [] |}, Ok tt).
Proof.
  exact (proj1 (proj2 (input_ends_early scripted scripted_platform
                         short_input_request _ _ EOFError eq_refl))).
Defined.

(** X3. Every command the script runs through [run_command] is checked:
    once such a command has exited with a status other than 0, the rest of
    the run prints messages only.  No further command is run, no directory
    is created, nothing that was created before is taken down.  Only the
    three probes (network listing, container listing, interface lookup) may
    fail without ending the run, and none of the checked commands is a
    probe. *)
Theorem failed_command_ends_the_run :
  (forall (host : Type) (P : Platform host) (h : host) pre c rc post,
      events_of (create_container h) = (pre ++ EvExec c rc :: post)%list ->
      rc <> 0 -> is_probe c = false -> Forall is_print post)
  /\ (forall (host : Type) (P : Platform host) (a : answers) (p : plan)
             (tag iface gw name : string) (subnet : option string)
             (p1 p2 p3 p4 : Z),
        Forall (fun c => is_probe c = false)
          [ build_cmd (a_plan a) p; link_add_cmd iface; addr_add_cmd gw iface;
            link_up_cmd iface; network_create_cmd name subnet; rm_cmd name;
            docker_run_cmd a p tag p1 p2 p3 p4 ]).
Proof.
  split.
  - intros host P h pre c rc post E Hrc Hp.
    exact (stops_split _ _ _ _ _ (create_container_stops h) E Hrc Hp).
  - intros host P a p tag iface gw name subnet p1 p2 p3 p4.
    repeat constructor.
    destruct subnet as [s |]; [destruct s |]; reflexivity.
Qed.

Lemma failed_command_ends_the_run_witness :
  Forall is_print (skipn 14 (events_of (create_container failing_build_request))).
Proof.
  refine (proj1 failed_command_ends_the_run scripted scripted_platform
            failing_build_request
            (firstn 13 (events_of (create_container failing_build_request)))
            "docker build -t hosting:vstart -f /opt/scripts/../Dockerfiles/Dockerfile.vStart /opt/scripts/../Dockerfiles"
            1 _ eq_refl _ eq_refl).
  discriminate.
Defined.

(** X4. A provisioning that returned normally went through the four
    preparatory steps and then drew four ports, from 20000..30000,
    30001..40000, 40001..50000 and 50001..60000 in this order.  The numbers
    that [random.randint] returned at these four calls, on the host as the
    preparation left it, are the ones the [docker run] command publishes
    (for ports 80, 443, 22 and 3306) and the ones the report shows; the
    identifier shown is the trimmed output of that command.  When
    [random.randint] keeps to its bounds the four host ports are therefore
    in their ranges and differ from one another. *)
Theorem published_ports_are_the_drawn_ones :
  forall (host : Type) (P : Platform host) (a : answers) (h h2 : host) evs,
    (forall lo hi g, lo <= hi -> lo <= fst (random_randint lo hi g) <= hi) ->
    provision a h = (evs, h2, Ok tt) ->
    exists p : plan,
      dict_get PLANS (a_plan a) = Some p
      /\ evs = (events_of (prepare a h) ++
                [ EvRandint 20000 30000; EvRandint 30001 40000;
                  EvRandint 40001 50000; EvRandint 50001 60000;
                  EvPrint (running_message a);
                  EvExec (docker_run_cmd a p (image_tag_of (a_plan a))
                            (http_drawn (host_of (prepare a h)))
                            (https_drawn (host_of (prepare a h)))
                            (ssh_drawn (host_of (prepare a h)))
                            (mysql_drawn (host_of (prepare a h)))) 0;
                  EvPrint (success_report a
                             (strip (stdout
                                (fst (shell (launch_cmd a p (host_of (prepare a h)))
                                        (after_mysql (host_of (prepare a h)))))))
                             (http_drawn (host_of (prepare a h)))
                             (https_drawn (host_of (prepare a h)))
                             (ssh_drawn (host_of (prepare a h)))
                             (mysql_drawn (host_of (prepare a h)))) ])%list
      /\ 20000 <= http_drawn (host_of (prepare a h)) <= 30000
      /\ 30001 <= https_drawn (host_of (prepare a h)) <= 40000
      /\ 40001 <= ssh_drawn (host_of (prepare a h)) <= 50000
      /\ 50001 <= mysql_drawn (host_of (prepare a h)) <= 60000
      /\ http_drawn (host_of (prepare a h)) < https_drawn (host_of (prepare a h))
      /\ https_drawn (host_of (prepare a h)) < ssh_drawn (host_of (prepare a h))
      /\ ssh_drawn (host_of (prepare a h)) < mysql_drawn (host_of (prepare a h)).
Proof.
  intros host P a h h2 evs Hrand Hok.
  apply provision_ok_shape in Hok as (p & Hp & _ & ->).
  set (g := host_of (prepare a h)).
  pose proof (Hrand 20000 30000 g ltac:(lia)) as B1.
  pose proof (Hrand 30001 40000 (after_http g) ltac:(lia)) as B2.
  pose proof (Hrand 40001 50000 (after_https g) ltac:(lia)) as B3.
  pose proof (Hrand 50001 60000 (after_ssh g) ltac:(lia)) as B4.
  fold (http_drawn g) in B1. fold (https_drawn g) in B2.
  fold (ssh_drawn g) in B3. fold (mysql_drawn g) in B4.
  exists p. split; [exact Hp |]. split; [reflexivity |]. lia.
Qed.

Lemma published_ports_are_the_drawn_ones_witness :
  skipn 13 (events_of (provision sample_answers {| lines := []; failing := [] |}))
  = [ EvExec (docker_run_cmd sample_answers
                {| cpu := "1"; mem := "4g"; dockerfile := "Dockerfile.vStart" |}
                "hosting:vstart" 20000 30001 40001 50001) 0;
      EvPrint (success_report sample_answers "3f2a9c" 20000 30001 40001 50001) ].
Proof.
  assert (Hrand : forall lo hi (g : scripted),
             lo <= hi -> lo <= fst (random_randint lo hi g) <= hi).
  { intros lo hi g Hle. cbn. lia. }
  assert (Hok : provision sample_answers {| lines := []; failing := [] |}
                = (events_of (provision sample_answers {| lines := []; failing := [] |}),
                   host_of (provision sample_answers {| lines := []; failing := [] |}),
                   Ok tt)).
  { vm_compute. reflexivity. }
  destruct (published_ports_are_the_drawn_ones scripted scripted_platform
              sample_answers _ _ _ Hrand Hok)
    as (p & Hp & E & _).
  injection Hp as <-. rewrite E. reflexivity.
Defined.

(** ** The helpers one by one *)

(** X5. [remove_existing_container] decides on the output of the container
    listing alone, whatever the exit status of the listing: a blank output
    means no removal command at all; any other output means [docker rm -f]
    on the name, and a failure of that command is reported and raised. *)
Theorem stale_container_is_removed_when_listed :
  forall (host : Type) (P : Platform host) (name : string) (h : host),
    (is_empty (strip (stdout (fst (shell (ps_cmd name) h)))) = true ->
     remove_existing_container name h
     = ([ EvExec (ps_cmd name) (returncode (fst (shell (ps_cmd name) h)));
          EvPrint ("No existing container named " ++ name ++ " found.") ],
        snd (shell (ps_cmd name) h), Ok tt))
    /\ (is_empty (strip (stdout (fst (shell (ps_cmd name) h)))) = false ->
        forall rc,
          rc = returncode (fst (shell (rm_cmd name) (snd (shell (ps_cmd name) h)))) ->
          remove_existing_container name h
          = (([ EvExec (ps_cmd name) (returncode (fst (shell (ps_cmd name) h)));
                EvPrint ("Removing existing container '" ++ name ++ "' ...");
                EvExec (rm_cmd name) rc ]
              ++ (if rc =? 0 then []
                  else [ EvPrint ("Error in removing existing container: "
                                  ++ str_exn handler_lookup_error) ]))%list,
             snd (shell (rm_cmd name) (snd (shell (ps_cmd name) h))),
             if rc =? 0 then Ok tt else Raise handler_lookup_error)).
Proof.
  intros host P name h.
  split; intros E; [| intros rc ->];
    unfold remove_existing_container, try_except_Exception, subprocess_run;
    unfold bind at 1; fold (ps_cmd name);
    destruct (shell (ps_cmd name) h) as [r h1]; cbn [fst snd] in *;
    lazy beta iota zeta; rewrite E; cbn [negb].
  - reflexivity.
  - unfold bind, print. fold (rm_cmd name).
    rewrite run_command_eq.
    destruct (returncode (fst (shell (rm_cmd name) h1)) =? 0); reflexivity.
Qed.

Lemma stale_container_is_removed_when_listed_witness :
  remove_existing_container "web1" failing_rm_host
  = ([ EvExec "docker ps -a --filter name=^web1$ -q" 0;
       EvPrint "Removing existing container 'web1' ...";
       EvExec "docker rm -f web1" 1;
       EvPrint "Error in removing existing container: module 'subprocess' has no attribute 'CalledCalledProcessError'" ],
     failing_rm_host, Raise handler_lookup_error).
Proof.
  exact (proj2 (stale_container_is_removed_when_listed
                  scripted scripted_platform "web1" failing_rm_host)
           eq_refl 1 eq_refl).
Defined.

Ltac cmd_neq' :=
  unfold network_ls_cmd, network_create_cmd, ip_show_cmd, link_add_cmd,
    addr_add_cmd, link_up_cmd;
  repeat match goal with
         | |- context [if ?b then _ else _] => destruct b
         end;
  cbn; discriminate.

(** Settle a goal about membership in a list of commands: the memberships
    assumed are all impossible, or the ones asked for are plain. *)
Ltac settle_in :=
  cbn [succeeded execs app];
  repeat match goal with
         | E : (returncode ?r =? 0) = _ |- _ => rewrite ?E in *; clear E
         end;
  repeat match goal with
         | |- context [returncode ?r =? 0] => destruct (returncode r =? 0)
         end;
  cbn [In];
  first
    [ solve [ intuition auto ]
    | let H := fresh "Hin" in
      intros H; exfalso;
      repeat (destruct H as [H | H]; [revert H; cmd_neq' |]); exact H ].

(** X6. [create_host_interface] asks the host first: when the interface is
    shown, nothing is created.  Otherwise the interface is added, given the
    gateway address and brought up, in this order and each step only after
    the one before succeeded; a normal return means that all three
    succeeded. *)
Theorem host_interface_steps_in_order :
  forall (host : Type) (P : Platform host) (subnet iface : string) (h : host),
    (returncode (fst (shell (ip_show_cmd iface) h)) = 0 ->
     create_host_interface subnet iface h
     = ([ EvExec (ip_show_cmd iface) 0;
          EvPrint ("Interface " ++ iface ++ " already exists.") ],
        snd (shell (ip_show_cmd iface) h), Ok tt))
    /\ (In (addr_add_cmd (gateway_ip subnet) iface)
          (execs (events_of (create_host_interface subnet iface h))) ->
        In (link_add_cmd iface)
          (succeeded (events_of (create_host_interface subnet iface h))))
    /\ (In (link_up_cmd iface)
          (execs (events_of (create_host_interface subnet iface h))) ->
        In (link_add_cmd iface)
          (succeeded (events_of (create_host_interface subnet iface h)))
        /\ In (addr_add_cmd (gateway_ip subnet) iface)
             (succeeded (events_of (create_host_interface subnet iface h))))
    /\ (result_of (create_host_interface subnet iface h) = Ok tt ->
        returncode (fst (shell (ip_show_cmd iface) h)) <> 0 ->
        succeeded (events_of (create_host_interface subnet iface h))
        = [ link_add_cmd iface; addr_add_cmd (gateway_ip subnet) iface;
            link_up_cmd iface ]).
Proof.
  intros host P subnet iface h. split; [| split; [| split]].
  - intros E. unfold create_host_interface, try_except_Exception, bind,
      subprocess_run, print.
    destruct (shell (ip_show_cmd iface) h) as [r h1]. cbn [fst snd] in *.
    rewrite E. reflexivity.
  - run_all; settle_in.
  - run_all; settle_in.
  - run_all; intros Hres Hrc; try discriminate Hres;
      try (exfalso; apply Hrc; apply Z.eqb_eq; assumption).
    cbn [succeeded app].
    repeat match goal with
           | E : (returncode ?r =? 0) = _ |- _ => rewrite ?E in *; clear E
           end.
    reflexivity.
Qed.

Lemma host_interface_steps_in_order_witness :
  succeeded (events_of
               (@create_host_interface _ sample_net_platform
                  "45.59.132.208/28" "docknet0" {| nets := []; ifaces := [] |}))
  = [ "sudo ip link add docknet0 type dummy";
      "sudo ip addr add 45.59.132.1/28 dev docknet0";
      "sudo ip link set docknet0 up" ].
Proof.
  refine (proj2 (proj2 (proj2 (host_interface_steps_in_order
                                 nethost sample_net_platform
                                 "45.59.132.208/28" "docknet0"
                                 {| nets := []; ifaces := [] |})))
            eq_refl _).
  discriminate.
Defined.

(** X7. The network is created on top of a ready host interface.  Without
    a subnet (none given, or an empty one) [create_docker_network] runs the
    listing and at most the plain creation command, never a host-interface
    command.  With a subnet, the creation command is run only after the
    interface was shown to exist or after it was added, addressed and
    brought up successfully. *)
Theorem network_needs_ready_interface :
  forall (host : Type) (P : Platform host) (name : string) (subnet : option string)
         (h : host),
    (subnet = None \/ subnet = Some EmptyString ->
     execs (events_of (create_docker_network name subnet h))
     = [ network_ls_cmd name ]
     \/ execs (events_of (create_docker_network name subnet h))
        = [ network_ls_cmd name; "docker network create --driver=bridge " ++ name ])
    /\ (forall s,
          subnet = Some s -> s <> EmptyString ->
          In (network_create_cmd name subnet)
            (execs (events_of (create_docker_network name subnet h))) ->
          In (ip_show_cmd "docknet0")
            (succeeded (events_of (create_docker_network name subnet h)))
          \/ (In (link_add_cmd "docknet0")
                (succeeded (events_of (create_docker_network name subnet h)))
              /\ In (addr_add_cmd (gateway_ip s) "docknet0")
                   (succeeded (events_of (create_docker_network name subnet h)))
              /\ In (link_up_cmd "docknet0")
                   (succeeded (events_of (create_docker_network name subnet h))))).
Proof.
  intros host P name subnet h. split.
  - intros [-> | ->]; run_all; cbn [execs app];
      try match goal with
          | H : is_empty EmptyString = false |- _ => cbn in H; discriminate H
          end;
      auto.
  - intros s -> Hs.
    assert (Es : is_empty s = false) by (destruct s; [contradiction | reflexivity]).
    run_all; try (rewrite Es in *; discriminate); settle_in.
Qed.

Lemma network_needs_ready_interface_witness :
  In "sudo ip link set docknet0 up" (succeeded (events_of sample_first_call)).
Proof.
  destruct (proj2 (network_needs_ready_interface nethost sample_net_platform
                     "hosting_net" (Some "45.59.132.208/28")
                     {| nets := []; ifaces := [] |})
              "45.59.132.208/28" eq_refl ltac:(discriminate)
              ltac:(cbn; tauto))
    as [H | (_ & _ & H)].
  - exfalso. cbn in H. repeat (destruct H as [H | H]; [discriminate H |]). exact H.
  - exact H.
Defined.

(** ** A request that names no subnet *)

Section Only.
Context {host : Type} {P : Platform host}.
Variable allowed : string -> Prop.

Lemma only_bind {A B} (m : M host A) (f : A -> M host B) :
  (forall h, Forall (issues_only allowed) (events_of (m h))) ->
  (forall a h0 h, result_of (m h0) = Ok a ->
                  Forall (issues_only allowed) (events_of (f a h))) ->
  forall h, Forall (issues_only allowed) (events_of (bind m f h)).
Proof.
  intros Hm Hf h. specialize (Hm h). unfold bind.
  destruct (m h) as [[ev1 h1] [a | e]] eqn:E; [| exact Hm].
  assert (Hres : result_of (m h) = Ok a) by (rewrite E; reflexivity).
  specialize (Hf a h h1 Hres). destruct (f a h1) as [[ev2 h2] r].
  apply Forall_app. split; assumption.
Qed.

Lemma only_try {A} (body : M host A) (handler : exn -> M host A) :
  (forall h, Forall (issues_only allowed) (events_of (body h))) ->
  (forall e h, Forall (issues_only allowed) (events_of (handler e h))) ->
  forall h, Forall (issues_only allowed)
              (events_of (try_except_Exception body handler h)).
Proof.
  intros Hb Hh h. specialize (Hb h). unfold try_except_Exception.
  destruct (body h) as [[ev1 h1] [a | e]]; [exact Hb |].
  specialize (Hh e h1). destruct (handler e h1) as [[ev2 h2] r].
  apply Forall_app. split; assumption.
Qed.

Lemma only_print (s : string) (h : host) :
  Forall (issues_only allowed) (events_of (print s h)).
Proof. repeat constructor. Qed.

Lemma only_ret {A} (a : A) (h : host) :
  Forall (issues_only allowed) (events_of (ret a h)).
Proof. constructor. Qed.

Lemma only_raise {A} (e : exn) (h : host) :
  Forall (issues_only allowed) (events_of (raise (A := A) e h)).
Proof. constructor. Qed.

Lemma only_makedirs (path : string) (h : host) :
  Forall (issues_only allowed) (events_of (makedirs path h)).
Proof. rewrite events_makedirs. repeat constructor. Qed.

Lemma only_randint (lo hi : Z) (h : host) :
  Forall (issues_only allowed) (events_of (randint lo hi h)).
Proof.
  unfold randint. destruct (random_randint lo hi h). repeat constructor.
Qed.

Lemma only_subprocess_run (c : string) (h : host) :
  allowed c ->
  Forall (issues_only allowed) (events_of (subprocess_run c h)).
Proof.
  intros Hc. unfold subprocess_run. destruct (shell c h). repeat constructor.
  exact Hc.
Qed.

Lemma only_run_command (c : string) (h : host) :
  allowed c ->
  Forall (issues_only allowed) (events_of (run_command c h)).
Proof. intros Hc. rewrite run_command_eq. repeat constructor. exact Hc. Qed.

Lemma only_quiet (evs : list event) :
  Forall quiet evs -> Forall (issues_only allowed) evs.
Proof.
  apply Forall_impl. intros e He. destruct e; try contradiction; exact I.
Qed.

Lemma execs_only (evs : list event) (c : string) :
  Forall (issues_only allowed) evs -> In c (execs evs) -> allowed c.
Proof.
  induction 1 as [| e evs He _ IH]; [intros [] |].
  destruct e; cbn [execs]; try exact IH.
  intros [<- | Hin]; [exact He | exact (IH Hin)].
Qed.

End Only.

Ltac plain :=
  unfold plain_command;
  first
    [ left; eexists; split; [eassumption | reflexivity]
    | right; left; reflexivity
    | do 2 right; left; reflexivity
    | do 3 right; left; reflexivity
    | do 4 right; left; reflexivity
    | do 5 right; do 5 eexists; split; [eassumption | reflexivity] ].

Ltac only_step :=
  first
    [ apply only_bind;
      [ intros ?
      | let H := fresh "Hres" in
        intros ? ? ? H;
        try (unfold ret, print in H; cbn [result_of snd] in H;
             injection H as <-) ]
    | apply only_try; [intros ? | intros ? ?]
    | apply only_print | apply only_ret | apply only_raise | apply only_makedirs
    | apply only_randint
    | apply only_run_command; plain
    | apply only_subprocess_run; plain
    | match goal with
      | |- Forall _ (events_of ((if ?b then _ else _) _)) => destruct b
      | |- Forall _ (events_of ((match ?x with _ => _ end) _)) => destruct x
      end ].

Section Plain.
Context {host : Type} {P : Platform host}.

Lemma build_image_plain (a : answers) (h : host) :
  Forall (issues_only (plain_command a)) (events_of (build_image (a_plan a) h)).
Proof.
  unfold build_image, PLANS_getitem.
  destruct (dict_get PLANS (a_plan a)) as [p |] eqn:Hp; [| apply only_raise].
  revert h. repeat only_step.
Qed.

Lemma provision_plain (a : answers) (h : host) :
  a_subnet a = EmptyString ->
  Forall (issues_only (plain_command a)) (events_of (provision a h)).
Proof.
  intros Hs. unfold provision. rewrite Hs. cbn [is_empty negb].
  revert h. apply only_bind; [apply build_image_plain |].
  intros tag h0 h Hres.
  destruct (build_image (a_plan a) h0) as [[ev g] r] eqn:E.
  cbn [result_of snd] in Hres. subst r.
  apply build_image_ok_inv in E as (p & Hp & ->).
  unfold create_docker_network, remove_existing_container, random_port,
    PLANS_getitem.
  rewrite Hp. revert h. repeat only_step.
Qed.

Lemma plain_command_first (a : answers) (c : string) :
  plain_command a c -> exists r, c = String "d" r.
Proof.
  intros [(p & _ & ->) | [-> | [-> | [-> | [-> | (p & p1 & p2 & p3 & p4 & _ & ->)]]]]];
    eexists; reflexivity.
Qed.

End Plain.

(** X8. When the subnet answer is blank, [create_host_interface] is never
    reached: every command line the script passes to the shell is, with
    the answers filled in, the image build, the network listing, the
    network creation without [--subnet], the container listing, the
    container removal or the container start; the interface lookup and the
    three [sudo ip] command lines are not among them, for any interface
    name and any gateway. *)
Theorem blank_subnet_skips_host_interface :
  forall (host : Type) (P : Platform host) (h h1 : host) evs (a : answers),
    read_answers h = (evs, h1, Ok a) ->
    a_subnet a = EmptyString ->
    Forall (issues_only (plain_command a)) (events_of (create_container h))
    /\ forall iface gw : string,
         ~ In (ip_show_cmd iface) (execs (events_of (create_container h)))
         /\ ~ In (link_add_cmd iface) (execs (events_of (create_container h)))
         /\ ~ In (addr_add_cmd gw iface) (execs (events_of (create_container h)))
         /\ ~ In (link_up_cmd iface) (execs (events_of (create_container h))).
Proof.
  intros host P h h1 evs a Hr Hs.
  pose proof (read_answers_quiet h) as Hq. rewrite Hr in Hq. cbn in Hq.
  assert (Hall : Forall (issues_only (plain_command a))
                   (events_of (create_container h))).
  { destruct (dict_mem PLANS (a_plan a)) eqn:Hm.
    - destruct (create_container_known h h1 evs a Hr Hm) as (tl & -> & Hraise & Hok).
      constructor; [exact I |].
      apply Forall_app. split; [apply only_quiet; exact Hq |].
      apply Forall_app. split; [apply provision_plain; exact Hs |].
      destruct (result_of (provision a h1)) as [u | e] eqn:Er.
      + rewrite (Hok u eq_refl). constructor.
      + specialize (Hraise e eq_refl). revert Hraise. apply Forall_impl.
        intros x Hx. destruct x; try contradiction; exact I.
    - rewrite (create_container_unknown h h1 evs a Hr Hm). cbn [events_of fst].
      constructor; [exact I |].
      apply Forall_app. split; [apply only_quiet; exact Hq |].
      repeat constructor. }
  split; [exact Hall |].
  intros iface gw.
  repeat split; intros Hin;
    apply (execs_only _ _ _ Hall) in Hin;
    apply plain_command_first in Hin as [r E];
    discriminate E.
Qed.

Lemma blank_subnet_skips_host_interface_witness :
  ~ In "ip addr show docknet0"
      (execs (events_of (create_container default_bridge_request)))
  /\ execs (events_of (create_container default_bridge_request))
     = [ "docker build -t hosting:vpopular -f /opt/scripts/../Dockerfiles/Dockerfile.vPopular /opt/scripts/../Dockerfiles";
         "docker network ls --filter name=^plain_net$ -q";
         "docker ps -a --filter name=^web2$ -q";
         "docker rm -f web2";
         "docker run -d --name web2 --hostname example.org --cpus="
         ++ dquote ++ "4" ++ dquote ++ " --memory=" ++ dquote ++ "16g" ++ dquote
         ++ " --net plain_net -v /srv/web2/www:/home/bob/www -e USERNAME=bob -e PASSWORD=pw1 -e DB_ADMIN_USER=dba -e DB_ADMIN_PASS=pw2 -e DB_USER=dbu -e DB_PASS=pw3 -p 20000:80 -p 30001:443 -p 40001:22 -p 50001:3306 hosting:vpopular" ].
Proof.
  split; [| reflexivity].
  exact (proj1 (proj2 (blank_subnet_skips_host_interface scripted scripted_platform
                         default_bridge_request _ _ _ eq_refl eq_refl)
                  "docknet0" "10.0.0.1/28")).
Defined.

(** ** The image of a plan *)

Lemma lower_char_not_upper (c : ascii) : is_upper (lower_char c) = false.
Proof.
  destruct c as [[] [] [] [] [] [] [] []]; reflexivity.
Qed.

Lemma has_upper_app (s t : string) :
  has_upper (s ++ t) = has_upper s || has_upper t.
Proof.
  induction s as [| c s IH]; [reflexivity |].
  cbn [append has_upper]. rewrite IH, orb_assoc. reflexivity.
Qed.

Lemma lower_not_upper (s : string) : has_upper (lower s) = false.
Proof.
  induction s as [| c s IH]; [reflexivity |].
  cbn [lower has_upper]. rewrite lower_char_not_upper, IH. reflexivity.
Qed.

(** X9. [build_image] on its own.  The tag it computes has no capital
    letter, whatever the plan name.  A plan outside the catalog raises
    [KeyError] before anything is printed or run.  When the call returns,
    it returns that tag, after one announcement and one build command
    that ended with status 0. *)
Theorem build_image_outcomes :
  forall (host : Type) (P : Platform host) (plan : string) (h : host),
    has_upper (image_tag_of plan) = false
    /\ (dict_get PLANS plan = None ->
        build_image plan h = ([], h, Raise (KeyError plan)))
    /\ (forall tag,
          result_of (build_image plan h) = Ok tag ->
          tag = image_tag_of plan
          /\ exists p,
               dict_get PLANS plan = Some p
               /\ events_of (build_image plan h)
                  = [ EvPrint (building_message plan p);
                      EvExec (build_cmd plan p) 0 ]).
Proof.
  intros host P plan h. split; [| split].
  - unfold image_tag_of. rewrite has_upper_app, lower_not_upper. reflexivity.
  - intros Hp. unfold build_image, PLANS_getitem. rewrite Hp. reflexivity.
  - intros tag Hok. destruct (dict_get PLANS plan) as [p |] eqn:Hp.
    + rewrite (build_image_eq plan p h Hp) in *. cbn [result_of events_of fst snd] in *.
      destruct (returncode (fst (shell (build_cmd plan p) h)) =? 0) eqn:Erc;
        [| discriminate Hok].
      apply Z.eqb_eq in Erc. rewrite Erc.
      split; [congruence |]. exists p. split; reflexivity.
    + unfold build_image, PLANS_getitem in Hok. rewrite Hp in Hok.
      discriminate Hok.
Qed.

Lemma build_image_outcomes_witness :
  build_image "vGold" sample_request = ([], sample_request, Raise (KeyError "vGold"))
  /\ image_tag_of "vStart" = "hosting:vstart"
  /\ exists p, dict_get PLANS "vStart" = Some p
               /\ events_of (build_image "vStart" sample_request)
                  = [ EvPrint (building_message "vStart" p);
                      EvExec (build_cmd "vStart" p) 0 ].
Proof.
  destruct (build_image_outcomes scripted scripted_platform "vGold" sample_request)
    as (_ & Hk & _).
  destruct (build_image_outcomes scripted scripted_platform "vStart" sample_request)
    as (_ & _ & Hok).
  split; [exact (Hk eq_refl) |].
  destruct (Hok "hosting:vstart" eq_refl) as (Ht & Hp).
  split; [symmetry; exact Ht | exact Hp].
Defined.

(** ** The gateway of an arbitrary subnet text *)

Lemma split_no_sep sep s :
  no_char sep s = true -> item0 (split sep s) = s.
Proof.
  induction s as [| a s IH]; simpl; intros Hs; [reflexivity |].
  destruct (Ascii.eqb a sep); [discriminate |].
  specialize (IH Hs).
  destruct (split sep s) as [| x l]; simpl in *; congruence.
Qed.

(** X10. [create_host_interface] does not validate its subnet.  The text
    after the first slash is ignored: the gateway of [addr/m] is the
    gateway of [addr], under the fixed mask [/28] whatever [m] is.  An
    address without any dot is kept whole, so that [addr] gives
    [addr.1/28]. *)
Theorem gateway_ip_unvalidated :
  forall addr m : string,
    no_char "/" addr = true ->
    gateway_ip (addr ++ "/" ++ m) = gateway_ip addr
    /\ (no_char "." addr = true -> gateway_ip addr = addr ++ ".1/28").
Proof.
  intros addr m Hs. unfold gateway_ip, base_ip.
  change (addr ++ "/" ++ m) with (addr ++ String "/" m).
  rewrite (split_head _ _ _ Hs), (split_no_sep _ _ Hs).
  split; [reflexivity |].
  intros Hd. rewrite (rsplit1_no_sep _ _ Hd). reflexivity.
Qed.

Lemma gateway_ip_unvalidated_witness :
  gateway_ip "10.0.0.16/999" = "10.0.0.1/28"
  /\ gateway_ip "localhost" = "localhost.1/28".
Proof.
  split.
  - exact (proj1 (gateway_ip_unvalidated "10.0.0.16" "999" eq_refl)).
  - exact (proj2 (gateway_ip_unvalidated "localhost" "24" eq_refl) eq_refl).
Defined.

(** ** The answers *)

Lemma lstrip_idem (s : string) : lstrip (lstrip s) = lstrip s.
Proof.
  induction s as [| c s IH]; [reflexivity |].
  cbn [lstrip]. destruct (isspace c) eqn:Ec; [exact IH |].
  cbn [lstrip]. rewrite Ec. reflexivity.
Qed.

Lemma rstrip_idem (s : string) : rstrip (rstrip s) = rstrip s.
Proof.
  induction s as [| c s IH]; [reflexivity |].
  cbn [rstrip]. destruct (isspace c && is_empty (rstrip s)) eqn:Ec; [reflexivity |].
  cbn [rstrip]. rewrite IH, Ec. reflexivity.
Qed.

Lemma rstrip_lstrip (t : string) : rstrip t = t -> rstrip (lstrip t) = lstrip t.
Proof.
  induction t as [| c t IH]; [reflexivity |].
  intros H. cbn [lstrip]. destruct (isspace c) eqn:Ec; [| exact H].
  apply IH. cbn [rstrip] in H. rewrite Ec in H. cbn [andb] in H.
  destruct (is_empty (rstrip t)); [discriminate H |].
  injection H as H. exact H.
Qed.

Lemma strip_idem (s : string) : strip (strip s) = strip s.
Proof.
  unfold strip. rewrite (rstrip_lstrip _ (rstrip_idem s)). apply lstrip_idem.
Qed.

Section Answers.
Context {host : Type} {P : Platform host}.

Lemma input_ok_inv (prompt : string) (h h' : host) evs (l : string) :
  input prompt h = (evs, h', Ok l) ->
  evs = [EvInput prompt] /\ stdin_line h = (Some l, h').
Proof.
  unfold input. destruct (stdin_line h) as [[x |] g]; [| discriminate].
  intros H. injection H as <- <- <-. split; reflexivity.
Qed.

Lemma read_lines_S (n : nat) (h h' : host) (l : string) :
  stdin_line h = (Some l, h') ->
  read_lines (S n) h
  = (option_map (cons l) (fst (read_lines n h')), snd (read_lines n h')).
Proof.
  intros E. cbn [read_lines]. rewrite E.
  destruct (read_lines n h'). reflexivity.
Qed.

Lemma read_answers_ok_inv (h h1 : host) evs (a : answers) :
  read_answers h = (evs, h1, Ok a) ->
  evs = map EvInput prompts
  /\ option_map (map strip) (fst (read_lines 11 h)) = Some (fields a)
  /\ snd (read_lines 11 h) = h1.
Proof.
  unfold read_answers. intros H.
  apply bind_ok_inv in H as (e1 & g1 & x1 & r1 & H1 & H & ->).
  apply bind_ok_inv in H as (e2 & g2 & x2 & r2 & H2 & H & ->).
  apply bind_ok_inv in H as (e3 & g3 & x3 & r3 & H3 & H & ->).
  apply bind_ok_inv in H as (e4 & g4 & x4 & r4 & H4 & H & ->).
  apply bind_ok_inv in H as (e5 & g5 & x5 & r5 & H5 & H & ->).
  apply bind_ok_inv in H as (e6 & g6 & x6 & r6 & H6 & H & ->).
  apply bind_ok_inv in H as (e7 & g7 & x7 & r7 & H7 & H & ->).
  apply bind_ok_inv in H as (e8 & g8 & x8 & r8 & H8 & H & ->).
  apply bind_ok_inv in H as (e9 & g9 & x9 & r9 & H9 & H & ->).
  apply bind_ok_inv in H as (e10 & g10 & x10 & r10 & H10 & H & ->).
  apply bind_ok_inv in H as (e11 & g11 & x11 & r11 & H11 & H & ->).
  apply input_ok_inv in H1 as [-> S1], H2 as [-> S2], H3 as [-> S3],
    H4 as [-> S4], H5 as [-> S5], H6 as [-> S6], H7 as [-> S7], H8 as [-> S8],
    H9 as [-> S9], H10 as [-> S10], H11 as [-> S11].
  unfold ret in H. injection H as <- <- <-.
  rewrite (read_lines_S _ _ _ _ S1), (read_lines_S _ _ _ _ S2),
    (read_lines_S _ _ _ _ S3), (read_lines_S _ _ _ _ S4),
    (read_lines_S _ _ _ _ S5), (read_lines_S _ _ _ _ S6),
    (read_lines_S _ _ _ _ S7), (read_lines_S _ _ _ _ S8),
    (read_lines_S _ _ _ _ S9), (read_lines_S _ _ _ _ S10),
    (read_lines_S _ _ _ _ S11).
  cbn. repeat split; reflexivity.
Qed.

End Answers.

(** X11. When all answers were read, the eleven questions were asked once
    each in their fixed order, and the answers kept are the next eleven
    lines of the operator's input, in this order, each without the blanks
    typed around it; stripping a kept answer again changes nothing. *)
Theorem answers_are_trimmed :
  forall (host : Type) (P : Platform host) (h h1 : host) evs (a : answers),
    read_answers h = (evs, h1, Ok a) ->
    evs = map EvInput prompts
    /\ option_map (map strip) (fst (read_lines 11 h)) = Some (fields a)
    /\ snd (read_lines 11 h) = h1
    /\ Forall trimmed (fields a).
Proof.
  intros host P h h1 evs a H.
  destruct (read_answers_ok_inv h h1 evs a H) as (Hev & Hf & Hh).
  split; [exact Hev |]. split; [exact Hf |]. split; [exact Hh |].
  destruct (fst (read_lines 11 h)) as [typed |]; [| discriminate Hf].
  cbn [option_map] in Hf. injection Hf as <-.
  apply Forall_map. apply Forall_forall.
  intros s _. apply strip_idem.
Qed.

Lemma answers_are_trimmed_witness :
  exists a, result_of (read_answers padded_request) = Ok a
            /\ Some (fields a)
               = Some (map strip ["  vStart"; "example.com  "; " web1 "; "alice";
                                  "pw1"; "dba"; "pw2"; "dbu"; "pw3";
                                  " 45.59.132.208/28"; "hosting_net "])
            /\ fields a = fields sample_answers.
Proof.
  eexists. split; [reflexivity |]. split; [| reflexivity].
  symmetry.
  exact (proj1 (proj2 (answers_are_trimmed scripted scripted_platform
                         padded_request _ _ _ eq_refl))).
Defined.

(** X12. A command that [run_command] ran to a normal return ended with
    status 0, was the only thing done (nothing is printed), and what is
    returned is its standard output without the blanks and line ends
    around it. *)
Theorem run_command_returns_trimmed_output :
  forall (host : Type) (P : Platform host) (c : string) (h h' : host) evs
         (out : string),
    run_command c h = (evs, h', Ok out) ->
    evs = [EvExec c 0]
    /\ out = strip (stdout (fst (shell c h)))
    /\ trimmed out.
Proof.
  intros host P c h h' evs out H.
  destruct (run_command_ok_inv c h h' evs out H) as [-> ->].
  repeat split. apply strip_idem.
Qed.

Lemma run_command_returns_trimmed_output_witness :
  result_of (run_command "docker ps -q" sample_request) = Ok "3f2a9c"
  /\ trimmed "3f2a9c".
Proof.
  split; [reflexivity |].
  exact (proj2 (proj2 (run_command_returns_trimmed_output scripted scripted_platform
                         "docker ps -q" sample_request _ _ "3f2a9c" eq_refl))).
Defined.

End ProvisioningProofs.

(** * Further properties of [monitor.py] *)

Module ReportingProofs.
Import PyStr Monitor MonitorProofs Reporting.
Local Open Scope mon_scope.

(** ** Decimal text and [int] *)

Lemma parse_digits_acc (u : Decimal.uint) (acc : positive) :
  parse_digits (NilEmpty.string_of_uint u) (Zpos acc) true
  = Some (Zpos (Pos.of_uint_acc u acc)).
Proof.
  revert acc. induction u; intros acc;
    cbn [NilEmpty.string_of_uint parse_digits Pos.of_uint_acc];
    try reflexivity;
    rewrite <- IHu;
    match goal with
    | |- context [digit_of ?c] =>
        let d := eval vm_compute in (digit_of c) in
        change (digit_of c) with d
    end;
    cbv beta iota; f_equal; lia.
Qed.

Lemma parse_digits_uint (u : Decimal.uint) (b : bool) :
  b = true \/ u <> Decimal.Nil ->
  parse_digits (NilEmpty.string_of_uint u) 0 b = Some (Z.of_N (Pos.of_uint u)).
Proof.
  revert b. induction u; intros b Hb;
    cbn [NilEmpty.string_of_uint parse_digits Pos.of_uint].
  - destruct Hb as [-> | Hb]; [reflexivity | contradiction].
  - change (digit_of "0") with (Some 0). cbv beta iota.
    change (10 * 0 + 0) with 0. apply IHu. left. reflexivity.
  - change (digit_of "1") with (Some 1). exact (parse_digits_acc u 1).
  - change (digit_of "2") with (Some 2). exact (parse_digits_acc u 2).
  - change (digit_of "3") with (Some 3). exact (parse_digits_acc u 3).
  - change (digit_of "4") with (Some 4). exact (parse_digits_acc u 4).
  - change (digit_of "5") with (Some 5). exact (parse_digits_acc u 5).
  - change (digit_of "6") with (Some 6). exact (parse_digits_acc u 6).
  - change (digit_of "7") with (Some 7). exact (parse_digits_acc u 7).
  - change (digit_of "8") with (Some 8). exact (parse_digits_acc u 8).
  - change (digit_of "9") with (Some 9). exact (parse_digits_acc u 9).
Qed.

Lemma digit_not_space (c : ascii) :
  digit_of c <> None -> int_isspace c = false.
Proof.
  destruct c as [[] [] [] [] [] [] [] []]; intros H; try reflexivity;
    exfalso; apply H; reflexivity.
Qed.

Lemma all_digits_uint (u : Decimal.uint) :
  all_digits (NilEmpty.string_of_uint u) = true.
Proof. induction u; cbn; auto. Qed.

Lemma rstrip_digits (s : string) : all_digits s = true -> int_rstrip s = s.
Proof.
  induction s as [| c s IH]; [reflexivity |].
  cbn [all_digits int_rstrip]. destruct (digit_of c) eqn:Ec; [| discriminate].
  intros Hs. rewrite (IH Hs), digit_not_space by congruence. reflexivity.
Qed.

Lemma lstrip_digits (s : string) : all_digits s = true -> int_lstrip s = s.
Proof.
  destruct s as [| c s]; [reflexivity |].
  cbn [all_digits int_lstrip]. destruct (digit_of c) eqn:Ec; [| discriminate].
  intros _. rewrite digit_not_space by congruence. reflexivity.
Qed.

(** The digits of a number are read back by [int] as they stand. *)
Lemma int_of_digits (u : Decimal.uint) :
  u <> Decimal.Nil ->
  int_of_str (NilEmpty.string_of_uint u) = Some (Z.of_N (Pos.of_uint u)).
Proof.
  intros Hu. unfold int_of_str.
  rewrite (rstrip_digits _ (all_digits_uint u)),
          (lstrip_digits _ (all_digits_uint u)).
  rewrite <- (parse_digits_uint u false) by (right; exact Hu).
  destruct u; try contradiction; reflexivity.
Qed.

Lemma int_of_minus_digits (u : Decimal.uint) :
  u <> Decimal.Nil ->
  int_of_str (String "-" (NilEmpty.string_of_uint u))
  = Some (- Z.of_N (Pos.of_uint u)).
Proof.
  intros Hu. unfold int_of_str.
  cbn [int_rstrip]. rewrite (rstrip_digits _ (all_digits_uint u)).
  change (int_isspace "-") with false. cbn [andb int_lstrip].
  change (int_isspace "-") with false. cbv iota.
  rewrite (parse_digits_uint u false) by (right; exact Hu). reflexivity.
Qed.

Lemma int_of_str_of_int (n : Z) : int_of_str (of_int n) = Some n.
Proof.
  unfold of_int. destruct n as [| p | p]; [reflexivity | |];
    cbn [Z.to_int NilZero.string_of_int];
    pose proof (DecimalPos.Unsigned.to_uint_nonnil p) as Hnil;
    pose proof (DecimalPos.Unsigned.of_to p) as Hof;
    unfold NilZero.string_of_uint;
    destruct (Pos.to_uint p) as [| u | u | u | u | u | u | u | u | u | u] eqn:Eu;
    try contradiction.
  all: first [ rewrite int_of_digits by discriminate
             | rewrite int_of_minus_digits by discriminate ];
    rewrite Hof; reflexivity.
Qed.

(** X13. The host port of a binding survives the trip through [int] and
    the f-string: [int(str(n))] is [n] for every integer within the
    interpreter's default limit of 4300 digits on decimal conversions, so a
    port whose first binding carries the decimal text of [n] as its
    [HostPort] is reported as [name->n], whatever else the binding holds. *)
Theorem host_port_text_round_trip :
  (forall n : Z, Z.abs n < 10 ^ 4300 -> int_of (JStr (of_int n)) = Ok n)
  /\ (forall (name : string) (d : list (string * json)) (rest : list json) (n : Z),
        Z.abs n < 10 ^ 4300 ->
        dict_get d "HostPort" = Some (JStr (of_int n)) ->
        port_entry (name, JList (JDict d :: rest)) = [name ++ "->" ++ of_int n]).
Proof.
  split.
  - intros n _. cbn [int_of]. rewrite int_of_str_of_int. reflexivity.
  - intros name d rest n _ Hd.
    cbn [port_entry truthy getitem_int nth_error of_option bind getitem].
    rewrite Hd. cbn [of_option bind int_of].
    rewrite int_of_str_of_int. reflexivity.
Qed.

Lemma host_port_text_round_trip_witness :
  port_entry ("80/tcp", JList [JDict [ ("HostIp", JStr "0.0.0.0");
                                       ("HostPort", JStr "20001") ]])
  = ["80/tcp->20001"].
Proof.
  refine (proj2 host_port_text_round_trip "80/tcp"
            [("HostIp", JStr "0.0.0.0"); ("HostPort", JStr "20001")] [] 20001
            _ eq_refl).
  vm_compute. reflexivity.
Defined.

(** ** The ports column *)

Lemma guarded_lookup (attrs ns p : json) :
  get attrs "NetworkSettings" (JDict []) = Ok ns ->
  get ns "Ports" JNull = Ok p ->
  truthy p = true ->
  getitem attrs "NetworkSettings" = Ok ns /\ getitem ns "Ports" = Ok p.
Proof.
  intros Hns Hp Ht.
  destruct attrs as [| | | | | a]; try discriminate Hns.
  cbn [get getitem] in *.
  destruct (dict_get a "NetworkSettings") as [ns' |].
  - injection Hns as <-. split; [reflexivity |].
    destruct ns' as [| | | | | n]; try discriminate Hp.
    cbn [get getitem] in *.
    destruct (dict_get n "Ports") as [p' |].
    + injection Hp as <-. reflexivity.
    + injection Hp as <-. discriminate Ht.
  - injection Hns as <-. cbn in Hp. injection Hp as <-. discriminate Ht.
Qed.

Lemma unpublished_no_entry (d : list (string * json)) :
  forallb unpublished d = true -> flat_map port_entry d = [].
Proof.
  induction d as [| [k v] d IH]; [reflexivity |].
  cbn [forallb flat_map]. intros H. apply andb_prop in H as [Hv Hd].
  rewrite (IH Hd). unfold unpublished in Hv. cbn [snd] in Hv.
  cbn [port_entry]. destruct (truthy v); [discriminate Hv | reflexivity].
Qed.

(** X14. The ports column, by the shape of the [Ports] entry of the
    inspection document.  A missing, null or empty entry gives [N/A].  A
    non-empty dictionary never raises: the second lookup of the entry
    cannot fail once the guard has passed, and malformed bindings are
    dropped; when no port is published the column is the empty text, not
    [N/A].  A non-empty entry of any other type raises [AttributeError]. *)
Theorem ports_column_cases :
  forall attrs ns p : json,
    get attrs "NetworkSettings" (JDict []) = Ok ns ->
    get ns "Ports" JNull = Ok p ->
    (truthy p = false -> ports_of attrs = Ok ["N/A"])
    /\ (forall d, p = JDict d -> d <> [] ->
          ports_of attrs = Ok (flat_map port_entry d)
          /\ (forallb unpublished d = true ->
              join ", " (flat_map port_entry d) = EmptyString))
    /\ (truthy p = true -> (forall d, p <> JDict d) ->
        ports_of attrs = Raise AttributeError).
Proof.
  intros attrs ns p Hns Hp. split; [| split].
  - intros Ht. unfold ports_of. rewrite Hns. cbn [bind]. rewrite Hp. cbn [bind].
    rewrite Ht. reflexivity.
  - intros d -> Hd.
    assert (Ht : truthy (JDict d) = true) by (destruct d; [contradiction | reflexivity]).
    destruct (guarded_lookup _ _ _ Hns Hp Ht) as [H1 H2].
    split.
    + unfold ports_of. rewrite Hns. cbn [bind]. rewrite Hp. cbn [bind].
      rewrite Ht, H1. cbn [bind]. rewrite H2. reflexivity.
    + intros Hu. rewrite (unpublished_no_entry d Hu). reflexivity.
  - intros Ht Hnd.
    destruct (guarded_lookup _ _ _ Hns Hp Ht) as [H1 H2].
    unfold ports_of. rewrite Hns. cbn [bind]. rewrite Hp. cbn [bind].
    rewrite Ht, H1. cbn [bind]. rewrite H2. cbn [bind].
    destruct p; try reflexivity. exfalso. exact (Hnd _ eq_refl).
Qed.

Lemma ports_column_cases_witness :
  ports_of (JDict []) = Ok ["N/A"]
  /\ join ", " (flat_map port_entry [ ("80/tcp", JNull); ("443/tcp", JNull) ])
     = EmptyString
  /\ ports_of (JDict [("NetworkSettings", JDict [("Ports", JStr "80/tcp")])])
     = Raise AttributeError.
Proof.
  split; [| split].
  - exact (proj1 (ports_column_cases (JDict []) (JDict []) JNull eq_refl eq_refl)
             eq_refl).
  - refine (proj2 (proj1 (proj2 (ports_column_cases unpublished_attrs _ _
                                   eq_refl eq_refl))
                     [ ("80/tcp", JNull); ("443/tcp", JNull) ] eq_refl _) eq_refl).
    discriminate.
  - refine (proj2 (proj2 (ports_column_cases
                            (JDict [("NetworkSettings", JDict [("Ports", JStr "80/tcp")])])
                            _ _ eq_refl eq_refl)) eq_refl _).
    discriminate.
Defined.

(** ** The loop over the containers *)

Lemma collect_all_cons (c : container) (cs : list container) :
  collect_all (c :: cs)
  = ((fst (collect_one c) ++ fst (collect_all cs))%list,
     (match snd (collect_one c) with Some r => [r] | None => [] end
      ++ snd (collect_all cs))%list).
Proof.
  cbn [collect_all]. destruct (collect_one c) as [ev1 [r |]];
    destruct (collect_all cs) as [ev2 rows]; reflexivity.
Qed.

Lemma collect_all_app (cs1 cs2 : list container) :
  collect_all (cs1 ++ cs2)
  = ((fst (collect_all cs1) ++ fst (collect_all cs2))%list,
     (snd (collect_all cs1) ++ snd (collect_all cs2))%list).
Proof.
  induction cs1 as [| c cs1 IH].
  - cbn [app collect_all fst snd]. destruct (collect_all cs2); reflexivity.
  - rewrite <- app_comm_cons, !collect_all_cons, IH. cbn [fst snd].
    rewrite !app_assoc. reflexivity.
Qed.

(** X15. The report of a batch is the concatenation of the reports of its
    parts, in listing order: the row of a container does not depend on the
    containers around it, and a container that fails leaves the rows of
    the others as they are without it. *)
Theorem batch_report_is_concatenation :
  forall cs1 cs2 : list container,
    collect_all (cs1 ++ cs2)
    = ((fst (collect_all cs1) ++ fst (collect_all cs2))%list,
       (snd (collect_all cs1) ++ snd (collect_all cs2))%list)
    /\ (forall c, snd (collect_one c) = None ->
          snd (collect_all (cs1 ++ c :: cs2)) = snd (collect_all (cs1 ++ cs2))).
Proof.
  intros cs1 cs2. split; [apply collect_all_app |].
  intros c Hc. rewrite !collect_all_app, collect_all_cons, Hc. reflexivity.
Qed.

Lemma batch_report_is_concatenation_witness :
  snd (collect_all [sample_running; sample_vanished; sample_exited])
  = snd (collect_all [sample_running; sample_exited]).
Proof.
  exact (proj2 (batch_report_is_concatenation [sample_running] [sample_exited])
           sample_vanished eq_refl).
Defined.

Lemma stats_calls_app (e1 e2 : list event) :
  stats_calls (e1 ++ e2) = (stats_calls e1 ++ stats_calls e2)%list.
Proof.
  induction e1 as [| e e1 IH]; [reflexivity |].
  destruct e; cbn [app stats_calls]; rewrite IH; reflexivity.
Qed.

Lemma errors_logged_app (e1 e2 : list event) :
  errors_logged (e1 ++ e2) = (errors_logged e1 + errors_logged e2)%nat.
Proof.
  induction e1 as [| e e1 IH]; [reflexivity |].
  destruct e; cbn [app errors_logged]; rewrite IH; reflexivity.
Qed.

(** What one turn of the loop leaves behind: the request for live
    counters if the container runs, then a row or an error record. *)
Lemma collect_one_cases (c : container) :
  (exists r,
      collect_one c = ((if is_running c then [EvStats (c_id c)] else []), Some r)
      /\ container_id r = take 12 (c_id c)
      /\ container_name r = c_name c
      /\ status r = c_status c)
  \/ (exists e,
        collect_one c
        = (((if is_running c then [EvStats (c_id c)] else [])
            ++ [collect_error c e])%list, None)).
Proof.
  unfold collect_one, usage_of, is_running, collect_error.
  destruct (String.eqb (c_status c) "running").
  - destruct (c_stats c) as [stats | e]; cbn [bind]; [| right; eexists; reflexivity].
    destruct (cpu_percent_of stats) as [x | e]; cbn [bind];
      [| right; eexists; reflexivity].
    destruct (mem_of stats) as [[[mu ml] m] | e]; cbn [bind];
      [| right; eexists; reflexivity].
    destruct (ports_of (c_attrs c)) as [ps | e]; cbn [bind];
      [| right; eexists; reflexivity].
    left. eexists. repeat split.
  - cbn [bind].
    destruct (ports_of (c_attrs c)) as [ps | e]; cbn [bind];
      [| right; eexists; reflexivity].
    left. eexists. repeat split.
Qed.

Lemma stats_calls_one (c : container) :
  stats_calls (fst (collect_one c)) = if is_running c then [c_id c] else [].
Proof.
  destruct (collect_one_cases c) as [(r & -> & _) | (e & ->)]; cbn [fst];
    [| rewrite stats_calls_app]; destruct (is_running c); reflexivity.
Qed.

Lemma accounted_one (c : container) :
  (List.length (match snd (collect_one c) with Some r => [r] | None => [] end)
   + errors_logged (fst (collect_one c)) = 1)%nat.
Proof.
  destruct (collect_one_cases c) as [(r & -> & _) | (e & ->)]; cbn [fst snd];
    [| rewrite errors_logged_app]; destruct (is_running c); reflexivity.
Qed.

Lemma stats_calls_all (cs : list container) :
  stats_calls (fst (collect_all cs)) = map c_id (filter is_running cs).
Proof.
  induction cs as [| c cs IH]; [reflexivity |].
  rewrite collect_all_cons. cbn [fst filter].
  rewrite stats_calls_app, stats_calls_one, IH.
  destruct (is_running c); reflexivity.
Qed.

Lemma accounted_all (cs : list container) :
  (List.length (snd (collect_all cs)) + errors_logged (fst (collect_all cs))
   = List.length cs)%nat.
Proof.
  induction cs as [| c cs IH]; [reflexivity |].
  rewrite collect_all_cons. cbn [fst snd List.length].
  rewrite errors_logged_app, List.length_app.
  pose proof (accounted_one c). lia.
Qed.

Lemma take_length (n : nat) (s : string) :
  (String.length (take n s) <= n)%nat.
Proof.
  unfold take. revert s. induction n as [| n IH]; intros [| c s];
    cbn [substring String.length]; try lia.
  specialize (IH s). lia.
Qed.

Lemma rows_from_containers (cs : list container) (r : row) :
  In r (snd (collect_all cs)) ->
  exists c, In c cs
            /\ snd (collect_one c) = Some r
            /\ container_id r = take 12 (c_id c)
            /\ container_name r = c_name c
            /\ status r = c_status c.
Proof.
  induction cs as [| c cs IH]; [intros [] |].
  rewrite collect_all_cons. cbn [snd]. intros Hin.
  apply in_app_or in Hin as [Hin | Hin].
  - exists c. split; [left; reflexivity |].
    destruct (collect_one_cases c) as [(r' & E & Hid & Hn & Hs) | (e & E)];
      rewrite E in *; cbn [snd] in *; [| contradiction].
    destruct Hin as [<- | []]. repeat split; assumption.
  - destruct (IH Hin) as (c' & Hc' & H). exists c'.
    split; [right; exact Hc' | exact H].
Qed.

(** X16. Live counters are requested once for each listed container that
    runs, in listing order, and for no other container; this holds
    whichever containers fail.  The listing itself is asked for once,
    before anything else. *)
Theorem stats_requested_once_per_running_container :
  forall (cl : client) (all : bool) (cs : list container),
    containers_list cl all = Ok cs ->
    exists evs rows,
      collect_container_stats (Some cl) all = (EvList all :: evs, Ok rows)
      /\ stats_calls evs = map c_id (filter is_running cs)
      /\ (forall a, ~ In (EvList a) evs).
Proof.
  intros cl all cs Hl. unfold collect_container_stats. rewrite Hl.
  destruct (collect_all cs) as [evs rows] eqn:E.
  exists evs, rows. split; [reflexivity |].
  replace evs with (fst (collect_all cs)) by (rewrite E; reflexivity).
  split; [apply stats_calls_all |].
  intros a. clear E Hl. induction cs as [| c cs IH]; [intros [] |].
  rewrite collect_all_cons. cbn [fst]. intros Hin.
  apply in_app_or in Hin as [Hin | Hin]; [| exact (IH Hin)].
  destruct (collect_one_cases c) as [(r & E & _) | (e & E)]; rewrite E in Hin;
    cbn [fst] in Hin; destruct (is_running c); cbn in Hin;
    repeat (destruct Hin as [Hin | Hin]; [discriminate Hin |]); exact Hin.
Qed.

Lemma stats_requested_once_per_running_container_witness :
  exists evs rows,
    collect_container_stats (Some sample_listing) true = (EvList true :: evs, Ok rows)
    /\ stats_calls evs = ["0123456789abcdef0123"]
    /\ (forall a, ~ In (EvList a) evs).
Proof.
  exact (stats_requested_once_per_running_container sample_listing true
           [sample_running; sample_exited] eq_refl).
Defined.

(** X17. With a client, [collect_container_stats] raises exactly when the
    listing raises, and then with the listing's exception and no row.
    Otherwise every listed container is accounted for by one row or by one
    error record, and every row carries the name and status of a listed
    container and the first twelve characters of its identifier. *)
Theorem every_container_is_reported_or_logged :
  forall (cl : client) (all : bool),
    (forall e, containers_list cl all = Raise e ->
               collect_container_stats (Some cl) all = ([EvList all], Raise e))
    /\ (forall cs, containers_list cl all = Ok cs ->
          exists evs rows,
            collect_container_stats (Some cl) all = (evs, Ok rows)
            /\ (List.length rows + errors_logged evs = List.length cs)%nat
            /\ forall r, In r rows ->
                 (String.length (container_id r) <= 12)%nat
                 /\ exists c, In c cs
                              /\ container_id r = take 12 (c_id c)
                              /\ container_name r = c_name c
                              /\ status r = c_status c).
Proof.
  intros cl all. split.
  - intros e He. unfold collect_container_stats. rewrite He. reflexivity.
  - intros cs Hl. unfold collect_container_stats. rewrite Hl.
    pose proof (accounted_all cs) as Hacc.
    pose proof (rows_from_containers cs) as Hrows.
    destruct (collect_all cs) as [evs rows]. cbn [fst snd] in *.
    exists (EvList all :: evs), rows. split; [reflexivity |].
    split; [exact Hacc |].
    intros r Hr. destruct (Hrows r Hr) as (c & Hc & _ & Hid & Hn & Hs).
    split; [rewrite Hid; apply take_length |].
    exists c. repeat split; assumption.
Qed.

Lemma every_container_is_reported_or_logged_witness :
  exists evs rows,
    collect_container_stats (Some sample_listing) true = (evs, Ok rows)
    /\ (List.length rows + errors_logged evs = 2)%nat
    /\ forall r, In r rows ->
         (String.length (container_id r) <= 12)%nat
         /\ exists c, In c [sample_running; sample_exited]
                      /\ container_id r = take 12 (c_id c)
                      /\ container_name r = c_name c
                      /\ status r = c_status c.
Proof.
  exact (proj2 (every_container_is_reported_or_logged sample_listing true)
           [sample_running; sample_exited] eq_refl).
Defined.

(** ** Incomplete and broken readings *)

(** X18. A stats document without a current or a previous CPU snapshot
    (the first reading of a container) measures 0.0 percent CPU; one
    without a memory section measures usage 0 under limit 1, hence 0.0
    percent.  The row of such a running container is reported with these
    values: its limit column is 1, where a stopped container has 0. *)
Theorem first_reading_reports_zero :
  forall d : list (string * json),
    (dict_get d "cpu_stats" = None \/ dict_get d "precpu_stats" = None ->
     cpu_percent_of (JDict d) = Ok PyFloat.zero)
    /\ (dict_get d "memory_stats" = None ->
        mem_of (JDict d) = Ok (JInt 0, JInt 1, NFloat PyFloat.zero))
    /\ (forall (c : container) (ps : list string),
          c_status c = "running" ->
          c_stats c = Ok (JDict d) ->
          dict_get d "precpu_stats" = None ->
          dict_get d "memory_stats" = None ->
          ports_of (c_attrs c) = Ok ps ->
          collect_one c
          = ([EvStats (c_id c)],
             Some {| container_id := take 12 (c_id c);
                     container_name := c_name c;
                     status := c_status c;
                     container_cpu_pct := NFloat PyFloat.zero;
                     container_mem_pct := NFloat PyFloat.zero;
                     container_mem_usage_bytes := JInt 0;
                     container_mem_limit_bytes := JInt 1;
                     ports := join ", " ps |})).
Proof.
  intros d.
  assert (Hcpu : dict_get d "cpu_stats" = None \/ dict_get d "precpu_stats" = None ->
                 cpu_percent_of (JDict d) = Ok PyFloat.zero).
  { intros [H | H]; unfold cpu_percent_of; cbn [get bind]; rewrite H;
      cbn [truthy andb]; [reflexivity |].
    rewrite andb_false_r. reflexivity. }
  assert (Hmem : dict_get d "memory_stats" = None ->
                 mem_of (JDict d) = Ok (JInt 0, JInt 1, NFloat PyFloat.zero)).
  { intros H. unfold mem_of. cbn [get bind]. rewrite H. vm_compute. reflexivity. }
  split; [exact Hcpu |]. split; [exact Hmem |].
  intros c ps Hs Hst Hp Hm Hports.
  rewrite (collect_one_running c (JDict d) PyFloat.zero (JInt 0) (JInt 1)
             (NFloat PyFloat.zero) ps Hs Hst (Hcpu (or_intror Hp)) (Hmem Hm) Hports).
  reflexivity.
Qed.

Lemma first_reading_reports_zero_witness :
  option_map (fun r => (container_cpu_pct r, container_mem_pct r,
                        container_mem_usage_bytes r, container_mem_limit_bytes r))
    (snd (collect_one sample_first_reading))
  = Some (NFloat PyFloat.zero, NFloat PyFloat.zero, JInt 0, JInt 1).
Proof.
  rewrite (proj2 (proj2 (first_reading_reports_zero _)) sample_first_reading
             ["80/tcp->20001"] eq_refl eq_refl eq_refl eq_refl eq_refl).
  reflexivity.
Defined.

(** X19. A running container whose counters cannot be read is left out of
    the report and costs one error record after the request: when the
    request itself fails, when the answer is not a dictionary, and when
    both CPU snapshots are present but the current one has no [cpu_usage]
    section ([KeyError]). *)
Theorem broken_reading_loses_the_row :
  forall c : container,
    c_status c = "running" ->
    (forall e, c_stats c = Raise e ->
               collect_one c = ([EvStats (c_id c); collect_error c e], None))
    /\ (forall j, c_stats c = Ok j -> (forall d, j <> JDict d) ->
          collect_one c = ([EvStats (c_id c); collect_error c AttributeError], None))
    /\ (forall d cs ps,
          c_stats c = Ok (JDict d) ->
          dict_get d "cpu_stats" = Some (JDict cs) -> cs <> [] ->
          dict_get cs "cpu_usage" = None ->
          dict_get d "precpu_stats" = Some ps -> truthy ps = true ->
          collect_one c
          = ([EvStats (c_id c); collect_error c (KeyError "cpu_usage")], None)).
Proof.
  intros c Hs. unfold collect_one, usage_of, collect_error. rewrite Hs.
  cbn [String.eqb Ascii.eqb Bool.eqb]. split; [| split].
  - intros e ->. reflexivity.
  - intros j -> Hj. destruct j; try reflexivity. exfalso. exact (Hj _ eq_refl).
  - intros d cs ps -> Hcs Hne Hcu Hps Ht.
    unfold cpu_percent_of. cbn [bind get]. rewrite Hcs, Hps, Ht.
    destruct cs as [| kv cs']; [contradiction |].
    cbn [truthy andb getitem]. rewrite Hcu. reflexivity.
Qed.

Lemma broken_reading_loses_the_row_witness :
  collect_one sample_vanished
  = ([EvStats "abcdefabcdefabcdefab";
      collect_error sample_vanished (APIError "No such container")], None)
  /\ collect_one sample_half_snapshot
     = ([EvStats "99ff88ee77dd66cc55bb";
         collect_error sample_half_snapshot (KeyError "cpu_usage")], None).
Proof.
  split.
  - exact (proj1 (broken_reading_loses_the_row sample_vanished eq_refl)
             _ eq_refl).
  - refine (proj2 (proj2 (broken_reading_loses_the_row sample_half_snapshot eq_refl))
              _ [("system_cpu_usage", JInt 5000)] _ eq_refl eq_refl _ eq_refl
              eq_refl eq_refl).
    discriminate.
Defined.

(** ** Exact percentages *)

Lemma spec_mem_percent_multiple (l k : positive) :
  Zpos k * 100 < 2 ^ 53 ->
  spec_mem_percent (Zpos (l * k)) (Zpos l) = Ok (PyFloat.of_Z (Zpos k * 100)).
Proof.
  intros Hk.
  assert (Hq : 0 < Zpos k * 100 < 2 ^ 53) by lia.
  rewrite (PyFloatProofs.of_Z_canon _ Hq).
  unfold spec_mem_percent, truediv, PyFloat.int_truediv.
  cbn [Z.eqb Z.ltb Z.compare Z.abs Z.to_pos].
  rewrite (PyFloatProofs.SFdiv_exact l k) by lia.
  cbn [PyFloat.canon PyFloat.is_finite of_option bind].
  unfold mul_int.
  change (PyFloat.of_int 100) with (Some (PyFloat.of_Z 100)).
  cbn [of_option bind]. unfold PyFloat.mul.
  rewrite (PyFloatProofs.of_Z_canon 100) by lia.
  fold (PyFloat.canon (Zpos k)).
  rewrite PyFloatProofs.SFmul_exact by lia. reflexivity.
Qed.

(** X20. When the memory usage is a whole multiple [k] of the limit, the
    percentage is the number [k * 100] exactly, and [round(., 2)] leaves
    it unchanged; in particular a container at its limit reports 100.0
    whatever the limit is. *)
Theorem memory_percent_exact_at_multiples :
  forall (stats ms : json) (l k : positive),
    get stats "memory_stats" (JDict []) = Ok ms ->
    get ms "usage" (JInt 0) = Ok (JInt (Zpos (l * k))) ->
    get ms "limit" (JInt 1) = Ok (JInt (Zpos l)) ->
    Zpos k * 100 < 2 ^ 53 ->
    mem_of stats
    = Ok (JInt (Zpos (l * k)), JInt (Zpos l), NFloat (PyFloat.of_Z (Zpos k * 100)))
    /\ round2 (NFloat (PyFloat.of_Z (Zpos k * 100)))
       = NFloat (PyFloat.of_Z (Zpos k * 100)).
Proof.
  intros stats ms l k Hms Hu Hl Hk. split.
  - rewrite (mem_of_nonzero _ _ _ _ Hms Hu Hl) by discriminate.
    rewrite (spec_mem_percent_multiple l k Hk). reflexivity.
  - cbn [round2]. rewrite (PyFloatProofs.of_Z_canon (Zpos k * 100)) by lia.
    rewrite PyFloatProofs.round_exact by lia. reflexivity.
Qed.

Lemma memory_percent_exact_at_multiples_witness :
  mem_of (sample_stats [] [("usage", JInt 1024000000); ("limit", JInt 1024000000)])
  = Ok (JInt 1024000000, JInt 1024000000, NFloat (PyFloat.of_Z 100)).
Proof.
  exact (proj1 (memory_percent_exact_at_multiples
                  (sample_stats [] [("usage", JInt 1024000000);
                                    ("limit", JInt 1024000000)])
                  _ 1024000000 1 eq_refl eq_refl eq_refl ltac:(reflexivity))).
Defined.

(** ** CPU readings of 0.0 *)

Lemma cpu_percent_of_deltas (stats cs ps : json) (t1 t0 s1 s0 : Z) :
  get stats "cpu_stats" (JDict []) = Ok cs ->
  get stats "precpu_stats" (JDict []) = Ok ps ->
  cpu_snapshot cs t1 s1 ->
  cpu_snapshot ps t0 s0 ->
  cpu_percent_of stats
  = (online_cpus <- online_cpus_of cs ;;
     if 0 <? s1 - s0 then
       positive_cpus <- gt online_cpus 0 ;;
       if positive_cpus then
         q <- truediv (t1 - t0) (s1 - s0) ;;
         n <- as_int online_cpus ;;
         x <- mul_int q n ;;
         mul_int x 100
       else Ok PyFloat.zero
     else Ok PyFloat.zero).
Proof.
  intros Hcs Hps [(cu & Hcu & Ht1) Hs1] [(pu & Hpu & Ht0) Hs0].
  unfold cpu_percent_of. rewrite Hcs, Hps. cbn [bind].
  rewrite (getitem_truthy _ _ _ Hcu), (getitem_truthy _ _ _ Hpu). cbn [andb].
  rewrite Hcu. cbn [bind]. rewrite Ht1. cbn [bind].
  rewrite Hpu. cbn [bind]. rewrite Ht0. cbn [bind sub as_int].
  rewrite Hs1. cbn [bind]. rewrite Hs0. cbn [bind sub as_int].
  reflexivity.
Qed.

(** X21. Two readings of exactly 0.0 besides a host clock that did not
    advance: a container that used no CPU time between the two snapshots,
    on any positive count of online CPUs below 2^53; and a negative count
    of online CPUs, which the guard [online_cpus > 0] turns into 0.0
    whatever the counters say. *)
Theorem idle_or_miscounted_cpu_reports_zero :
  forall (stats cs ps : json) (t1 t0 s1 s0 n : Z),
    get stats "cpu_stats" (JDict []) = Ok cs ->
    get stats "precpu_stats" (JDict []) = Ok ps ->
    cpu_snapshot cs t1 s1 ->
    cpu_snapshot ps t0 s0 ->
    get cs "online_cpus" JNull = Ok (JInt n) ->
    (t1 = t0 -> 0 < s1 - s0 -> 0 < n < 2 ^ 53 ->
     cpu_percent_of stats = Ok PyFloat.zero)
    /\ (n < 0 -> cpu_percent_of stats = Ok PyFloat.zero).
Proof.
  intros stats cs ps t1 t0 s1 s0 n Hcs Hps H1 H0 Hn.
  rewrite (cpu_percent_of_deltas _ _ _ _ _ _ _ Hcs Hps H1 H0).
  unfold online_cpus_of. rewrite Hn. cbn [bind truthy].
  split.
  - intros -> Hs Hb.
    destruct (Z.eqb_spec n 0); [lia |]. cbn [negb bind gt as_int].
    destruct (Z.ltb_spec 0 (s1 - s0)); [| lia].
    destruct (Z.ltb_spec 0 n); [| lia].
    rewrite Z.sub_diag. unfold truediv.
    destruct (Z.eqb_spec (s1 - s0) 0); [lia |].
    cbn [PyFloat.int_truediv of_option bind].
    destruct (Z.ltb_spec (s1 - s0) 0); [lia |].
    unfold mul_int, PyFloat.of_int.
    rewrite (PyFloatProofs.of_Z_canon n Hb).
    cbn [PyFloat.canon PyFloat.is_finite of_option bind PyFloat.mul SFmul xorb].
    reflexivity.
  - intros Hneg.
    destruct (Z.eqb_spec n 0); [lia |]. cbn [negb bind gt as_int].
    destruct (Z.ltb_spec 0 n); [lia |].
    destruct (0 <? s1 - s0); reflexivity.
Qed.

Lemma idle_or_miscounted_cpu_reports_zero_witness :
  cpu_percent_of idle_stats = Ok PyFloat.zero
  /\ cpu_percent_of (sample_stats [("online_cpus", JInt (-4))] []) = Ok PyFloat.zero.
Proof.
  split.
  - refine (proj1 (idle_or_miscounted_cpu_reports_zero idle_stats _ _
                     1000 1000 5000 4000 4 eq_refl eq_refl _ _ eq_refl)
              eq_refl _ _).
    + split; [eexists; split; reflexivity | reflexivity].
    + split; [eexists; split; reflexivity | reflexivity].
    + reflexivity.
    + split; reflexivity.
  - refine (proj2 (idle_or_miscounted_cpu_reports_zero
                     (sample_stats [("online_cpus", JInt (-4))] []) _ _
                     1200 1000 5000 4000 (-4) eq_refl eq_refl _ _ eq_refl) _).
    + split; [eexists; split; reflexivity | reflexivity].
    + split; [eexists; split; reflexivity | reflexivity].
    + reflexivity.
Defined.

End ReportingProofs.
